(** * agent-parser: the line-classification and field-extraction core

    A shallow embedding of [app/core/line_parser.py], [education_parser.py],
    [text_normalization.py], [confidence_calculator.py] and the two repair
    helpers of [pdf_extractor.py], followed by the properties of the
    specification that are stated about them.

    Conventions of the embedding.
    - A Python [str] is a list of Unicode code points ([pystr]); literals are
      written as UTF-8 strings and decoded by [py].
    - Whitespace is Python's [str.isspace] set.  Letters, digits and case are
      those of ASCII: a code point above U+007F is a symbol without case
      (this is what the bullets and dashes named in the sources are).
    - [re] patterns are abstract syntax trees run by a backtracking matcher
      with Python's priorities (leftmost, greedy or lazy as written).
    - Python [float] is IEEE binary64, i.e. Rocq's primitive [float].
    - A Python exception is a value [Raise e] of the error monad [exc].
    - Logging is not modelled: it does not reach the returned value.
    - Where a comment quotes a pattern of the source, a blank separates a
      star from a closing parenthesis that follows it. *)

From Stdlib Require Import NArith List String Ascii Bool Lia Permutation.
From Stdlib Require Import ZArith Uint63 Floats.
From Stdlib Require Import FunctionalExtensionality.
From stdpp Require Import gmap strings list.
Import ListNotations.

Set Warnings "-inexact-float".
Set Default Proof Using "Type".

(* ===================================================================== *)
(** ** Python strings *)
(* ===================================================================== *)

Definition char := N.
Definition pystr := list char.

Fixpoint utf8_decode (bs : list N) : pystr :=
  match bs with
  | [] => []
  | b0 :: t0 =>
    if (b0 <? 128)%N then b0 :: utf8_decode t0
    else match t0 with
    | [] => [b0]
    | b1 :: t1 =>
      if (b0 <? 224)%N then ((b0 - 192) * 64 + (b1 - 128))%N :: utf8_decode t1
      else match t1 with
      | [] => [b0]
      | b2 :: t2 =>
        if (b0 <? 240)%N
        then ((b0 - 224) * 4096 + (b1 - 128) * 64 + (b2 - 128))%N :: utf8_decode t2
        else match t2 with
        | [] => [b0]
        | b3 :: t3 =>
          ((b0 - 240) * 262144 + (b1 - 128) * 4096 + (b2 - 128) * 64 + (b3 - 128))%N
            :: utf8_decode t3
        end
      end
    end
  end.

(** [py "..."] is the Python string with that source text. *)
Definition py (s : string) : pystr :=
  utf8_decode (List.map N_of_ascii (list_ascii_of_string s)).

(** The single character of a one-character literal. *)
Definition ch (s : string) : char :=
  match py s with c :: _ => c | [] => 0%N end.

Definition in_range (lo hi c : N) : bool := ((lo <=? c) && (c <=? hi))%N.

(** [str.isspace] for one code point. *)
Definition is_space (c : char) : bool :=
  in_range 9 13 c || in_range 28 32 c || (c =? 133)%N || (c =? 160)%N
  || (c =? 5760)%N || in_range 8192 8202 c || (c =? 8232)%N || (c =? 8233)%N
  || (c =? 8239)%N || (c =? 8287)%N || (c =? 12288)%N.

Definition is_digit (c : char) : bool := in_range 48 57 c.
Definition is_upper (c : char) : bool := in_range 65 90 c.
Definition is_lower (c : char) : bool := in_range 97 122 c.
Definition is_alpha (c : char) : bool := is_upper c || is_lower c.
Definition is_alnum (c : char) : bool := is_alpha c || is_digit c.
(** [\w] *)
Definition is_word (c : char) : bool := is_alnum c || (c =? 95)%N.

Definition to_lower (c : char) : char := if is_upper c then (c + 32)%N else c.
Definition to_upper (c : char) : char := if is_lower c then (c - 32)%N else c.

Definition chr_eqb (a b : char) : bool := (a =? b)%N.

Fixpoint str_eqb (a b : pystr) : bool :=
  match a, b with
  | [], [] => true
  | x :: a', y :: b' => chr_eqb x y && str_eqb a' b'
  | _, _ => false
  end.

(** [x in S] for a set or list of strings. *)
Definition str_in (x : pystr) (l : list pystr) : bool := existsb (str_eqb x) l.
(** [c in "..."] for a character. *)
Definition chr_in (c : char) (l : pystr) : bool := existsb (chr_eqb c) l.

Definition lower (s : pystr) : pystr := List.map to_lower s.
Definition upper (s : pystr) : pystr := List.map to_upper s.

(** [s.isupper()]: some cased character, and no lowercase one. *)
Definition isupper (s : pystr) : bool := existsb is_upper s && negb (existsb is_lower s).
Definition islower (s : pystr) : bool := existsb is_lower s && negb (existsb is_upper s).
Definition isalpha (s : pystr) : bool :=
  match s with [] => false | _ => forallb is_alpha s end.

(** [s.title()] *)
Fixpoint title_aux (prev_cased : bool) (s : pystr) : pystr :=
  match s with
  | [] => []
  | c :: s' =>
    if is_lower c then (if prev_cased then c else to_upper c) :: title_aux true s'
    else if is_upper c then (if prev_cased then to_lower c else c) :: title_aux true s'
    else c :: title_aux false s'
  end.
Definition title (s : pystr) : pystr := title_aux false s.

(** [s.capitalize()] *)
Definition capitalize (s : pystr) : pystr :=
  match s with [] => [] | c :: s' => to_upper c :: lower s' end.

Fixpoint lstrip_by (p : char -> bool) (s : pystr) : pystr :=
  match s with
  | [] => []
  | c :: s' => if p c then lstrip_by p s' else s
  end.
Definition rstrip_by (p : char -> bool) (s : pystr) : pystr := rev (lstrip_by p (rev s)).
Definition strip_by (p : char -> bool) (s : pystr) : pystr := rstrip_by p (lstrip_by p s).

(** [s.strip()], [s.strip(chars)], [s.rstrip(chars)] *)
Definition strip (s : pystr) : pystr := strip_by is_space s.
Definition strip_chars (chars : pystr) (s : pystr) : pystr := strip_by (fun c => chr_in c chars) s.
Definition rstrip_chars (chars : pystr) (s : pystr) : pystr := rstrip_by (fun c => chr_in c chars) s.

(** [s.split()]: the maximal runs of non-whitespace. *)
Fixpoint split_ws_aux (cur : pystr) (s : pystr) : list pystr :=
  match s with
  | [] => match cur with [] => [] | _ => [rev cur] end
  | c :: s' =>
    if is_space c
    then match cur with [] => split_ws_aux [] s' | _ => rev cur :: split_ws_aux [] s' end
    else split_ws_aux (c :: cur) s'
  end.
Definition split_ws (s : pystr) : list pystr := split_ws_aux [] s.

(** [sep.join(parts)] *)
Fixpoint join (sep : pystr) (parts : list pystr) : pystr :=
  match parts with
  | [] => []
  | [p] => p
  | p :: ps => p ++ sep ++ join sep ps
  end.

Definition SP : pystr := [32%N].

(** [" ".join(s.split())] *)
Definition collapse_ws (s : pystr) : pystr := join SP (split_ws s).

Fixpoint is_prefix (p s : pystr) : bool :=
  match p, s with
  | [], _ => true
  | x :: p', y :: s' => chr_eqb x y && is_prefix p' s'
  | _, [] => false
  end.
Definition startswith (s p : pystr) : bool := is_prefix p s.
Definition endswith (s p : pystr) : bool := is_prefix (rev p) (rev s).

(** [s.find(sub)]: [None] stands for Python's [-1]. *)
Fixpoint find_from (i : nat) (sub s : pystr) : option nat :=
  if is_prefix sub s then Some i
  else match s with
       | [] => None
       | _ :: s' => find_from (S i) sub s'
       end.
Definition find (s sub : pystr) : option nat := find_from 0 sub s.

(** [sub in s] *)
Definition contains (s sub : pystr) : bool :=
  match find s sub with Some _ => true | None => false end.

(** [any(k in s for k in keys)] *)
Definition contains_any (s : pystr) (keys : list pystr) : bool :=
  existsb (contains s) keys.

(** [s.count(c)] for a one-character [c]. *)
Definition count_chr (c : char) (s : pystr) : nat :=
  List.length (List.filter (chr_eqb c) s).

(** [s[i:j]], [s[:i]], [s[i:]] for non-negative bounds. *)
Definition slice (s : pystr) (i j : nat) : pystr := firstn (j - i) (skipn i s).

(** [s.replace(old, new)] for a non-empty [old]. *)
Fixpoint replace_go (old new : pystr) (skip : nat) (s : pystr) : pystr :=
  match s with
  | [] => []
  | c :: s' =>
    match skip with
    | S k => replace_go old new k s'
    | O =>
      if is_prefix old s
      then new ++ replace_go old new (List.length old - 1) s'
      else c :: replace_go old new 0 s'
    end
  end.
Definition replace (s old new : pystr) : pystr := replace_go old new 0 s.

(** [s.split(sep, 1)] *)
Definition split_once (s sep : pystr) : list pystr :=
  match find s sep with
  | Some i => [firstn i s; skipn (i + List.length sep) s]
  | None => [s]
  end.

(** [s.split(sep)] for a one-character separator. *)
Fixpoint split_chr_aux (sep : char) (cur : pystr) (s : pystr) : list pystr :=
  match s with
  | [] => [rev cur]
  | c :: s' =>
    if chr_eqb c sep then rev cur :: split_chr_aux sep [] s'
    else split_chr_aux sep (c :: cur) s'
  end.
Definition split_chr (s : pystr) (sep : char) : list pystr := split_chr_aux sep [] s.

(** Truthiness of a string or list, and of an optional string ([if s:],
    [if not s:]). *)
Definition nonempty {A} (s : list A) : bool := match s with [] => false | _ => true end.
Definition truthy (o : option pystr) : bool :=
  match o with Some s => nonempty s | None => false end.
(** [o or ""] *)
Definition or_empty (o : option pystr) : pystr :=
  match o with Some s => s | None => [] end.

(** The last character, [s[-1]]. *)
Definition last_chr (s : pystr) : option char :=
  match rev s with c :: _ => Some c | [] => None end.

(* ===================================================================== *)
(** ** Regular expressions ([re]) *)
(* ===================================================================== *)

(** Members of a character class [[...]]. *)
Inductive cset_item : Type :=
| CChar (c : char)            (* a literal character *)
| CRange (lo hi : char)       (* a-z *)
| CSpace                      (* \s *)
| CDigit                      (* \d *)
| CWord.                      (* \w *)

Inductive re : Type :=
| RE_eps
| RE_any                                   (* .  (not a newline) *)
| RE_set (neg : bool) (items : list cset_item)   (* [...] and [^...] *)
| RE_bol                                   (* ^ *)
| RE_eol                                   (* $ *)
| RE_eos                                   (* end of string, for fullmatch *)
| RE_wordb                                 (* \b *)
| RE_cat (a b : re)
| RE_alt (a b : re)
| RE_rep (lo : nat) (hi : option nat) (greedy : bool) (a : re)
| RE_grp (n : nat) (a : re)                (* capturing group number n *)
| RE_ahead (a : re)                        (* (?=...) *)
| RE_behind (items : list cset_item).      (* (?<=[...]) *)

Definition item_mem (c : char) (it : cset_item) : bool :=
  match it with
  | CChar x => chr_eqb c x
  | CRange lo hi => in_range lo hi c
  | CSpace => is_space c
  | CDigit => is_digit c
  | CWord => is_word c
  end.

(** Membership in a class; under IGNORECASE a character belongs to the class
    when it or one of its case variants does. *)
Definition set_mem (icase : bool) (items : list cset_item) (c : char) : bool :=
  existsb (item_mem c) items
  || (icase && (existsb (item_mem (to_lower c)) items
                || existsb (item_mem (to_upper c)) items)).

Record mstate : Type := MState {
  m_pos : nat;                         (* index of the next character *)
  m_rest : pystr;                      (* the text from [m_pos] on *)
  m_prev : option char;                (* the character before [m_pos] *)
  m_caps : list (nat * (nat * nat))    (* group number -> (start, end) *)
}.

Definition advance (c : char) (rest : pystr) (st : mstate) : mstate :=
  MState (S (m_pos st)) rest (Some c) (m_caps st).

Definition set_cap (n start stop : nat) (st : mstate) : mstate :=
  MState (m_pos st) (m_rest st) (m_prev st) ((n, (start, stop)) :: m_caps st).

Definition or_else {A} (a : option A) (b : option A) : option A :=
  match a with Some x => Some x | None => b end.

Section Matcher.
Variable icase : bool.

(** The backtracking matcher in continuation-passing style: [mt r st k]
    matches [r] at [st] and then [k]; alternatives are tried in Python's
    order.  An iteration of a repetition beyond its minimum has to consume
    a character. *)
Fixpoint mt (r : re) (st : mstate) (k : mstate -> option mstate) {struct r}
  : option mstate :=
  match r with
  | RE_eps => k st
  | RE_any =>
    match m_rest st with
    | c :: rest => if chr_eqb c 10%N then None else k (advance c rest st)
    | [] => None
    end
  | RE_set neg items =>
    match m_rest st with
    | c :: rest => if xorb neg (set_mem icase items c) then k (advance c rest st) else None
    | [] => None
    end
  | RE_bol => if Nat.eqb (m_pos st) 0 then k st else None
  | RE_eol =>
    match m_rest st with
    | [] => k st
    | [c] => if chr_eqb c 10%N then k st else None
    | _ => None
    end
  | RE_eos => match m_rest st with [] => k st | _ => None end
  | RE_wordb =>
    let before := match m_prev st with Some c => is_word c | None => false end in
    let after := match m_rest st with c :: _ => is_word c | [] => false end in
    if xorb before after then k st else None
  | RE_cat a b => mt a st (fun st' => mt b st' k)
  | RE_alt a b => match mt a st k with Some x => Some x | None => mt b st k end
  | RE_grp n a => mt a st (fun st' => k (set_cap n (m_pos st) (m_pos st') st'))
  | RE_ahead a =>
    match mt a st Some with
    | Some st' => k (MState (m_pos st) (m_rest st) (m_prev st) (m_caps st'))
    | None => None
    end
  | RE_behind items =>
    match m_prev st with
    | Some c => if set_mem icase items c then k st else None
    | None => None
    end
  | RE_rep lo hi greedy a =>
    (fix loop (n : nat) (i : nat) (st : mstate) {struct n} : option mstate :=
       match n with
       | O => if Nat.leb lo i then k st else None
       | S n' =>
         if Nat.ltb i lo
         then mt a st (fun st' => loop n' (S i) st')
         else if greedy
         then match mt a st (fun st' => if Nat.ltb (m_pos st) (m_pos st')
                                        then loop n' (S i) st' else None) with
              | Some x => Some x
              | None => k st
              end
         else match k st with
              | Some x => Some x
              | None => mt a st (fun st' => if Nat.ltb (m_pos st) (m_pos st')
                                            then loop n' (S i) st' else None)
              end
       end)
      (match hi with Some h => h | None => lo + List.length (m_rest st) end) 0 st
  end.
End Matcher.

(** A compiled pattern: the tree and the IGNORECASE flag. *)
Record pattern : Type := Pattern { p_re : re; p_icase : bool }.

(** A match object: the subject, the span and the groups. *)
Record mobj : Type := MObj {
  mo_text : pystr;
  mo_start : nat;
  mo_end : nat;
  mo_caps : list (nat * (nat * nat))
}.

Fixpoint cap_lookup (n : nat) (caps : list (nat * (nat * nat))) : option (nat * nat) :=
  match caps with
  | [] => None
  | (m, se) :: caps' => if Nat.eqb m n then Some se else cap_lookup n caps'
  end.

(** [m.group(0)] *)
Definition group0 (m : mobj) : pystr := slice (mo_text m) (mo_start m) (mo_end m).
(** [m.group(n)]: [None] when the group did not take part in the match. *)
Definition group (m : mobj) (n : nat) : option pystr :=
  match cap_lookup n (mo_caps m) with
  | Some (s, e) => Some (slice (mo_text m) s e)
  | None => None
  end.
(** [m.start(n)] *)
Definition group_start (m : mobj) (n : nat) : option nat :=
  match cap_lookup n (mo_caps m) with Some (s, _) => Some s | None => None end.
(** A group in a replacement template ([\1]): empty when unset. *)
Definition grp (m : mobj) (n : nat) : pystr := or_empty (group m n).

Definition match_here (p : pattern) (text : pystr) (pos : nat) (prev : option char)
    (rest : pystr) : option mobj :=
  match mt (p_icase p) (p_re p) (MState pos rest prev []) Some with
  | Some st => Some (MObj text pos (m_pos st) (m_caps st))
  | None => None
  end.

(** [p.match(text)] *)
Definition re_match (p : pattern) (text : pystr) : option mobj :=
  match_here p text 0 None text.

(** [p.fullmatch(text)] *)
Definition re_fullmatch (p : pattern) (text : pystr) : option mobj :=
  match_here (Pattern (RE_cat (p_re p) RE_eos) (p_icase p)) text 0 None text.

Fixpoint search_go (p : pattern) (text : pystr) (pos : nat) (prev : option char)
    (rest : pystr) : option mobj :=
  match match_here p text pos prev rest with
  | Some m => Some m
  | None =>
    match rest with
    | [] => None
    | c :: rest' => search_go p text (S pos) (Some c) rest'
    end
  end.

(** [p.search(text)]: the leftmost match. *)
Definition re_search (p : pattern) (text : pystr) : option mobj :=
  search_go p text 0 None text.

Definition is_some {A} (o : option A) : bool :=
  match o with Some _ => true | None => false end.

(** All non-overlapping matches, left to right ([finditer]). *)
Fixpoint finditer_go (p : pattern) (text : pystr) (pos : nat) (prev : option char)
    (rest : pystr) (skip : nat) : list mobj :=
  match skip with
  | S k =>
    match rest with
    | [] => []
    | c :: rest' => finditer_go p text (S pos) (Some c) rest' k
    end
  | O =>
    match match_here p text pos prev rest with
    | Some m =>
      m :: match rest with
           | [] => []
           | c :: rest' =>
             finditer_go p text (S pos) (Some c) rest' (mo_end m - pos - 1)
           end
    | None =>
      match rest with
      | [] => []
      | c :: rest' => finditer_go p text (S pos) (Some c) rest' 0
      end
    end
  end.
Definition re_finditer (p : pattern) (text : pystr) : list mobj :=
  finditer_go p text 0 None text 0.

(** [p.findall(text)] for a pattern without groups. *)
Definition re_findall (p : pattern) (text : pystr) : list pystr :=
  List.map group0 (re_finditer p text).

(** [p.sub(repl, text)]; [repl] maps a match to its replacement (a template
    or a callback). *)
Fixpoint sub_go (p : pattern) (repl : mobj -> pystr) (text : pystr) (pos : nat)
    (prev : option char) (rest : pystr) (skip : nat) : pystr :=
  match skip with
  | S k =>
    match rest with
    | [] => []
    | c :: rest' => sub_go p repl text (S pos) (Some c) rest' k
    end
  | O =>
    match match_here p text pos prev rest with
    | Some m =>
      repl m ++
      match rest with
      | [] => []
      | c :: rest' =>
        if Nat.eqb (mo_end m) pos
        then c :: sub_go p repl text (S pos) (Some c) rest' 0
        else sub_go p repl text (S pos) (Some c) rest' (mo_end m - pos - 1)
      end
    | None =>
      match rest with
      | [] => []
      | c :: rest' => c :: sub_go p repl text (S pos) (Some c) rest' 0
      end
    end
  end.
Definition re_sub (p : pattern) (repl : mobj -> pystr) (text : pystr) : pystr :=
  sub_go p repl text 0 None text 0.

(** [p.split(text)] for a pattern without groups that never matches empty. *)
Fixpoint split_go (p : pattern) (text : pystr) (pos : nat) (prev : option char)
    (rest : pystr) (skip : nat) (cur : pystr) : list pystr :=
  match skip with
  | S k =>
    match rest with
    | [] => [rev cur]
    | c :: rest' => split_go p text (S pos) (Some c) rest' k cur
    end
  | O =>
    match rest with
    | [] => [rev cur]
    | c :: rest' =>
      match match_here p text pos prev rest with
      | Some m =>
        if Nat.eqb (mo_end m) pos
        then split_go p text (S pos) (Some c) rest' 0 (c :: cur)
        else rev cur :: split_go p text (S pos) (Some c) rest' (mo_end m - pos - 1) []
      | None => split_go p text (S pos) (Some c) rest' 0 (c :: cur)
      end
    end
  end.
Definition re_split (p : pattern) (text : pystr) : list pystr :=
  split_go p text 0 None text 0 [].

(** *** Pattern syntax *)

Definition lit_chr (c : char) : re := RE_set false [CChar c].
(** A literal string. *)
Definition L (s : string) : re :=
  fold_right (fun c r => RE_cat (lit_chr c) r) RE_eps (py s).
Definition Lp (s : pystr) : re :=
  fold_right (fun c r => RE_cat (lit_chr c) r) RE_eps s.
(** The characters of a string as class members. *)
Definition chars (s : string) : list cset_item := List.map CChar (py s).
Definition rng (a b : string) : cset_item := CRange (ch a) (ch b).
Definition cls (items : list cset_item) : re := RE_set false items.
Definition ncls (items : list cset_item) : re := RE_set true items.

Definition AZ : cset_item := rng "A" "Z".
Definition az : cset_item := rng "a" "z".
Definition d09 : cset_item := rng "0" "9".

Definition star (a : re) : re := RE_rep 0 None true a.
Definition plus (a : re) : re := RE_rep 1 None true a.
Definition opt (a : re) : re := RE_rep 0 (Some 1) true a.
Definition plus_lazy (a : re) : re := RE_rep 1 None false a.
Definition rep (lo hi : nat) (a : re) : re := RE_rep lo (Some hi) true a.
Definition rep_min (lo : nat) (a : re) : re := RE_rep lo None true a.

Definition ws : re := cls [CSpace].       (* \s *)
Definition dg : re := cls [CDigit].       (* \d *)

Fixpoint cat (rs : list re) : re :=
  match rs with
  | [] => RE_eps
  | [r] => r
  | r :: rs' => RE_cat r (cat rs')
  end.
Fixpoint alt (rs : list re) : re :=
  match rs with
  | [] => RE_eps
  | [r] => r
  | r :: rs' => RE_alt r (alt rs')
  end.

Definition P (r : re) : pattern := Pattern r false.
Definition PI (r : re) : pattern := Pattern r true.

(** Replacement templates. *)
Definition tpl_1_sp_2 (m : mobj) : pystr := grp m 1 ++ SP ++ grp m 2.               (* \1 \2 *)
Definition tpl_1_sp_2_sp_3 (m : mobj) : pystr :=
  grp m 1 ++ SP ++ grp m 2 ++ SP ++ grp m 3.                                         (* \1 \2 \3 *)
Definition tpl_const (s : pystr) (m : mobj) : pystr := s.

(** [re.sub(r"\s+", " ", s)] *)
Definition WS_RUN : pattern := P (plus ws).
Definition squeeze_ws (s : pystr) : pystr := re_sub WS_RUN (tpl_const SP) s.

(** [text[:text.find(x)]]: when [find] gives -1 the slice drops the last
    character. *)
Definition prefix_upto (s : pystr) (idx : option nat) : pystr :=
  match idx with Some i => firstn i s | None => removelast s end.

(* ===================================================================== *)
(** ** Exceptions *)
(* ===================================================================== *)

Inductive pyerror : Type :=
| AttributeError      (* an attribute of [None] was requested *)
| StrategyError.      (* any exception raised inside a repair strategy *)

Inductive exc (A : Type) : Type :=
| OK (a : A)
| Raise (e : pyerror).
Arguments OK {A} a.
Arguments Raise {A} e.

Definition bind {A B} (m : exc A) (f : A -> exc B) : exc B :=
  match m with OK a => f a | Raise e => Raise e end.
Notation "'do' x <- m ; k" := (bind m (fun x => k))
  (at level 10, x name, m at level 100, k at level 200).

(* ===================================================================== *)
(** ** education_parser.py: keywords and section detection *)
(* ===================================================================== *)

Definition WORDBREAK_MULTI : pattern :=      (* (?<=[A-Za-z])\s{2,}(?=[A-Za-z]) *)
  P (cat [RE_behind [AZ; az]; rep_min 2 ws; RE_ahead (cls [AZ; az])]).
Definition WORDBREAK_SINGLE : pattern :=     (* (?<=[a-z])\s(?=[a-z]) *)
  P (cat [RE_behind [az]; ws; RE_ahead (cls [az])]).

Definition normalize_pdf_wordbreaks (s : pystr) : pystr :=
  if negb (nonempty s) then s
  else
    let s := re_sub WORDBREAK_MULTI (tpl_const []) s in
    re_sub WORDBREAK_SINGLE (tpl_const []) s.

Definition EDUCATION_SECTION_HEADERS : list pystr := List.map py
  ["education"; "academic background"; "education & training"; "academic";
   "schooling"; "academic experience"]%string.

Definition EXPERIENCE_SECTION_HEADERS : list pystr := List.map py
  ["experience"; "professional experience"; "work experience"; "employment";
   "work history"; "career"; "career experience";
   "career experience & achievements"; "career experience and achievements"]%string.

Definition DEGREE_KEYWORDS : list pystr := List.map py
  ["bachelor of"; "bachelor's"; "master of"; "master's"; "associate of";
   "associate's"; "b.s."; "b.a."; "m.s."; "m.a."; "m.b.a."; "ph.d."; "phd";
   "doctorate"; "doctoral"; "graduate degree"; "postgraduate"; "diploma";
   "certificate"; "b.s. in"; "b.a. in"; "m.s. in"; "m.a. in"]%string.

Definition INSTITUTION_KEYWORDS : list pystr := List.map py
  ["university"; "college"; "institute"; "institute of"; "school"; "academy";
   "high school"; "secondary school"; "prep school"; "polytechnic";
   "state university"; "community college"; "trade school"]%string.

Definition HIGH_SCHOOL_KEYWORDS : list pystr := List.map py
  ["high school"; "secondary school"; "prep school"; "preparatory"]%string.

Definition STUDY_ABROAD_KEYWORDS : list pystr := List.map py
  ["study abroad"; "institute of study abroad"; "dis study abroad";
   "semester abroad"; "year abroad"]%string.

Definition STUDY_ABROAD_ABBREVIATIONS : list (pystr * pystr) :=
  [(py "dis", py "Danish Institute of Study Abroad");
   (py "isa", py "Institute for Study Abroad");
   (py "aifs", py "American Institute for Foreign Study");
   (py "ciee", py "Council on International Educational Exchange");
   (py "saf", py "Study Abroad Foundation")].

Inductive section_type : Type := SecEducation | SecExperience.

Definition detect_section_type (line : pystr) : option section_type :=
  let normalized := strip line in
  let normalized := normalize_pdf_wordbreaks normalized in
  let normalized := lower normalized in
  let normalized := squeeze_ws normalized in
  if str_in normalized EDUCATION_SECTION_HEADERS then Some SecEducation
  else if str_in normalized EXPERIENCE_SECTION_HEADERS then Some SecExperience
  else None.

(** The body shared by [has_degree_keyword], [is_high_school],
    [is_institution_keyword] and [is_study_abroad]:
    [for keyword in KEYWORDS: if keyword in text.lower(): return True].
    [keywords] lists the set in the order in which it is iterated. *)
Definition keyword_scan (keywords : list pystr) (text : pystr) : bool :=
  existsb (fun keyword => contains (lower text) keyword) keywords.

(* ===================================================================== *)
(** ** line_parser.py: search normalisation, locations, header lines *)
(* ===================================================================== *)

(** A source line: [(locator, text)]. *)
Definition SourceLine : Type := (pystr * pystr)%type.

Definition SPACED_CHARS_CLASS : list cset_item := [AZ; az; d09] ++ chars "@.()-+".
(** [^(?:[A-Za-z0-9@.()\-\+]\s+){2,}[A-Za-z0-9@.()\-\+]+$] *)
Definition SPACED_CHARS_RE : pattern :=
  P (cat [RE_bol; rep_min 2 (cat [cls SPACED_CHARS_CLASS; plus ws]);
          plus (cls SPACED_CHARS_CLASS); RE_eol]).

Definition _despace_if_needed (text : pystr) : pystr :=
  let t := strip text in
  if negb (nonempty t) then t
  else if is_some (re_match SPACED_CHARS_RE t) then
    let parts := re_split (P (rep_min 2 ws)) t in
    let parts := List.map (fun p => List.concat (split_ws p)) parts in
    join SP (List.filter nonempty parts)
  else t.

(** [([,;/\|\(\)\[\]])] *)
Definition NO_SPACE_PUNCT_RE : pattern := P (RE_grp 1 (cls (chars ",;/|()[]"))).
(** [([A-Za-z])(\d)|(\d)([A-Za-z])] *)
Definition LETTER_DIGIT_BOUNDARY_RE : pattern :=
  P (RE_alt (cat [RE_grp 1 (cls [AZ; az]); RE_grp 2 dg])
            (cat [RE_grp 3 dg; RE_grp 4 (cls [AZ; az])])).
(** [([a-z])([A-Z])] *)
Definition CAMEL_BOUNDARY_RE : pattern :=
  P (cat [RE_grp 1 (cls [az]); RE_grp 2 (cls [AZ])]).

(** [WORD([A-Z])] replaced by ["WORD \1"]. *)
Definition glued_title (word : string) : pattern * (mobj -> pystr) :=
  (P (cat [L word; RE_grp 1 (cls [AZ])]), fun m => py word ++ SP ++ grp m 1).

Definition job_title_patterns : list (pattern * (mobj -> pystr)) :=
  [glued_title "TERRITORY"; glued_title "MANAGER"; glued_title "KEY";
   glued_title "ACCOUNT"; glued_title "GROUP";
   (P (cat [RE_grp 1 (cls [AZ]); L "OF"; RE_grp 2 (cls [AZ])]),
    fun m => grp m 1 ++ py " OF " ++ grp m 2)].

Definition _normalize_for_search (text : pystr) : pystr :=
  let t := _despace_if_needed (strip text) in
  if negb (nonempty t) then t
  else
    let t := fold_left (fun t pr => re_sub (fst pr) (snd pr) t) job_title_patterns t in
    let t := re_sub NO_SPACE_PUNCT_RE (fun m => SP ++ grp m 1 ++ SP) t in
    let t := re_sub CAMEL_BOUNDARY_RE tpl_1_sp_2 t in
    let t := re_sub LETTER_DIGIT_BOUNDARY_RE
               (fun m => if truthy (group m 1) then grp m 1 ++ SP ++ grp m 2
                         else grp m 3 ++ SP ++ grp m 4) t in
    collapse_ws t.

Definition _format_location (s : pystr) : pystr :=
  let s := re_sub (P (cat [plus ws; L ","])) (tpl_const (py ",")) s in
  let s := re_sub (P (cat [L ","; star ws])) (tpl_const (py ", ")) s in
  strip (collapse_ws s).

Definition HEADER_BLACKLIST : list pystr := List.map py
  ["objective"; "summary"; "professional summary"; "profile"; "experience";
   "work experience"; "employment"; "employment history";
   "professional experience"; "education"; "skills"; "technical skills";
   "soft skills"; "core competencies"; "technical proficiencies";
   "competencies"; "proficiencies"; "areas of expertise"; "expertise";
   "strengths"; "projects"; "certifications"; "certification"; "licenses";
   "awards"; "publications"; "volunteer"; "volunteering";
   "volunteer experience"; "interests"; "hobbies"; "references";
   "additional information"]%string.

Definition US_STATES : list pystr := List.map py
  ["AL"; "AK"; "AZ"; "AR"; "CA"; "CO"; "CT"; "DE"; "FL"; "GA"; "HI"; "ID"; "IL"; "IN";
   "IA"; "KS"; "KY"; "LA"; "ME"; "MD"; "MA"; "MI"; "MN"; "MS"; "MO"; "MT"; "NE"; "NV";
   "NH"; "NJ"; "NM"; "NY"; "NC"; "ND"; "OH"; "OK"; "OR"; "PA"; "RI"; "SC"; "SD"; "TN";
   "TX"; "UT"; "VT"; "VA"; "WA"; "WV"; "WI"; "WY"; "DC"]%string.

Definition MULTI_WORD_STATES : list pystr := List.map py
  ["new york"; "new mexico"; "new hampshire"; "north carolina"; "north dakota";
   "south carolina"; "south dakota"; "west virginia"; "puerto rico"]%string.

(** [^[A-Za-z .'-]+,\s*[A-Za-z]{2,}$] *)
Definition LOCATION_RE : pattern :=
  P (cat [RE_bol; plus (cls ([AZ; az] ++ chars " .'-")); L ","; star ws;
          rep_min 2 (cls [AZ; az]); RE_eol]).

(** Indices of the commas of a text. *)
Fixpoint comma_positions (i : nat) (s : pystr) : list nat :=
  match s with
  | [] => []
  | c :: s' =>
    if chr_eqb c (ch ",") then i :: comma_positions (S i) s' else comma_positions (S i) s'
  end.

Definition LOC_PUNCT : pystr := py ",.;:–-".
Definition CAP_WORD_1 : pattern :=     (* ^[A-Z][a-z]+$ *)
  P (cat [RE_bol; cls [AZ]; plus (cls [az]); RE_eol]).
Definition CAP_WORD_0 : pattern :=     (* ^[A-Z][a-z]*$ *)
  P (cat [RE_bol; cls [AZ]; star (cls [az]); RE_eol]).

Definition invalid_city_keywords : list pystr := List.map py
  ["study"; "abroad"; "institute"; "program"; "semester"; "trimester"; "year"]%string.

(** The loop [for w in reversed(words)] that collects the last one or two
    capitalised words; [rwords] is the reversed word list. *)
Fixpoint city_words_loop (rwords : list pystr) (city_words : list pystr) : list pystr :=
  match rwords with
  | [] => city_words
  | w :: rest =>
    if is_some (re_match CAP_WORD_0 w) then
      let city_words := w :: city_words in
      if Nat.leb 2 (List.length city_words) then city_words
      else city_words_loop rest city_words
    else city_words
  end.

(** One iteration of [for comma_pos in reversed(commas)]: [Some location]
    when the iteration returns, [None] when it falls through or continues. *)
Definition location_at_comma (text : pystr) (comma_pos : nat) : option pystr :=
  let after_comma := strip (skipn (S comma_pos) text) in
  let words_after := split_ws after_comma in
  match words_after with
  | [] => None
  | w0 :: _ =>
    let first_word := strip_chars LOC_PUNCT w0 in
    let two_words :=
      if Nat.leb 2 (List.length words_after)
      then strip_chars LOC_PUNCT (join SP (firstn 2 words_after)) else [] in
    let is_state_code := str_in (upper first_word) US_STATES in
    let is_multi_word := str_in (lower two_words) MULTI_WORD_STATES in
    let is_valid_location :=
      is_some (re_match CAP_WORD_1 first_word) && Nat.leb 4 (List.length first_word) in
    let location_name :=
      if is_multi_word then Some two_words
      else if is_state_code then Some first_word
      else if is_valid_location then Some first_word
      else None in
    if truthy location_name then
      let before_comma := strip (firstn comma_pos text) in
      let words := split_ws before_comma in
      let city_words := city_words_loop (rev words) [] in
      match city_words with
      | [] => None
      | _ =>
        let city := join SP city_words in
        if existsb (fun keyword => contains (lower city) keyword) invalid_city_keywords
        then None
        else Some (city ++ py ", " ++ or_empty location_name)
      end
    else None
  end.

Fixpoint first_some {A B} (f : A -> option B) (l : list A) : option B :=
  match l with
  | [] => None
  | x :: l' => match f x with Some y => Some y | None => first_some f l' end
  end.

Definition _extract_location_from_line (text : pystr) : option pystr :=
  let commas := comma_positions 0 text in
  first_some (location_at_comma text) (rev commas).

Definition _is_header_line (text : pystr) : bool :=
  let raw := strip text in
  if negb (nonempty raw) then true
  else
    let raw := normalize_pdf_wordbreaks raw in
    let t := _normalize_for_search raw in
    let key := lower (strip (squeeze_ws t)) in
    if str_in key HEADER_BLACKLIST then true
    else if isupper t && negb (contains t SP) then true
    else false.

Definition _normalize_name (name : pystr) : pystr :=
  let t := strip name in
  if isupper t then title t else t.

(* ===================================================================== *)
(** ** text_normalization.py *)
(* ===================================================================== *)

Definition first_is_upper (s : pystr) : bool :=      (* s[:1].isupper() *)
  match s with c :: _ => is_upper c | [] => false end.
Definition upper_first (s : pystr) : pystr :=        (* s[:1].upper() + s[1:] *)
  match s with c :: s' => to_upper c :: s' | [] => [] end.
(** [range(lo, hi)] *)
Definition range (lo hi : nat) : list nat := List.seq lo (hi - lo).
Definition str_lookup (k : pystr) (d : list (pystr * pystr)) : option pystr :=
  first_some (fun kv => if str_eqb k (fst kv) then Some (snd kv) else None) d.

Module text_normalization.

Definition NSA : re := ncls [CSpace; CChar (ch "@")].     (* [^\s@] *)
(** [^[^\s@]+@[^\s@]+\.[^\s@]+$] *)
Definition EMAIL_RE : pattern :=
  P (cat [RE_bol; plus NSA; L "@"; plus NSA; L "."; plus NSA; RE_eol]).
Definition SPACED_PART : re := cat [plus NSA; star (cat [plus ws; plus NSA])].
(** [(PART)\s*(@)\s*(PART)\s*\.\s*([A-Za-z]{2,})], where PART, the
    pattern [SPACED_PART], is [[^\s@]+] followed by any number of
    [\s+[^\s@]+]. *)
Definition EMAIL_FLEX_RE : pattern :=
  P (cat [RE_grp 1 SPACED_PART; star ws; RE_grp 2 (L "@"); star ws;
          RE_grp 3 SPACED_PART; star ws; L "."; star ws;
          RE_grp 4 (rep_min 2 (cls [AZ; az]))]).
(** [[A-Za-z0-9._%+-]+@[A-Za-z0-9.-]+\.[A-Za-z]{2,}] *)
Definition EMAIL_STRICT_RE : pattern :=
  P (cat [plus (cls ([AZ; az; d09] ++ chars "._%+-")); L "@";
          plus (cls ([AZ; az; d09] ++ chars ".-")); L ".";
          rep_min 2 (cls [AZ; az])]).

Definition _user_looks_like_phone (user : pystr) : bool :=
  let digit_count := List.length (List.filter is_digit user) in
  let has_parens := contains user (py "(") || contains user (py ")") in
  let has_plus := startswith user (py "+") in
  let has_digits_and_hyphens := Nat.leb 7 digit_count && contains user (py "-") in
  has_parens || has_plus || has_digits_and_hyphens.

Definition strict_email (text : pystr) : option pystr :=
  match re_search EMAIL_STRICT_RE text with
  | Some m2 =>
    let user := hd [] (split_chr (group0 m2) (ch "@")) in
    if negb (_user_looks_like_phone user) then Some (group0 m2) else None
  | None => None
  end.

Definition extract_email_flexible (text : pystr) : option pystr :=
  if negb (nonempty text) then None
  else
    match re_search EMAIL_FLEX_RE text with
    | Some m =>
      let user := replace (grp m 1) SP [] in
      let domain := replace (grp m 3) SP [] in
      let tld := replace (grp m 4) SP [] in
      if negb (_user_looks_like_phone user)
      then Some (user ++ py "@" ++ domain ++ py "." ++ tld)
      else strict_email text
    | None => strict_email text
    end.

Definition _is_protected_token (tok : pystr) : bool :=
  if contains tok (py "@") then true
  else if is_some (re_match EMAIL_RE tok) then true
  else false.

Definition JOINER_SUFFIX_PHRASES : list (pystr * pystr) :=
  [(py "inthe", py "in the"); (py "ofthe", py "of the"); (py "tobe", py "to be");
   (py "toa", py "to a"); (py "tothe", py "to the"); (py "andthe", py "and the")].
Definition JOINER_PREFIX_PHRASES : list (pystr * pystr) :=
  [(py "dueto", py "due to"); (py "leadingto", py "leading to");
   (py "setthe", py "set the")].
Definition EMBEDDED_JOINERS : list pystr :=
  List.map py ["the"; "and"; "for"; "to"; "in"; "of"]%string.
Definition SHORT_JOINERS : list pystr := List.map py ["to"; "in"; "of"; "an"; "a"]%string.
Definition COMMON3 : list pystr := List.map py
  ["new"; "all"; "top"; "one"; "two"; "six"; "ten"; "ver"; "and"; "the"; "for"]%string.
Definition VOWELS : pystr := py "aeiouy".
Definition A_RIGHT_WHITELIST : list pystr := List.map py
  ["new"; "large"; "positive"; "can"; "role"; "territory"; "team"; "month"; "year"]%string.
Definition A_LEFT_WHITELIST : list pystr := List.map py
  ["back"; "won"; "grew"; "built"; "led"; "sold"; "took"]%string.
Definition COMMON_WORDS : list pystr := List.map py
  ["back"; "large"; "new"; "role"; "team"; "month"; "year"; "account"; "territory";
   "sales"; "growth"; "customers"; "business"; "country"; "attend"; "miami";
   "symposium"; "conference"; "leader"; "expand"; "market"; "client"; "revenue";
   "product"; "service"]%string.
Definition EXACT_TOKEN_FIXES : list (pystr * pystr) :=
  [(py "selectedas", py "selected as"); (py "focusin", py "focus in");
   (py "growthin", py "growth in"); (py "greeninall", py "green in all");
   (py "expansionand", py "expansion and");
   (py "over-executedonboth", py "over-executed on both");
   (py "maintainingapositive", py "maintaining a positive");
   (py "apositive", py "a positive"); (py "foranoverall", py "for an overall");
   (py "personofthe", py "person of the"); (py "girlsofthe", py "girls of the");
   (py "toolstobe", py "tools to be")].
Definition MERGE_2_WHITELIST : list pystr :=
  List.map py ["newspaper"; "expansion"; "bulletin"]%string.
Definition MERGE_3_PREFIX_WHITELIST : list pystr := List.map py
  ["maintaining"; "increasing"; "developing"; "implementing"; "managing"]%string.

(** [[bcdfghjklmnpqrstvwxz]{5,}] *)
Definition CONSONANT_CLUSTER : pattern :=
  P (rep_min 5 (cls (chars "bcdfghjklmnpqrstvwxz"))).

Definition _has_vowels (s : pystr) : bool := existsb (fun c => chr_in (to_lower c) VOWELS) s.

Definition _is_wordish (s : pystr) : bool :=
  let s := lower s in
  if negb (isalpha s) then false
  else if negb (_has_vowels s) then false
  else if is_some (re_search CONSONANT_CLUSTER s) then false
  else true.

Definition _strong_word (s : pystr) : bool :=
  let s := lower s in
  if negb (isalpha s) then false
  else if Nat.ltb (List.length s) 5 then false
  else
    let vowel_count := List.length (List.filter (fun c => chr_in c VOWELS) s) in
    if Nat.ltb vowel_count 2 then false
    else if is_some (re_search CONSONANT_CLUSTER s) then false
    else true.

Definition _glue_evidence (left right : pystr) : bool :=
  let l := lower left in
  let r := lower right in
  str_in l COMMON_WORDS || str_in r COMMON_WORDS
  || str_in l A_LEFT_WHITELIST || str_in r A_RIGHT_WHITELIST.

Definition VALID_JOINERS : list pystr := List.map py
  ["a"; "an"; "to"; "in"; "of"; "for"; "and"; "the"; "by"; "on"; "at"; "or"; "as"; "is"]%string.

Definition _is_valid_piece (p : pystr) : bool :=
  let p_lower := lower p in
  if str_in p_lower VALID_JOINERS then true
  else if Nat.leb 4 (List.length p) && _is_wordish p then true
  else if Nat.eqb (List.length p) 3 && str_in p_lower COMMON3 then true
  else false.

Definition _apply_to_subtokens (s : pystr) (fn : pystr -> pystr) : pystr :=
  join SP (List.map fn (split_ws s)).

Definition _apply_exact_token_fixes (tok : pystr) : pystr :=
  let low := lower tok in
  match str_lookup low EXACT_TOKEN_FIXES with
  | None => tok
  | Some fixed =>
    if negb (nonempty fixed) then tok
    else if first_is_upper tok then upper_first fixed else fixed
  end.

Fixpoint _merge_two_tokens (tokens : list pystr) : list pystr :=
  match tokens with
  | a :: ((b :: rest) as tl) =>
    let combo := lower (a ++ b) in
    if str_in combo MERGE_2_WHITELIST then
      let merged := a ++ b in
      let merged := if first_is_upper a then upper_first merged else merged in
      merged :: _merge_two_tokens rest
    else a :: _merge_two_tokens tl
  | [a] => [a]
  | [] => []
  end.

Section MergeThree.
(** [merge3_prefix merged] is the word [w] found by
    [for w in MERGE_3_PREFIX_WHITELIST: if merged.startswith(w)], if any;
    the whitelist is a set, iterated in an order the program does not
    fix. *)
Variable merge3_prefix : pystr -> option pystr.

Fixpoint _merge_three_tokens (tokens : list pystr) : list pystr :=
  match tokens with
  | a :: ((b :: c :: rest) as tl) =>
    if Nat.leb (List.length b) 2 && islower b then
      let merged := lower (a ++ b ++ c) in
      match merge3_prefix merged with
      | Some w =>
        let result_word := if first_is_upper a then capitalize w else w in
        let remainder := skipn (List.length w) (a ++ b ++ c) in
        (if nonempty remainder then [result_word; remainder] else [result_word])
          ++ _merge_three_tokens rest
      | None => a :: _merge_three_tokens tl
      end
    else a :: _merge_three_tokens tl
  | a :: tl => a :: _merge_three_tokens tl
  | [] => []
  end.
End MergeThree.

Fixpoint _merge_single_letter_splits (tokens : list pystr) : list pystr :=
  match tokens with
  | a :: ((b :: c :: rest) as tl) =>
    if isalpha a && isalpha c && isalpha b && Nat.eqb (List.length b) 1
       && (Nat.leb 4 (List.length a) && Nat.leb 3 (List.length c))
       && (let merged := a ++ b ++ c in
           Nat.leb 8 (List.length merged) && _is_wordish (lower merged))
    then (a ++ b ++ c) :: _merge_single_letter_splits rest
    else a :: _merge_single_letter_splits tl
  | a :: tl => a :: _merge_single_letter_splits tl
  | [] => []
  end.

(** [QUARTER_NUM] is [\d{1,2}[,.\-]*$]; [DIGITS_TRAILING] is one or two
    digits (group 1) and the rest of the token (group 2). *)
Definition QUARTER_NUM : pattern := P (cat [rep 1 2 dg; star (cls (chars ",.-")); RE_eol]).
Definition DIGITS_TRAILING : pattern :=
  P (cat [RE_grp 1 (rep 1 2 dg); RE_grp 2 (star RE_any)]).

Fixpoint _merge_letter_number_pairs (tokens : list pystr) : list pystr :=
  match tokens with
  | a :: ((b :: rest) as tl) =>
    if str_eqb (upper a) (py "Q") && is_some (re_match QUARTER_NUM b) then
      match re_match DIGITS_TRAILING b with
      | Some digit_match =>
        (py "Q" ++ grp digit_match 1 ++ grp digit_match 2)
          :: _merge_letter_number_pairs rest
      | None => a :: _merge_letter_number_pairs tl
      end
    else a :: _merge_letter_number_pairs tl
  | [a] => [a]
  | [] => []
  end.

Definition _fix_inanew (tok : pystr) : pystr :=
  let low := lower tok in
  if str_eqb low (py "anew") then py "a new"
  else if str_eqb low (py "inanew") then py "in a new"
  else tok.
Definition _fix_startanew (tok : pystr) : pystr :=
  if str_eqb (lower tok) (py "startanew") then py "start a new" else tok.
Definition _fix_leadingto (tok : pystr) : pystr :=
  if str_eqb (lower tok) (py "leadingto") then py "leading to" else tok.
Definition _fix_dueto (tok : pystr) : pystr :=
  if str_eqb (lower tok) (py "dueto") then py "due to" else tok.

Definition _split_suffix_phrases (tok : pystr) : pystr :=
  let low := lower tok in
  match first_some (fun sr : pystr * pystr =>
          let (suf, repl) := sr in
          if endswith low suf && Nat.leb (List.length suf + 4) (List.length low) then
            let left := firstn (List.length tok - List.length suf) tok in
            if _is_valid_piece (lower left) then Some (left ++ SP ++ repl) else None
          else None) JOINER_SUFFIX_PHRASES with
  | Some r => r
  | None => tok
  end.

Definition _split_prefix_phrases (tok : pystr) : pystr :=
  let low := lower tok in
  match first_some (fun pr : pystr * pystr =>
          let (pre, repl) := pr in
          if startswith low pre && Nat.ltb (List.length pre) (List.length low)
          then Some (repl ++ SP ++ skipn (List.length pre) tok)
          else None) JOINER_PREFIX_PHRASES with
  | Some r => r
  | None => tok
  end.

Definition ends_with_any (s : pystr) (sufs : list string) : bool :=
  existsb (fun x => endswith s (py x)) sufs.

(** One position [i] of the right-to-left scan of [_try_embedded_a]. *)
Definition embedded_a_at (tok t : pystr) (i : nat) : option pystr :=
  if negb (match nth_error t i with Some c => chr_eqb c (ch "a") | None => false end)
  then None
  else
    let left := firstn i t in
    let right := skipn (S i) t in
    let right0 := match right with c :: _ => c | [] => 0%N end in
    if ends_with_any left ["to"; "of"; "in"; "by"; "for"]%string then None
    else if negb (_strong_word left || str_in left A_LEFT_WHITELIST) then None
    else
      let right_ok :=
        _strong_word right || str_in right A_RIGHT_WHITELIST
        || (Nat.leb 4 (List.length right) && chr_in right0 VOWELS && _is_wordish right) in
      if negb right_ok then None
      else if negb (_glue_evidence left right) then None
      else if Nat.ltb (List.length right) 5 && negb (chr_in (to_lower right0) VOWELS)
              && negb (str_in (lower right) COMMON_WORDS) then None
      else Some (firstn i tok ++ py " a " ++ skipn (S i) tok).

Definition _try_embedded_a (tok : pystr) : option pystr :=
  let t := lower tok in
  if negb (isalpha t && Nat.leb 8 (List.length t)) then None
  else first_some (embedded_a_at tok t) (rev (range 4 (List.length t - 3))).

(** The candidate for joiner [j] at position [i], if it survives the vetoes. *)
Definition joiner_candidate (tok low j : pystr) (i : nat) : option (nat * pystr) :=
  let jlen := List.length j in
  if negb (str_eqb (slice low i (i + jlen)) j) then None
  else
    let left := firstn i tok in
    let right := skipn (i + jlen) tok in
    let left_low := lower left in
    let right_low := lower right in
    if str_in j SHORT_JOINERS && Nat.leb 7 (List.length left_low)
       && Nat.leb 7 (List.length right_low) then None
    else if negb (_is_valid_piece left_low && _is_valid_piece right_low) then None
    else Some (List.length left, left ++ SP ++ j ++ SP ++ right).

Definition better (best : option (nat * pystr)) (cand : option (nat * pystr))
  : option (nat * pystr) :=
  match cand with
  | None => best
  | Some (score, c) =>
    match best with
    | None => Some (score, c)
    | Some (b, _) => if Nat.ltb b score then Some (score, c) else best
    end
  end.

Definition _split_embedded_joiner_once (tok : pystr) : pystr :=
  let low := lower tok in
  if Nat.ltb (List.length low) 13 || negb (isalpha low) then tok
  else
    let best :=
      fold_left (fun best j =>
        fold_left (fun best i => better best (joiner_candidate tok low j i))
                  (range 5 (List.length low - 5)) best)
        EMBEDDED_JOINERS None in
    match best with Some (_, c) => c | None => tok end.

Definition _split_camel_joiner (tok : pystr) : pystr :=
  match re_search CAMEL_BOUNDARY_RE tok with
  | None => tok
  | Some m =>
    let i := match group_start m 2 with Some i => i | None => 0 end in
    let left := firstn i tok in
    let right := skipn i tok in
    let left_low := lower left in
    if ends_with_any left_low ["in"; "to"; "of"; "and"; "for"]%string
    then left ++ SP ++ right
    else if Nat.leb 7 (List.length left) && _is_wordish left_low
    then left ++ SP ++ right
    else tok
  end.

Definition normalize_token_basic (token : pystr) : pystr :=
  if _is_protected_token token then token
  else
    let tok := _fix_inanew token in
    if negb (str_eqb tok token) then tok else
    let tok := _fix_startanew token in
    if negb (str_eqb tok token) then tok else
    let tok := _fix_leadingto token in
    if negb (str_eqb tok token) then tok else
    let tok := _fix_dueto token in
    if negb (str_eqb tok token) then tok else
    let tok := _split_suffix_phrases token in
    if negb (str_eqb tok token) then tok else
    token.

Fixpoint field_merge_two (tokens : list pystr) : list pystr :=
  match tokens with
  | a :: ((b :: rest) as tl) =>
    if isalpha a && isalpha b
       && str_in (lower (a ++ b)) [py "communication"; py "communications"]
    then (a ++ b) :: field_merge_two rest
    else a :: field_merge_two tl
  | [a] => [a]
  | [] => []
  end.

Fixpoint field_merge_three (out : list pystr) : list pystr :=
  match out with
  | a :: ((b :: c :: rest) as tl) =>
    if isalpha a && isalpha b && isalpha c && Nat.eqb (List.length b) 1
       && str_in (lower (a ++ b ++ c)) [py "communications"]
    then (a ++ b ++ c) :: field_merge_three rest
    else a :: field_merge_three tl
  | a :: tl => a :: field_merge_three tl
  | [] => []
  end.

Definition normalize_field_text (text : pystr) : pystr :=
  if negb (nonempty text) || negb (nonempty (strip text)) then text
  else
    let tokens := split_ws text in
    let out := field_merge_two tokens in
    let final := field_merge_three out in
    join SP final.

Section NormalizeBullet.
Variable merge3_prefix : pystr -> option pystr.

(** The body of [for token in tokens] in [normalize_bullet_text]. *)
Definition normalize_bullet_token (token : pystr) : pystr :=
  if _is_protected_token token then token
  else
    let norm := token in
    let norm := _apply_exact_token_fixes norm in
    let norm := normalize_token_basic norm in
    let norm :=
      if str_eqb norm token then _split_suffix_phrases norm
      else _apply_to_subtokens norm _split_suffix_phrases in
    let norm :=
      if str_eqb norm token then _split_prefix_phrases norm
      else _apply_to_subtokens norm _split_prefix_phrases in
    let norm :=
      if str_eqb norm token then _split_embedded_joiner_once norm else norm in
    let norm :=
      if str_eqb norm token then
        match _try_embedded_a norm with
        | Some split_result => split_result
        | None => norm
        end
      else norm in
    let norm := _apply_to_subtokens norm _split_camel_joiner in
    let norm := _apply_to_subtokens norm _split_suffix_phrases in
    norm.

Definition normalize_bullet_text (text : pystr) : pystr :=
  if negb (nonempty text) || negb (nonempty (strip text)) then text
  else
    let tokens := split_ws text in
    let tokens := _merge_two_tokens tokens in
    let tokens := _merge_three_tokens merge3_prefix tokens in
    let tokens := _merge_single_letter_splits tokens in
    let tokens := _merge_letter_number_pairs tokens in
    join SP (List.map normalize_bullet_token tokens).
End NormalizeBullet.

(** The first member of [order] that is a prefix of [merged]. *)
Definition merge3_scan (order : list pystr) (merged : pystr) : option pystr :=
  List.find (fun w => startswith merged w) order.

End text_normalization.

(* ===================================================================== *)
(** ** pdf_extractor.py: the two repair helpers used on achievements *)
(* ===================================================================== *)

Module pdf_extractor.

Definition LETTER : re := cls [az; AZ].

(** [[a-zA-Z]{1,2}(?:\s+[a-zA-Z]{1,2}){2,}] *)
Definition FRAGMENTS_RE : pattern :=
  P (cat [rep 1 2 LETTER; rep_min 2 (cat [plus ws; rep 1 2 LETTER])]).
(** [\s+(?=[a-zA-Z])] *)
Definition SPACE_BEFORE_LETTER : pattern := P (cat [plus ws; RE_ahead LETTER]).
(** [(\d+)\s+([a-zA-Z])\s+([a-zA-Z]{2,})] *)
Definition NUMBER_FRAGMENT_RE : pattern :=
  P (cat [RE_grp 1 (plus dg); plus ws; RE_grp 2 LETTER; plus ws;
          RE_grp 3 (rep_min 2 LETTER)]).

Definition merge_fragments (m : mobj) : pystr :=
  re_sub SPACE_BEFORE_LETTER (tpl_const []) (group0 m).

Definition _collapse_irregular_spacing (text : pystr) : pystr :=
  if negb (nonempty text) then text
  else
    let text := re_sub FRAGMENTS_RE merge_fragments text in
    let text := re_sub NUMBER_FRAGMENT_RE (fun m => grp m 1 ++ grp m 2 ++ grp m 3) text in
    squeeze_ws text.

Definition lows : re := plus (cls [az]).
(** [([a-z]+)(WORD)([a-z]+)], IGNORECASE *)
Definition inner_word (w : string) : pattern :=
  PI (cat [RE_grp 1 lows; RE_grp 2 (L w); RE_grp 3 lows]).
(** [(WORD)(JOINER)([a-z])], IGNORECASE *)
Definition word_joiner (w j : string) : pattern :=
  PI (cat [RE_grp 1 (L w); RE_grp 2 (L j); RE_grp 3 (cls [az])]).

Definition glued_passes : list (pattern * (mobj -> pystr)) :=
  List.map (fun w => (inner_word w, tpl_1_sp_2_sp_3))
    ["customers"; "business"; "achieved"; "acquired";
     "months"; "leading"; "through"; "years"; "after"; "just"; "growth"]%string
  ++ List.map (fun w => (word_joiner w "in", tpl_1_sp_2_sp_3))
    ["plan"; "months"; "month"; "year"; "years"]%string
  ++ [ (PI (cat [RE_grp 1 (L "a"); RE_grp 2 (L "new"); RE_grp 3 (rep_min 2 (cls [az]))]),
        tpl_1_sp_2_sp_3);
       (PI (cat [RE_grp 1 (rep_min 2 (cls [az])); RE_grp 2 (L "new");
                 RE_grp 3 (rep_min 2 (cls [az]))]), tpl_1_sp_2_sp_3);
       (PI (cat [RE_grp 1 (L "new"); RE_grp 2 (L "business")]), tpl_1_sp_2);
       (word_joiner "plan" "to", tpl_1_sp_2_sp_3);
       (PI (cat [RE_grp 1 (ncls [az]); RE_grp 2 (L "to"); RE_grp 3 (L "plan")]),
        fun m => grp m 1 ++ grp m 2 ++ SP ++ grp m 3);
       (PI (cat [RE_grp 1 (L "%"); RE_grp 2 (L "to")]), tpl_1_sp_2) ].

Definition _fix_glued_lowercase_text (text : pystr) : pystr :=
  if negb (nonempty text) then text
  else
    let text := fold_left (fun t pr => re_sub (fst pr) (snd pr) t) glued_passes text in
    squeeze_ws text.

End pdf_extractor.

(* ===================================================================== *)
(** ** line_parser.py: corruption detection and repair scoring *)
(* ===================================================================== *)

Definition COMMON_WORDS : list pystr := List.map py
  ["the"; "a"; "and"; "to"; "of"; "in"; "for"; "is"; "was"; "on"; "with"; "by"; "from";
   "as"; "at"; "be"; "been"; "that"; "this"; "it"; "which"; "who"; "or"; "an"; "have";
   "has"; "had"; "are"; "were"; "new"; "large"; "back"; "key"; "account"; "manager";
   "leader"; "team"; "sales"; "customer"; "territory"; "grew"; "growth"; "won"; "selected";
   "opened"; "acquired"; "finished"; "performed"; "transferred"; "outperformed"; "percent";
   "plan"; "business"; "year"; "month"; "due"; "to"; "leading"; "over"; "goals";
   "while"; "always"; "maintaining"; "positive"; "volunteer"; "group"; "girls"; "boys";
   "teaching"; "encouraging"; "strong"; "smart"; "bold"; "blitz"; "expansion"; "relations";
   "set"; "tone"; "overall"; "atmosphere"; "can"; "do"; "attitude"; "case"; "coast";
   "person"; "june"; "q"; "west"; "several"; "national"; "major"; "downtown"; "near";
   "relationship"; "through"; "develop"; "improve"; "increase"; "decrease"; "change"; "led";
   "lead"; "create"; "created"; "develop"; "delivery"; "managed"; "manage"; "led"; "lead";
   "up"; "down"; "new"; "implemented"; "implement"; "provide"; "provided"; "business";
   "process"; "system"; "quality"; "customer"; "service"; "support"; "training"; "develop";
   "staff"; "office"; "regional"; "company"; "corporation"; "division"; "department";
   "responsible"; "responsibilities"; "achievement"; "achievements"; "accomplishment";
   "results"; "result"; "success"; "successful"; "successfully"; "recognition"; "award";
   "awards"; "promoted"; "promotion"; "increase"; "increased"; "growth"; "expand";
   "partnership"; "partner"; "collaborate"; "collaboration"; "initiative"; "strategic";
   "strategy"; "market"; "marketing"; "sales"; "revenue"; "profit"; "efficiency";
   "effective"; "effectiveness"; "productivity"; "product"; "production"; "quality";
   "implementation"; "implemented"; "launch"; "launched"; "innovation"; "innovative";
   "technology"; "technical"; "operational"; "operations"; "logistics"; "supply";
   "chain"; "sourcing"; "procurement"; "vendor"; "suppliers"; "client"; "clients";
   "prospecting"; "pipeline"; "closing"; "negotiation"; "negotiated"; "contract";
   "proposal"; "proposals"; "presentations"; "presentation"; "training"; "trained";
   "coaching"; "mentoring"; "mentored"; "development"; "developed"; "improved";
   "reduced"; "reduction"; "optimized"; "optimization"; "streamlined"; "streamline";
   "automated"; "automation"; "platform"; "solution"; "solutions"; "integration";
   "integrated"; "scaling"; "scaled"; "migration"; "migrated"; "modernization";
   "infrastructure"; "deployment"; "deployed"; "maintenance"; "support"; "troubleshooting";
   "problem"; "solving"; "resolution"; "incident"; "security"; "compliance"; "risk";
   "management"; "project"; "program"; "portfolio"; "governance"; "stakeholder";
   "stakeholders"; "communication"; "communication"; "reporting"; "analysis"; "analytical";
   "datadriven"; "metrics"; "kpi"; "kpis"; "benchmark"; "benchmarking"; "forecast";
   "forecasting"; "budget"; "budgeting"; "financial"; "profitability"; "roe"; "roi";
   "valuation"; "return"; "investment"; "capital"; "funding"; "investor"; "venture";
   "startup"; "scalable"; "scalability"; "sustainable"; "sustainability"; "corporate";
   "enterprise"; "b2b"; "b2c"; "saas"; "cloud"; "on"; "premise"; "hybrid"; "mobile";
   "web"; "desktop"; "application"; "applications"; "api"; "apis"; "database"; "databases";
   "storage"; "server"; "servers"; "network"; "networking"; "cloud"; "aws"; "azure";
   "gcp"; "docker"; "kubernetes"; "agile"; "scrum"; "kanban"; "devops"; "ci"; "cd";
   "testing"; "test"; "qa"; "quality"; "assurance"; "ux"; "ui"; "design"; "designer";
   "frontend"; "backend"; "fullstack"; "architect"; "architecture"; "microservices";
   "january"; "february"; "march"; "april"; "may"; "june"; "july"; "august";
   "september"; "october"; "november"; "december";
   "diego"; "francisco"; "angeles"; "york"; "chicago"; "denver"; "denver";
   "boston"; "atlanta"; "seattle"; "austin"; "diego"; "diego";
   "kick"; "start"; "kickstart"; "grew"; "grow"; "achieved"; "achieve"]%string.

Inductive corruption_type : Type :=
| character_fragmentation | completely_glued | mixed_corruption | mostly_ok.

(** Python's [int / int] and [int * float] on the small integers met here. *)
Definition float_of_nat (n : nat) : float := PrimFloat.of_uint63 (Uint63.of_Z (Z.of_nat n)).
Definition fdiv (a b : nat) : float := PrimFloat.div (float_of_nat a) (float_of_nat b).
Definition sum_len (words : list pystr) : nat :=
  fold_left (fun acc w => acc + List.length w) words 0.

(** [[a-z]{2,}[A-Z]] *)
Definition GLUED_CAMEL : pattern := P (cat [rep_min 2 (cls [az]); cls [AZ]]).

Definition _detect_corruption_type (text : pystr) : corruption_type :=
  if negb (nonempty text) || Nat.ltb (List.length text) 5 then mostly_ok
  else
    let words := split_ws text in
    match words with
    | [] => mostly_ok
    | _ =>
      let space_ratio := fdiv (count_chr (ch " ") text) (List.length text) in
      let glued_pattern := List.length (re_findall GLUED_CAMEL text) in
      let long_words :=
        List.filter (fun w => Nat.ltb 10 (List.length w)
                              && negb (existsb is_upper (skipn 1 w))) words in
      if PrimFloat.ltb 0.2 space_ratio
         && PrimFloat.ltb (fdiv (sum_len words) (List.length words)) 3.5
      then character_fragmentation
      else if (Nat.ltb (List.length words) 5 && Nat.ltb 25 (List.length text))
              || Nat.ltb 0 glued_pattern
      then completely_glued
      else if contains text (py "  ") && existsb (fun w => Nat.ltb (List.length w) 2) words
      then mixed_corruption
      else if negb (Nat.eqb (List.length long_words) 0) && Nat.ltb (List.length words) 6
      then completely_glued
      else mostly_ok
    end.

Definition SCORE_SHORT_OK : list pystr := List.map py ["a"; "to"; "in"; "at"; "by"; "of"]%string.
Definition achievement_words : list pystr := List.map py
  ["acquired"; "grew"; "led"; "built"; "improved"; "increased"; "achieved";
   "won"; "developed"; "created"; "managed"; "exceeded"; "delivered";
   "customers"; "revenue"; "sales"; "growth"; "team"; "business"]%string.

Definition abs_diff (a b : nat) : nat := (a - b) + (b - a).

Definition _score_text_quality (original normalized : pystr) : float :=
  let score := 100.0%float in
  let words := split_ws normalized in
  match words with
  | [] => 0.0%float
  | _ =>
    let single_letter_words :=
      List.filter (fun w => Nat.eqb (List.length w) 1 && isalpha w) words in
    let score := PrimFloat.sub score (float_of_nat (List.length single_letter_words * 15)) in
    let short_words :=
      List.filter (fun w => Nat.leb (List.length w) 2
                            && negb (str_in (lower w) SCORE_SHORT_OK)) words in
    let score := PrimFloat.sub score (float_of_nat (List.length short_words * 3)) in
    let avg_word_len := fdiv (sum_len words) (List.length words) in
    let score :=
      if PrimFloat.leb 5 avg_word_len && PrimFloat.leb avg_word_len 10
      then PrimFloat.add score 15
      else if PrimFloat.leb 3 avg_word_len && PrimFloat.leb avg_word_len 12
      then PrimFloat.add score 5
      else PrimFloat.sub score 10 in
    let space_ratio := fdiv (count_chr (ch " ") normalized) (List.length normalized) in
    let score := if PrimFloat.ltb 0.25 space_ratio then PrimFloat.sub score 20 else score in
    let found_achievement_words :=
      List.length (List.filter (fun w => str_in w achievement_words) (List.map lower words)) in
    let score := PrimFloat.add score (float_of_nat (found_achievement_words * 8)) in
    let score :=
      if PrimFloat.ltb (float_of_nat (List.length normalized))
                       (PrimFloat.mul (float_of_nat (List.length original)) 0.7)
      then PrimFloat.sub score 25 else score in
    let score :=
      if PrimFloat.ltb (float_of_nat (abs_diff (List.length normalized) (List.length original)))
                       (PrimFloat.mul (float_of_nat (List.length original)) 0.1)
      then PrimFloat.add score 10 else score in
    if PrimFloat.ltb 0 score then score else 0.0%float
  end.

(* ===================================================================== *)
(** ** line_parser.py: word segmentation *)
(* ===================================================================== *)

(** A computation that is run with a bound on its nested calls (or loop
    iterations): [OutOfFuel] is not a Python value, it says that the bound
    was too small. *)
Inductive fueled (A : Type) : Type :=
| Done (a : A)
| OutOfFuel.
Arguments Done {A} a.
Arguments OutOfFuel {A}.

(** The dictionary [memo] of the segmenters. *)
Abbreviation memo_t := (gmap nat (list pystr)).

Definition word_starts : list pystr := List.map py
  ["a"; "an"; "and"; "as"; "at"; "be"; "by"; "can"; "do"; "for"; "get"; "go";
   "had"; "has"; "have"; "he"; "her"; "his"; "how"; "i"; "if"; "in"; "is";
   "it"; "its"; "key"; "lead"; "led"; "made"; "make"; "may"; "my"; "of"; "on";
   "or"; "our"; "out"; "over"; "re"; "so"; "some"; "such"; "than"; "that";
   "the"; "their"; "them"; "then"; "there"; "these"; "they"; "this"; "to";
   "too"; "under"; "up"; "us"; "used"; "very"; "was"; "we"; "were"; "what";
   "when"; "which"; "who"; "why"; "will"; "with"; "won"; "would"; "yet"; "you";
   "your"; "grew"; "acquired"; "selected"; "opened"; "finished"; "transferred";
   "outperformed"; "performed"; "down"; "territory"; "due"; "relationships";
   "major"; "close"; "accounts"; "account"; "blitzes"; "expansion"; "team";
   "national"; "several"; "country"; "attend"; "new"; "year"; "month"]%string.

Definition common_prefixes : list pystr := List.map py
  ["un"; "re"; "re"; "pre"; "dis"; "mis"; "over"; "out"; "in"; "inter"; "sub"; "super"]%string.
Definition common_suffixes : list pystr := List.map py
  ["ed"; "ing"; "er"; "ly"; "tion"; "ment"; "ness"; "able"; "ful"; "less"; "ish"]%string.
Definition valid_short_words : list pystr := List.map py
  ["a"; "an"; "to"; "in"; "on"; "at"; "as"; "is"; "it"; "be"; "do"; "go"; "up"; "no";
   "so"; "or"; "by"; "he"; "me"; "we"; "my"]%string.

Definition _is_valid_word (word : pystr) : bool :=
  if negb (nonempty word) || Nat.ltb (List.length word) 2 then false
  else if str_in word COMMON_WORDS then true
  else if Nat.ltb 20 (List.length word) then false
  else
    let vowels := List.length (List.filter (fun c => chr_in c (py "aeiou")) word) in
    if Nat.ltb 3 (List.length word) && Nat.ltb vowels 1 then false
    else
      let has_prefix := existsb (fun p => startswith word p) common_prefixes in
      let has_suffix := existsb (fun s => endswith word s) common_suffixes in
      if has_prefix || has_suffix then true
      else if Nat.leb (List.length word) 3
      then str_in word valid_short_words || str_in word COMMON_WORDS
      else if Nat.leb (List.length word) 8
      then Nat.leb (Nat.max 1 (List.length word / 2)) vowels
      else false.

(** [segment_recursive(idx, depth)] of [_segment_long_word]; [fuel] bounds
    the nesting of calls. *)
Fixpoint segment_recursive (fuel : nat) (word : pystr) (idx depth : nat) (memo : memo_t)
  : fueled (option (list pystr) * memo_t) :=
  match fuel with
  | O => OutOfFuel
  | S fuel' =>
    if Nat.ltb 100 depth then Done (None, memo)
    else
      match memo !! idx with
      | Some r => Done (Some r, memo)
      | None =>
        if Nat.leb (List.length word) idx then Done (Some [], memo)
        else
          (* for end in range(idx + 2, min(idx + 12, len(word) + 1)) *)
          (fix try_ends (ends : list nat) (memo : memo_t) {struct ends} :=
             match ends with
             | e :: ends' =>
               let candidate := slice word idx e in
               if str_in candidate word_starts || _is_valid_word candidate then
                 match segment_recursive fuel' word e (S depth) memo with
                 | OutOfFuel => OutOfFuel
                 | Done (Some rest, memo') =>
                   Done (Some (candidate :: rest), <[idx := candidate :: rest]> memo')
                 | Done (None, memo') => try_ends ends' memo'
                 end
               else try_ends ends' memo
             | [] =>
               (* for chunk_size in [4, 3, 2] *)
               (fix try_chunks (sizes : list nat) (memo : memo_t) {struct sizes} :=
                  match sizes with
                  | chunk_size :: sizes' =>
                    if Nat.leb (idx + chunk_size) (List.length word) then
                      match segment_recursive fuel' word (idx + chunk_size) (S depth) memo with
                      | OutOfFuel => OutOfFuel
                      | Done (Some rest, memo') =>
                        let r := slice word idx (idx + chunk_size) :: rest in
                        Done (Some r, <[idx := r]> memo')
                      | Done (None, memo') => try_chunks sizes' memo'
                      end
                    else try_chunks sizes' memo
                  | [] =>
                    if Nat.ltb idx (List.length word)
                    then Done (Some [skipn idx word], memo)
                    else Done (None, memo)
                  end) [4; 3; 2] memo
             end)
            (range (idx + 2) (Nat.min (idx + 12) (List.length word + 1))) memo
      end
  end.

Definition _segment_long_word_fuel (fuel : nat) (word : pystr) : fueled pystr :=
  if Nat.leb (List.length word) 3 then Done word
  else
    match segment_recursive fuel word 0 0 ∅ with
    | OutOfFuel => OutOfFuel
    | Done (Some ((_ :: _) as result), _) => Done (join SP result)
    | Done (_, _) => Done word
    end.

(** [can_segment_conservative(idx, depth)], words of 11 to 15 characters. *)
Fixpoint can_segment_conservative (fuel : nat) (word : pystr) (idx depth : nat) (memo : memo_t)
  : fueled (option (list pystr) * memo_t) :=
  match fuel with
  | O => OutOfFuel
  | S fuel' =>
    if Nat.ltb 50 depth then Done (None, memo)
    else
      match memo !! idx with
      | Some r => Done (Some r, memo)
      | None =>
        if Nat.eqb idx 0 then Done (Some [], memo)
        else
          (* for start in range(max(0, idx - 12), idx) *)
          (fix try_starts (starts : list nat) (memo : memo_t) {struct starts} :=
             match starts with
             | start :: starts' =>
               let candidate := slice word start idx in
               if str_in candidate COMMON_WORDS then
                 match can_segment_conservative fuel' word start (S depth) memo with
                 | OutOfFuel => OutOfFuel
                 | Done (Some prev, memo') =>
                   Done (Some (prev ++ [candidate]), <[idx := prev ++ [candidate]]> memo')
                 | Done (None, memo') => try_starts starts' memo'
                 end
               else try_starts starts' memo
             | [] => Done (None, memo)
             end) (range (idx - 12) idx) memo
      end
  end.

(** The candidate lengths [range(min(15, idx), 1, -1)]. *)
Definition lengths_desc (idx : nat) : list nat := rev (range 2 (Nat.min 15 idx + 1)).

(** [can_segment(idx)], words of 16 characters and more: no depth argument. *)
Fixpoint can_segment (fuel : nat) (word : pystr) (idx : nat) (memo : memo_t)
  : fueled (option (list pystr) * memo_t) :=
  match fuel with
  | O => OutOfFuel
  | S fuel' =>
    match memo !! idx with
    | Some r => Done (Some r, memo)
    | None =>
      if Nat.eqb idx 0 then Done (Some [], memo)
      else
        (fix try_known (lengths : list nat) (memo : memo_t) {struct lengths} :=
           match lengths with
           | length :: lengths' =>
             let start := idx - length in
             let candidate := slice word start idx in
             if str_in candidate COMMON_WORDS then
               match can_segment fuel' word start memo with
               | OutOfFuel => OutOfFuel
               | Done (Some prev, memo') =>
                 Done (Some (prev ++ [candidate]), <[idx := prev ++ [candidate]]> memo')
               | Done (None, memo') => try_known lengths' memo'
               end
             else try_known lengths' memo
           | [] =>
             (fix try_valid (lengths : list nat) (memo : memo_t) {struct lengths} :=
                match lengths with
                | length :: lengths' =>
                  let start := idx - length in
                  let candidate := slice word start idx in
                  if _is_valid_word candidate then
                    match can_segment fuel' word start memo with
                    | OutOfFuel => OutOfFuel
                    | Done (Some prev, memo') =>
                      Done (Some (prev ++ [candidate]), <[idx := prev ++ [candidate]]> memo')
                    | Done (None, memo') => try_valid lengths' memo'
                    end
                  else try_valid lengths' memo
                | [] => Done (None, memo)
                end) (lengths_desc idx) memo
           end) (lengths_desc idx) memo
    end
  end.

(** The loop [while i < len(word)] of [_greedy_segment]; [fuel] bounds the
    number of iterations. *)
Fixpoint greedy_loop (fuel : nat) (word : pystr) (i : nat) (result : list pystr)
  : fueled (list pystr) :=
  if Nat.ltb i (List.length word) then
    match fuel with
    | O => OutOfFuel
    | S fuel' =>
      (* for j in range(min(i + 15, len(word)), i, -1) *)
      match List.find (fun j => _is_valid_word (slice word i j))
                      (rev (range (i + 1) (Nat.min (i + 15) (List.length word) + 1))) with
      | Some j => greedy_loop fuel' word j (result ++ [slice word i j])
      | None =>
        let chunk_size := Nat.min 3 (List.length word - i) in
        greedy_loop fuel' word (i + chunk_size) (result ++ [slice word i (i + chunk_size)])
      end
    end
  else Done result.

Definition _greedy_segment_fuel (fuel : nat) (word : pystr) : fueled pystr :=
  match greedy_loop fuel word 0 [] with
  | Done result => Done (join SP result)
  | OutOfFuel => OutOfFuel
  end.

(** The two-part split tried on short words:
    [for i in range(2, len(word) - 1)]. *)
Definition two_part_split (word : pystr) : option pystr :=
  first_some (fun i =>
      let first := firstn i word in
      let rest := skipn i word in
      if str_in first COMMON_WORDS && str_in rest COMMON_WORDS
      then Some (first ++ SP ++ rest) else None)
    (range 2 (List.length word - 1)).

Definition _segment_lowercase_word_fuel (fuel : nat) (word : pystr) : fueled pystr :=
  if negb (nonempty word) || Nat.leb (List.length word) 2 then Done word
  else if contains word SP then Done word
  else if Nat.leb (List.length word) 10 then
    if str_in word COMMON_WORDS then Done word
    else match two_part_split word with
         | Some r => Done r
         | None => Done word
         end
  else if Nat.leb (List.length word) 15 then
    match can_segment_conservative fuel word (List.length word) 0 ∅ with
    | OutOfFuel => OutOfFuel
    | Done (Some segmentation, _) =>
      if Nat.leb 2 (List.length segmentation) then Done (join SP segmentation)
      else Done word
    | Done (None, _) => Done word
    end
  else
    match can_segment fuel word (List.length word) ∅ with
    | OutOfFuel => OutOfFuel
    | Done (Some ((_ :: _) as segmentation), _) => Done (join SP segmentation)
    | Done (_, _) => _greedy_segment_fuel fuel word
    end.

(** The functions as the program calls them.  The bounds are those shown
    sufficient below: 102 nested calls under the depth cap of 100, 52 under
    the cap of 50, and the length of the word where the index alone
    decreases. *)
Definition run_fueled {A} (default : A) (r : fueled A) : A :=
  match r with Done a => a | OutOfFuel => default end.

Definition _segment_long_word (word : pystr) : pystr :=
  run_fueled word (_segment_long_word_fuel 102 word).
Definition _segment_lowercase_word (word : pystr) : pystr :=
  run_fueled word (_segment_lowercase_word_fuel (52 + List.length word) word).
Definition _greedy_segment (word : pystr) : pystr :=
  run_fueled word (_greedy_segment_fuel (List.length word) word).

Definition DIGIT_LETTER : pattern := PI (cat [RE_grp 1 dg; RE_grp 2 (cls [az])]).   (* (\d)([a-z]) *)
Definition LETTER_DIGIT : pattern := PI (cat [RE_grp 1 (cls [az]); RE_grp 2 dg]).   (* ([a-z])(\d) *)

(** The body of [for word in words] in [_segment_concatenated_words]: the
    element appended to [segmented_words]. *)
Definition segment_word (word : pystr) : pystr :=
  if Nat.leb (List.length word) 3 || existsb is_digit word then word
  else if isupper word then word
  else
    let word_lower := lower word in
    if str_in word_lower COMMON_WORDS then word
    else if first_is_upper word then
      match two_part_split word_lower with
      | Some segmented => upper_first segmented
      | None =>
        let segmented :=
          if Nat.ltb 15 (List.length word_lower)
          then _segment_long_word word_lower
          else _segment_lowercase_word word_lower in
        if negb (str_eqb segmented word_lower) then upper_first segmented else segmented
      end
    else if Nat.ltb 15 (List.length word_lower)
    then _segment_long_word word_lower
    else _segment_lowercase_word word_lower.

Definition _segment_concatenated_words (text : pystr) : pystr :=
  if negb (nonempty text) || negb (existsb is_alpha text) then text
  else
    let result := re_sub DIGIT_LETTER tpl_1_sp_2 text in
    let result := re_sub LETTER_DIGIT tpl_1_sp_2 result in
    let result := re_sub CAMEL_BOUNDARY_RE tpl_1_sp_2 result in
    let words := split_ws result in
    let segmented_words := List.map segment_word words in
    let result := join SP segmented_words in
    let result := collapse_ws result in
    strip result.

(* ===================================================================== *)
(** ** line_parser.py: multi-strategy achievement repair *)
(* ===================================================================== *)

(** A repair strategy may raise. *)
Definition strategy : Type := pystr -> exc pystr.

Section AchievementRepair.
(** The four local functions of [_normalize_achievement_intelligently]. *)
Variables full_pipeline conservative_fix aggressive_segment direct_segmentation : strategy.

(** The dictionary [strategies], in insertion order. *)
Definition select_strategies (ct : corruption_type) : list (string * strategy) :=
  match ct with
  | character_fragmentation =>
    [("collapse_aggressive", conservative_fix); ("full_pipeline", full_pipeline)]
  | completely_glued =>
    [("direct_segment", direct_segmentation); ("aggressive", aggressive_segment);
     ("full_pipeline", full_pipeline)]
  | mixed_corruption =>
    [("full_pipeline", full_pipeline); ("aggressive", aggressive_segment)]
  | mostly_ok =>
    [("conservative", conservative_fix); ("full_pipeline", full_pipeline)]
  end%string.

(** One iteration of [for strategy_name, strategy_func in strategies.items()]:
    the body of the [try], with [except Exception: pass]. *)
Definition try_strategy (text : pystr) (results : list (string * (pystr * float)))
    (entry : string * strategy) : list (string * (pystr * float)) :=
  match snd entry text with
  | OK result => results ++ [(fst entry, (result, _score_text_quality text result))]
  | Raise _ => results
  end.

(** [max(results.items(), key=lambda x: x[1][1])]: the first entry with the
    greatest score. *)
Fixpoint max_by_score (best : string * (pystr * float))
    (rest : list (string * (pystr * float))) : string * (pystr * float) :=
  match rest with
  | [] => best
  | x :: rest' =>
    if PrimFloat.ltb (snd (snd best)) (snd (snd x))
    then max_by_score x rest' else max_by_score best rest'
  end.

Definition _normalize_achievement_with (text : pystr) : exc pystr :=
  let text := strip text in
  if negb (nonempty text) || Nat.ltb (List.length text) 5 then OK text
  else
    let corruption_type := _detect_corruption_type text in
    let strategies := select_strategies corruption_type in
    let results := fold_left (try_strategy text) strategies [] in
    match results with
    | [] => OK text
    | r :: rs => OK (fst (snd (max_by_score r rs)))
    end.
End AchievementRepair.

(** [re.sub(r'([a-z])([A-Z])', r'\1 \2', t)] *)
Definition camel_split (t : pystr) : pystr := re_sub CAMEL_BOUNDARY_RE tpl_1_sp_2 t.

Definition full_pipeline (t : pystr) : pystr :=
  let t := camel_split t in
  let t := squeeze_ws t in
  let t := pdf_extractor._collapse_irregular_spacing t in
  let t := pdf_extractor._fix_glued_lowercase_text t in
  _segment_concatenated_words t.

Definition conservative_fix (t : pystr) : pystr :=
  let t := camel_split t in
  let t := squeeze_ws t in
  let t := pdf_extractor._collapse_irregular_spacing t in
  pdf_extractor._fix_glued_lowercase_text t.

Definition aggressive_segment (t : pystr) : pystr :=
  let t := camel_split t in
  let t := squeeze_ws t in
  let t := _segment_concatenated_words t in
  let t := pdf_extractor._collapse_irregular_spacing t in
  _segment_concatenated_words t.

Definition direct_segmentation (t : pystr) : pystr :=
  let t := camel_split t in
  let t := _segment_concatenated_words t in
  pdf_extractor._collapse_irregular_spacing t.

(** The function with the strategies of the source, none of which raises. *)
Definition _normalize_achievement_intelligently (text : pystr) : pystr :=
  match _normalize_achievement_with
          (fun t => OK (full_pipeline t)) (fun t => OK (conservative_fix t))
          (fun t => OK (aggressive_segment t)) (fun t => OK (direct_segmentation t))
          text with
  | OK r => r
  | Raise _ => strip text
  end.

(* ===================================================================== *)
(** ** line_parser.py: experience entries *)
(* ===================================================================== *)

Definition broken_suffixes : list pystr := List.map py
  ["on"; "ing"; "ed"; "tion"; "sion"; "ment"; "ity"; "ies"; "able";
   "ness"; "ous"; "ful"; "less"; "ly"; "er"; "est"; "en"; "ist";
   "nd"; "st"; "rd"; "th"; "tive"; "ive"]%string.

Definition ends_with_one_of (s : pystr) (sufs : list string) : bool :=
  existsb (fun x => endswith s (py x)) sufs.

Fixpoint word_breaks_loop (tokens : list pystr) : list pystr :=
  match tokens with
  | tok1 :: ((tok2 :: ((tok3 :: rest) as tl2)) as tl1) =>
    if Nat.leb (List.length tok2) 2
       && (str_in (lower tok3) broken_suffixes
           || ends_with_one_of (lower tok3) ["ies"; "ment"; "tion"; "tive"; "ive"]%string)
       && negb (existsb is_digit tok1) && negb (existsb is_digit tok2)
    then (tok1 ++ tok2 ++ tok3) :: word_breaks_loop rest
    else if str_in (lower tok2) broken_suffixes
            && match last_chr tok1 with
               | Some c => chr_in (to_lower c) (py "aeiou")
               | None => false
               end
    then (tok1 ++ tok2) :: word_breaks_loop tl2
    else tok1 :: word_breaks_loop tl1
  | tok1 :: ((tok2 :: rest) as tl1) =>
    if str_in (lower tok2) broken_suffixes
       && match last_chr tok1 with
          | Some c => chr_in (to_lower c) (py "aeiou")
          | None => false
          end
    then (tok1 ++ tok2) :: word_breaks_loop rest
    else tok1 :: word_breaks_loop tl1
  | [tok1] => [tok1]
  | [] => []
  end.

Definition _fix_word_breaks_aggressive (text : pystr) : pystr :=
  if negb (nonempty text) || negb (nonempty (strip text)) then text
  else join SP (word_breaks_loop (split_ws text)).

(** r"^(.+?):\s*(.+?):\s*(.+)$" *)
Definition SINGLE_LINE_EXPERIENCE_RE : pattern :=
  P (cat [RE_bol; RE_grp 1 (plus_lazy RE_any); L ":"; star ws;
          RE_grp 2 (plus_lazy RE_any); L ":"; star ws; RE_grp 3 (plus RE_any); RE_eol]).

Definition TITLE_CHARS : list cset_item := [AZ; az; CSpace] ++ chars "&'-".
(** [^(.+?):\s*([A-Z][A-Za-z\s&'-]* )(?::\s* )?$] *)
Definition TWO_PART_EXPERIENCE_RE : pattern :=
  P (cat [RE_bol; RE_grp 1 (plus_lazy RE_any); L ":"; star ws;
          RE_grp 2 (cat [cls [AZ]; star (cls TITLE_CHARS)]);
          opt (cat [L ":"; star ws]); RE_eol]).

Definition MONTH : re := alt (List.map L
  ["Jan"; "Feb"; "Mar"; "Apr"; "May"; "Jun"; "Jul"; "Aug"; "Sep"; "Oct"; "Nov"; "Dec";
   "January"; "February"; "March"; "April"; "May"; "June"; "July"; "August";
   "September"; "October"; "November"; "December"]%string).
Definition SEP : re := cls (chars "-/").
(** One date: [\d{1,2}[-/]?\d{1,2}[-/]?\d{2,4}], or a month name and a
    year, or [\d{4}]. *)
Definition DATE : re :=
  alt [cat [rep 1 2 dg; opt SEP; rep 1 2 dg; opt SEP; rep 2 4 dg];
       cat [MONTH; plus ws; rep 4 4 dg];
       rep 4 4 dg].
Definition DASH_OR_TO : re := alt [L "-"; L "–"; L "to"].
(** [(DATE)\s*(?:-|–|to)\s*(?:Present|Current|(DATE))], IGNORECASE *)
Definition DATE_RANGE_RE : pattern :=
  PI (cat [RE_grp 1 DATE; star ws; DASH_OR_TO; star ws;
           alt [L "Present"; L "Current"; RE_grp 2 DATE]]).
(** [\s*(?:-|–|to)\s*], IGNORECASE *)
Definition RANGE_SPLIT_RE : pattern := PI (cat [star ws; DASH_OR_TO; star ws]).

(** ["^[\s•●\-*>+]+"] *)
Definition BULLET_RE : pattern := P (cat [RE_bol; plus (cls (CSpace :: chars "•●-*>+"))]).
Definition is_bullet (t : pystr) : bool := is_some (re_match BULLET_RE t).

Definition _extract_date_range (text : pystr) : option pystr * option pystr :=
  match re_search DATE_RANGE_RE text with
  | None => (None, None)
  | Some m =>
    let matched := strip (group0 m) in
    match re_split RANGE_SPLIT_RE matched with
    | [a; b] => (Some (strip a), Some (strip b))
    | _ => (None, None)
    end
  end.

Definition _title_case_each_word (text : pystr) : pystr :=
  join SP (List.map (fun w => match w with
                              | c :: w' => to_upper c :: lower w'
                              | [] => []
                              end) (split_ws text)).

(** The dictionary returned by [_parse_single_line_experience]. *)
Record single_line : Type := SingleLine {
  sl_company : option pystr;
  sl_job_title : option pystr;
  sl_location : option pystr
}.

Definition some_if_truthy (s : pystr) : option pystr := if nonempty s then Some s else None.
(** [if x: x = f(x)] on a possibly-[None] string. *)
Definition map_truthy (f : pystr -> pystr) (o : option pystr) : option pystr :=
  match o with
  | Some s => if nonempty s then Some (f s) else o
  | None => None
  end.

Definition _parse_single_line_experience (text : pystr) : single_line :=
  let text_clean := strip (re_sub BULLET_RE (tpl_const []) text) in
  let was_all_caps :=
    is_some (re_search (P (cls [AZ])) text_clean)
    && negb (is_some (re_search (P (cls [az])) text_clean)) in
  let t := strip (_normalize_for_search text_clean) in
  let recase (o : option pystr) :=
    if was_all_caps then map_truthy _title_case_each_word o else o in
  let fix_field (o : option pystr) :=
    map_truthy text_normalization.normalize_field_text (recase o) in
  match re_match SINGLE_LINE_EXPERIENCE_RE t with
  | Some m =>
    let company := Some (strip (grp m 1)) in
    let job_title := Some (strip (grp m 2)) in
    let location := if truthy (group m 3) then Some (strip (grp m 3)) else None in
    let company := fix_field company in
    let job_title := fix_field job_title in
    let location := fix_field location in
    SingleLine (if truthy company then company else None)
               (if truthy job_title then job_title else None)
               location
  | None =>
    match re_match TWO_PART_EXPERIENCE_RE t with
    | Some m_two_part =>
      let company := Some (strip (grp m_two_part 1)) in
      let job_title :=
        if truthy (group m_two_part 2) then Some (strip (grp m_two_part 2)) else None in
      let company := fix_field company in
      let job_title := fix_field job_title in
      SingleLine (if truthy company then company else None) job_title None
    | None => SingleLine None None None
    end
  end.

Definition _is_company_or_job_line (text : pystr) : bool :=
  let t := strip text in
  if is_bullet t then false
  else if Nat.ltb 150 (List.length t) then false
  else if negb (nonempty t) then false
  else
    let word_count := List.length (split_ws t) in
    let upper_words := List.length (List.filter first_is_upper (split_ws t)) in
    (* upper_words / word_count >= 0.5 *)
    if Nat.ltb 0 word_count && PrimFloat.leb 0.5 (fdiv upper_words word_count)
    then true else false.

(** r"^[A-Z&\s'-]" *)
Definition COMPANY_START : pattern := P (cat [RE_bol; cls ([AZ; CSpace] ++ chars "&'-")]).

Definition _is_company_with_location_header (text : pystr) : bool :=
  if negb (nonempty text) || Nat.ltb 150 (List.length text) then false
  else if negb (contains text (py ",")) then false
  else
    match _extract_location_from_line text with
    | None => false
    | Some location =>
      if negb (nonempty location) then false
      else
        let loc_idx := find text location in
        let before_loc := strip (rstrip_chars (py ",") (strip (prefix_upto text loc_idx))) in
        if negb (nonempty before_loc) then false
        else if isupper before_loc && Nat.eqb (List.length (split_ws before_loc)) 1
                && Nat.ltb (List.length before_loc) 20 then false
        else if negb (is_some (re_match COMPANY_START before_loc)) then false
        else true
    end.

(** r"\d{1,2}[-/]\d{1,4}" *)
Definition SHORT_DATE : re := cat [rep 1 2 dg; SEP; rep 1 4 dg].
(** r"\s*\d{1,2}[-/]\d{1,4}\s*(?:-|–|to)\s*(?:Present|Current|\d{1,2}[-/]\d{1,4})?",
    IGNORECASE; [lead] is the leading [\s*] or [\s+]. *)
Definition TITLE_DATES (lead : re) : pattern :=
  PI (cat [lead; SHORT_DATE; star ws; DASH_OR_TO; star ws;
           opt (alt [L "Present"; L "Current"; SHORT_DATE])]).
(** [^[A-Z][A-Za-z\s&'-]*$] *)
Definition TITLE_CASE_RE : pattern :=
  P (cat [RE_bol; cls [AZ]; star (cls TITLE_CHARS); RE_eol]).

Definition _is_job_title_header (text : pystr) : bool :=
  if negb (nonempty text) || Nat.ltb 150 (List.length text) then false
  else
    let t := strip text in
    if str_in (lower t) HEADER_BLACKLIST then false
    else if contains t (py ":") then false
    else if contains t (py ",") then false
    else if truthy (_extract_location_from_line t) then false
    else
      let title_part :=
        if is_some (re_search (P SHORT_DATE) t)
        then strip (re_sub (TITLE_DATES (star ws)) (tpl_const []) t)
        else t in
      if negb (nonempty title_part) then false
      else if negb (isupper title_part || is_some (re_match TITLE_CASE_RE title_part))
      then false
      else
        let words := split_ws title_part in
        if Nat.ltb (List.length words) 1 || Nat.ltb 6 (List.length words) then false
        else true.

(** An entry block: the lines of one entry. *)
Definition EntryBlock : Type := list SourceLine.

(** The variables of the grouping loops. *)
Record group_state : Type := GroupState {
  entries : list EntryBlock;
  current_entry : EntryBlock;
  last_h2_company_header : option SourceLine
}.

(** r"^[A-Z][A-Za-z\s/&-]*$" *)
Definition MAJOR_SECTION_RE : pattern :=
  P (cat [RE_bol; cls [AZ]; star (cls ([AZ; az; CSpace] ++ chars "/&-")); RE_eol]).
(** r"^\d{1,2}[-/]\d{1,4}\s*(?:-|–|to)\s*(?:\d{1,2}[-/]\d{1,4}|Present|Current)",
    IGNORECASE *)
Definition DATE_ONLY_RE : pattern :=
  PI (cat [RE_bol; SHORT_DATE; star ws; DASH_OR_TO; star ws;
           alt [SHORT_DATE; L "Present"; L "Current"]]).

(** The test that ends a grouping loop at the next major section header;
    [colon_guard] is the extra [":" not in t] of the experience grouper. *)
Definition hits_major_section (colon_guard : bool) (section_start idx : nat)
    (text t : pystr) : bool :=
  (_is_header_line text && negb (is_bullet t)
   && (negb colon_guard || negb (contains t (py ":")))
   && Nat.ltb (section_start + 2) idx)
  && (is_some (re_match MAJOR_SECTION_RE t) && Nat.leb (List.length (split_ws t)) 5).

(** The chain of tests that sets [is_new_entry_start] and updates the cached
    company header, for a non-empty line [t] of the experience section. *)
Definition experience_entry_start (locator text t : pystr) (current : EntryBlock)
    (last_h2 : option SourceLine) : bool * option SourceLine :=
  if is_bullet t then (false, last_h2)
  else if is_some (re_match DATE_ONLY_RE t) then (false, last_h2)
  else if _is_company_with_location_header t then (true, Some (locator, text))
  else if contains t (py ":") && is_some (re_match SINGLE_LINE_EXPERIENCE_RE t)
  then (true, None)
  else
    match re_match TWO_PART_EXPERIENCE_RE t with
    | Some m =>
      let company_part := strip (grp m 1) in
      if Nat.ltb (List.length company_part) 100
         && (isupper company_part || existsb first_is_upper (split_ws company_part))
      then (true, None)
      else (false, last_h2)
    | None =>
      if nonempty current && is_some (_extract_location_from_line t)
         && negb (is_bullet t) && Nat.ltb (List.length t) 200
      then
        if _is_company_with_location_header t then (true, None) else (false, last_h2)
      else if nonempty current && _is_job_title_header t && is_some last_h2
      then
        let has_prior_job_title :=
          Nat.leb 4 (List.length current)
          && existsb (fun l : SourceLine => _is_job_title_header (strip (snd l))) current in
        (has_prior_job_title, last_h2)
      else if nonempty current && _is_company_or_job_line t && negb (is_bullet t)
      then
        let has_achievements :=
          existsb (fun l : SourceLine => is_bullet (snd l)) current in
        if has_achievements && Nat.leb 3 (List.length current)
        then (true, None) else (false, last_h2)
      else (false, last_h2)
    end.

(** The end of the loop body: open a new entry or extend the current one. *)
Definition experience_place (locator text t : pystr) (is_new_entry_start : bool)
    (last_h2 : option SourceLine) (st : group_state) : group_state :=
  if is_new_entry_start && nonempty (current_entry st) then
    let entries := entries st ++ [current_entry st] in
    match last_h2 with
    | Some h2 =>
      if _is_job_title_header t && negb (_is_company_with_location_header t)
      then GroupState entries [h2; (locator, text)] last_h2
      else if _is_company_with_location_header t
      then GroupState entries [(locator, text)] (Some (locator, text))
      else GroupState entries [(locator, text)] None
    | None =>
      if _is_company_with_location_header t
      then GroupState entries [(locator, text)] (Some (locator, text))
      else GroupState entries [(locator, text)] None
    end
  else GroupState (entries st) (current_entry st ++ [(locator, text)]) last_h2.

(** [for idx in range(section_start + 1, len(lines))]; [rest] is
    [lines[idx:]]. *)
Fixpoint group_experience_loop (section_start idx : nat) (rest : list SourceLine)
    (st : group_state) : group_state :=
  match rest with
  | [] => st
  | (locator, text) :: rest' =>
    let t := strip text in
    if negb (nonempty t) then group_experience_loop section_start (S idx) rest' st
    else if hits_major_section true section_start idx text t then
      (* break *)
      if nonempty (current_entry st)
      then GroupState (entries st ++ [current_entry st]) [] (last_h2_company_header st)
      else st
    else
      let '(is_new_entry_start, last_h2) :=
        experience_entry_start locator text t (current_entry st)
                               (last_h2_company_header st) in
      group_experience_loop section_start (S idx) rest'
        (experience_place locator text t is_new_entry_start last_h2 st)
  end.

(** The closing [if current_entry: entries.append(current_entry)]. *)
Definition finish_groups (st : group_state) : list EntryBlock :=
  if nonempty (current_entry st) then entries st ++ [current_entry st] else entries st.

Definition _group_experience_entries (lines : list SourceLine) (section_start : nat)
  : list EntryBlock :=
  finish_groups
    (group_experience_loop section_start (S section_start) (skipn (S section_start) lines)
                           (GroupState [] [] None)).

(** The dictionary built by [_parse_experience_entry]. *)
Record Experience : Type := MkExperience {
  company : option pystr;
  job_title : option pystr;
  location : option pystr;
  start_date : option pystr;
  end_date : option pystr;
  company_description : option pystr;
  job_description : option pystr;
  achievements : list pystr
}.

Definition empty_experience : Experience :=
  MkExperience None None None None None None None [].

Definition set_company (v : option pystr) (e : Experience) : Experience :=
  MkExperience v (job_title e) (location e) (start_date e) (end_date e)
               (company_description e) (job_description e) (achievements e).
Definition set_job_title (v : option pystr) (e : Experience) : Experience :=
  MkExperience (company e) v (location e) (start_date e) (end_date e)
               (company_description e) (job_description e) (achievements e).
Definition set_location (v : option pystr) (e : Experience) : Experience :=
  MkExperience (company e) (job_title e) v (start_date e) (end_date e)
               (company_description e) (job_description e) (achievements e).
Definition set_dates (d : option pystr * option pystr) (e : Experience) : Experience :=
  MkExperience (company e) (job_title e) (location e) (fst d) (snd d)
               (company_description e) (job_description e) (achievements e).
Definition set_company_description (v : option pystr) (e : Experience) : Experience :=
  MkExperience (company e) (job_title e) (location e) (start_date e) (end_date e)
               v (job_description e) (achievements e).
Definition set_job_description (v : option pystr) (e : Experience) : Experience :=
  MkExperience (company e) (job_title e) (location e) (start_date e) (end_date e)
               (company_description e) v (achievements e).
Definition add_achievement (a : pystr) (e : Experience) : Experience :=
  MkExperience (company e) (job_title e) (location e) (start_date e) (end_date e)
               (company_description e) (job_description e) (achievements e ++ [a]).

(** [x.title() if x.isupper() else x] *)
Definition title_if_upper (x : pystr) : pystr := if isupper x then title x else x.

(** The location and company read from a "company, location" line. *)
Definition company_and_location (t location_text : pystr) (e : Experience) : Experience :=
  let e := set_location (Some (_format_location location_text)) e in
  let loc_start := find t location_text in
  let company_part := rstrip_chars (py ",") (strip (prefix_upto t loc_start)) in
  if nonempty company_part then set_company (Some (title_if_upper company_part)) e else e.

(** LINE 1 of [_parse_experience_entry]: the entry after the first line and
    the index of the next line to read. *)
Definition parse_first_line (entry_lines : EntryBlock) (text : pystr) : Experience * nat :=
  let experience := empty_experience in
  let t := strip text in
  let parsed := _parse_single_line_experience t in
  if truthy (sl_company parsed) || truthy (sl_job_title parsed) then
    (set_location (sl_location parsed)
       (set_job_title (sl_job_title parsed)
          (set_company (sl_company parsed) experience)), 1)
  else if _is_company_with_location_header t then
    match _extract_location_from_line t with
    | Some location_text =>
      if nonempty location_text
      then (company_and_location t location_text experience, 1)
      else (experience, 1)
    | None => (experience, 1)
    end
  else if _is_job_title_header t && Nat.leb 2 (List.length entry_lines)
          && _is_company_with_location_header text
  then (experience, 0)
  else
    match _extract_location_from_line t with
    | Some location_text =>
      if nonempty location_text
      then (company_and_location t location_text experience, 1)
      else (set_company (Some (title_if_upper t)) experience, 1)
    | None => (set_company (Some (title_if_upper t)) experience, 1)
    end.

(** r"\b[a-z]\s+[a-z]\s+[a-z]\b" *)
Definition CHAR_FRAGMENTS_RE : pattern :=
  P (cat [RE_wordb; cls [az]; plus ws; cls [az]; plus ws; cls [az]; RE_wordb]).
(** r"^[•\-*].*[.:;!?]$" *)
Definition BULLET_SENTENCE_RE : pattern :=
  P (cat [RE_bol; cls (chars "•-*"); star RE_any; cls (chars ".:;!?"); RE_eol]).

Section ExperienceParser.
(** The scan of the set [MERGE_3_PREFIX_WHITELIST] (see
    [text_normalization._merge_three_tokens]). *)
Variable merge3_prefix : pystr -> option pystr.

Definition normalize_bullet_text : pystr -> pystr :=
  text_normalization.normalize_bullet_text merge3_prefix.

(** The repair of a description paragraph. *)
Definition normalize_description (lines : list pystr) : pystr :=
  let raw := join SP lines in
  let normalized := _fix_word_breaks_aggressive raw in
  normalize_bullet_text normalized.

(** The repair of an achievement before it is stored. *)
Definition repair_achievement (current_achievement : pystr) : pystr :=
  let current_achievement := _fix_word_breaks_aggressive current_achievement in
  let current_achievement := normalize_bullet_text current_achievement in
  let has_character_fragmentation :=
    is_some (re_search CHAR_FRAGMENTS_RE current_achievement) in
  if has_character_fragmentation then
    let current_achievement := _normalize_achievement_intelligently current_achievement in
    normalize_bullet_text current_achievement
  else current_achievement.

(** [if current_achievement and 10 < len(current_achievement) < 500]:
    repair it and append it; the repaired text stays in the variable. *)
Definition flush_achievement (current_achievement : option pystr) (e : Experience)
  : option pystr * Experience :=
  match current_achievement with
  | Some a =>
    if Nat.ltb 10 (List.length a) && Nat.ltb (List.length a) 500 then
      let a' := repair_achievement a in
      (Some a', add_achievement a' e)
    else (current_achievement, e)
  | None => (None, e)
  end.

(** The line after a job title that carries only dates or a location. *)
Definition parse_after_title (t_next : pystr) (e : Experience) : Experience * bool :=
  let dates_next := _extract_date_range t_next in
  let has_dates := is_some (fst dates_next) in
  let has_location := is_some (_extract_location_from_line t_next) in
  let is_just_dates :=
    (has_dates || has_location) && negb (_is_job_title_header t_next)
    && negb (_is_company_with_location_header t_next) in
  if is_just_dates then
    let e := if truthy (fst dates_next) then set_dates dates_next e else e in
    let e := match _extract_location_from_line t_next with
             | Some location_text =>
               if nonempty location_text
               then set_location (Some (_format_location location_text)) e else e
             | None => e
             end in
    (e, true)
  else (e, false).

(** The job-title line found by the description loop. *)
Definition parse_title_line (t : pystr) (company_desc_lines : list pystr)
    (next : option SourceLine) (e : Experience) : Experience * nat :=
  let e := if nonempty company_desc_lines
           then set_company_description (Some (normalize_description company_desc_lines)) e
           else e in
  let dates := _extract_date_range t in
  let e := if truthy (fst dates) then set_dates dates e else e in
  let title_part :=
    if is_some (re_search (P SHORT_DATE) t)
    then strip (re_sub (TITLE_DATES (plus ws)) (tpl_const []) t)
    else t in
  let e := if nonempty title_part
           then set_job_title (Some (title_if_upper title_part)) e else e in
  match next with
  | Some (_, text_next) =>
    if negb (truthy (fst dates)) then
      let '(e, consumed) := parse_after_title (strip text_next) e in
      (e, if consumed then 2 else 1)
    else (e, 1)
  | None => (e, 1)
  end.

(** The first [while idx < len(entry_lines)] loop (company description and
    job title); [rest] is [entry_lines[idx:]]. *)
Fixpoint description_loop (rest : EntryBlock) (idx : nat) (company_desc_lines : list pystr)
    (e : Experience) : Experience * nat :=
  match rest with
  | [] => (e, idx)
  | (locator, text) :: rest' =>
    let t := strip text in
    if negb (nonempty t) then description_loop rest' (S idx) company_desc_lines e
    else if is_bullet text then (e, idx)
    else if _is_job_title_header t then
      let '(e, used) := parse_title_line t company_desc_lines (hd_error rest') e in
      (e, idx + used)
    else if existsb is_upper t || existsb is_digit t
    then description_loop rest' (S idx) (company_desc_lines ++ [t]) e
    else description_loop rest' (S idx) company_desc_lines e
  end.

(** The second loop (job description): the collected lines and the new
    [idx]; [rest] is [entry_lines[temp_idx:]]. *)
Fixpoint job_description_loop (rest : EntryBlock) (temp_idx idx : nat)
    (job_desc_lines : list pystr) : list pystr * nat :=
  match rest with
  | [] => (job_desc_lines, idx)
  | (check_locator, check_text) :: rest' =>
    let check_t := strip check_text in
    if negb (nonempty check_t)
    then job_description_loop rest' (S temp_idx) idx job_desc_lines
    else if is_bullet check_text then (job_desc_lines, idx)
    else if _is_header_line check_text then (job_desc_lines, idx)
    else
      let is_company_header := _is_company_with_location_header check_t in
      if is_company_header && nonempty job_desc_lines then (job_desc_lines, idx)
      else if negb is_company_header
      then job_description_loop rest' (S temp_idx) (S temp_idx) (job_desc_lines ++ [check_t])
      else job_description_loop rest' (S temp_idx) idx job_desc_lines
  end.

(** The [for line_idx in range(idx, len(entry_lines))] loop (achievements);
    the result is the state when the loop is left. *)
Fixpoint achievements_loop (rest : EntryBlock) (current_achievement : option pystr)
    (e : Experience) : option pystr * Experience :=
  match rest with
  | [] => (current_achievement, e)
  | (locator, text) :: rest' =>
    let t := strip text in
    if negb (nonempty t) then achievements_loop rest' current_achievement e
    else if _is_job_title_header t then flush_achievement current_achievement e
    else
      let is_bullet_line := is_bullet text in
      if is_some (re_match TWO_PART_EXPERIENCE_RE t) && contains t (py ":")
      then achievements_loop rest' current_achievement e
      else if truthy (_extract_location_from_line t) && is_some (re_search DATE_RANGE_RE t)
      then achievements_loop rest' current_achievement e
      else if truthy (_extract_location_from_line t) && Nat.ltb (List.length t) 60
              && negb (contains t (py ":")) && negb (existsb is_digit t)
      then achievements_loop rest' current_achievement e
      else if negb is_bullet_line && negb (truthy current_achievement)
              && Nat.ltb 80 (List.length t)
              && negb (is_some (re_match BULLET_SENTENCE_RE t))
      then achievements_loop rest' current_achievement e
      else
        let achievement := strip (re_sub BULLET_RE (tpl_const []) t) in
        match current_achievement with
        | Some ca =>
          if negb is_bullet_line && nonempty achievement
          then achievements_loop rest' (Some (ca ++ SP ++ achievement)) e
          else
            let '(_, e) := flush_achievement current_achievement e in
            achievements_loop rest'
              (if nonempty achievement && Nat.ltb 10 (List.length achievement)
               then Some achievement else None) e
        | None =>
          achievements_loop rest'
            (if nonempty achievement && Nat.ltb 10 (List.length achievement)
             then Some achievement else None) e
        end
  end.

Definition _parse_experience_entry (entry_lines : EntryBlock) : Experience :=
  match entry_lines with
  | [] => empty_experience
  | (locator, text) :: _ =>
    let '(experience, idx) := parse_first_line entry_lines text in
    let '(experience, idx) := description_loop (skipn idx entry_lines) idx [] experience in
    let '(job_desc_lines, idx) := job_description_loop (skipn idx entry_lines) idx idx [] in
    let experience :=
      if nonempty job_desc_lines
      then set_job_description (Some (normalize_description job_desc_lines)) experience
      else experience in
    let '(current_achievement, experience) :=
      achievements_loop (skipn idx entry_lines) None experience in
    snd (flush_achievement current_achievement experience)
  end.
End ExperienceParser.

(* ===================================================================== *)
(** ** education_parser.py: entries *)
(* ===================================================================== *)

(** [schemas.EducationEntry] *)
Record EducationEntry : Type := MkEducation {
  institution : option pystr;
  degree : option pystr;
  field_of_study : option pystr;
  edu_location : option pystr;
  edu_start_date : option pystr;
  edu_end_date : option pystr;
  gpa : option pystr;
  details : list pystr
}.

Definition empty_education : EducationEntry :=
  MkEducation None None None None None None None [].

Definition set_institution (v : option pystr) (e : EducationEntry) : EducationEntry :=
  MkEducation v (degree e) (field_of_study e) (edu_location e) (edu_start_date e)
              (edu_end_date e) (gpa e) (details e).
Definition set_degree (v : option pystr) (e : EducationEntry) : EducationEntry :=
  MkEducation (institution e) v (field_of_study e) (edu_location e) (edu_start_date e)
              (edu_end_date e) (gpa e) (details e).
Definition set_field_of_study (v : option pystr) (e : EducationEntry) : EducationEntry :=
  MkEducation (institution e) (degree e) v (edu_location e) (edu_start_date e)
              (edu_end_date e) (gpa e) (details e).
Definition set_edu_location (v : option pystr) (e : EducationEntry) : EducationEntry :=
  MkEducation (institution e) (degree e) (field_of_study e) v (edu_start_date e)
              (edu_end_date e) (gpa e) (details e).
Definition set_edu_start_date (v : option pystr) (e : EducationEntry) : EducationEntry :=
  MkEducation (institution e) (degree e) (field_of_study e) (edu_location e) v
              (edu_end_date e) (gpa e) (details e).
Definition set_edu_end_date (v : option pystr) (e : EducationEntry) : EducationEntry :=
  MkEducation (institution e) (degree e) (field_of_study e) (edu_location e)
              (edu_start_date e) v (gpa e) (details e).
Definition set_details (v : list pystr) (e : EducationEntry) : EducationEntry :=
  MkEducation (institution e) (degree e) (field_of_study e) (edu_location e)
              (edu_start_date e) (edu_end_date e) (gpa e) v.
Definition add_detail (d : pystr) (e : EducationEntry) : EducationEntry :=
  set_details (details e ++ [d]) e.

(** [(?:\s+in)?] *)
Definition OPT_IN : re := opt (cat [plus ws; L "in"]).
Definition degree_patterns : list pattern :=
  [ P (RE_grp 1 (alt (List.map L
        ["bachelor of science"; "bachelor's degree"; "master of science";
         "master's degree"; "associate of"; "bachelor of arts"; "master of arts";
         "doctor of philosophy"]%string)));
    P (RE_grp 1 (alt (List.map (fun a => cat [L a; OPT_IN])
        ["b.s."; "b.a."; "m.s."; "m.a."; "m.b.a."; "ph.d."]%string)));
    P (RE_grp 1 (alt (List.map L
        ["bachelor"; "master"; "associate"; "doctorate"; "doctoral"; "phd";
         "graduate degree"; "postgraduate degree"]%string))) ].

Definition extract_degree_from_text (text : pystr) : option pystr :=
  let text := normalize_pdf_wordbreaks text in
  let text_lower := lower text in
  first_some (fun pattern =>
      match re_search pattern text_lower with
      | Some m => Some (strip (slice text (mo_start m) (mo_end m)))
      | None => None
      end) degree_patterns.

(** The characters of a field of study, [[A-Za-z\s&/\-]]. *)
Definition FIELD_CHARS : re := cls ([AZ; az; CSpace] ++ chars "&/-").
(** r"\bin\s+([A-Za-z\s&/\-]+?)(?:\s*(?:,|$|[STOP]))", IGNORECASE, where the
    class STOP holds newline and carriage return and the characters of
    [extra]. *)
Definition FIELD_RE (extra : string) : re :=
  cat [plus ws; L "in"; plus ws; RE_grp 1 (plus_lazy FIELD_CHARS);
       star ws; alt [L ","; RE_eol; cls ([CChar 10%N; CChar 13%N] ++ chars extra)]].
Definition FIELD_IN_RE (extra : string) : pattern :=
  PI (cat [RE_wordb; L "in"; plus ws; RE_grp 1 (plus_lazy FIELD_CHARS);
           star ws; alt [L ","; RE_eol; cls ([CChar 10%N; CChar 13%N] ++ chars extra)]]).
(** [DEGREE\s+in\s+(FIELD)(?:\s*(?:,|$|[\n\r●•\-\*]))] for the escaped text
    of [degree], IGNORECASE. *)
Definition DEGREE_IN_RE (degree : pystr) : pattern :=
  PI (RE_cat (Lp degree) (FIELD_RE "●•-*")).

(** r"(?:bachelor|master|associate|phd|doctorate)\s+(?:of\s+)?[a-z]+\s+(FIELD)(?:,|$)",
    IGNORECASE *)
Definition FIELD_AFTER_DEGREE_RE : pattern :=
  PI (cat [alt (List.map L ["bachelor"; "master"; "associate"; "phd"; "doctorate"]%string);
           plus ws; opt (cat [L "of"; plus ws]); plus (cls [az]); plus ws;
           RE_grp 1 (plus_lazy FIELD_CHARS); alt [L ","; RE_eol]]).

Definition extract_field_of_study_from_degree_line (text : pystr) : option pystr :=
  let text := normalize_pdf_wordbreaks text in
  let fallback :=
    match re_search FIELD_AFTER_DEGREE_RE text with
    | Some m => Some (strip (grp m 1))
    | None => None
    end in
  match re_search (FIELD_IN_RE "") text with
  | Some m =>
    let field := strip (grp m 1) in
    if Nat.ltb 2 (List.length field)
       && negb (str_in (lower field) [py "states"; py "united states"])
    then
      if contains field (py ",")
      then Some (strip (hd [] (split_chr field (ch ","))))
      else Some field
    else fallback
  | None => fallback
  end.

(** r",\s+([A-Z][a-z]+(?:\s+[A-Z][a-z]+)* )$" *)
Definition ABROAD_CITY_RE : pattern :=
  let cap := cat [cls [AZ]; plus (cls [az])] in
  P (cat [L ","; plus ws; RE_grp 1 (cat [cap; star (cat [plus ws; cap])]); RE_eol]).

Definition _extract_location_from_study_abroad (text : pystr) : option pystr :=
  match re_search ABROAD_CITY_RE text with
  | Some m =>
    let location := strip (grp m 1) in
    if Nat.leb 3 (List.length location) && negb (existsb is_digit location)
    then Some location else None
  | None => None
  end.

(** r"\s+[Ss]tudy\s+[Aa]broad\s*$" *)
Definition TRAILING_STUDY_ABROAD : pattern :=
  P (cat [plus ws; cls (chars "Ss"); L "tudy"; plus ws; cls (chars "Aa"); L "broad";
          star ws; RE_eol]).

Definition _expand_study_abroad_abbreviation (institution_text : pystr) : pystr :=
  match first_some (fun item : pystr * pystr =>
          let (abbrev, full_name) := item in
          let pattern := PI (cat [RE_bol; Lp abbrev; plus ws]) in
          if is_some (re_match pattern institution_text) then
            let expanded := re_sub pattern (tpl_const (full_name ++ SP)) institution_text in
            let expanded :=
              if contains (lower full_name) (py "study abroad")
                 && endswith (lower expanded) (py "study abroad")
              then strip (re_sub TRAILING_STUDY_ABROAD (tpl_const []) expanded)
              else expanded in
            Some (strip expanded)
          else None) STUDY_ABROAD_ABBREVIATIONS with
  | Some r => r
  | None => institution_text
  end.

(** The bullet pattern of [parse_education_entry], ["^[\s•●\-\*\→\>]+"]. *)
Definition EDU_BULLET_RE : pattern := P (cat [RE_bol; plus (cls (CSpace :: chars "•●-*→>"))]).

(** r"^(?P<city>[^,]+),\s*(?P<country>[^,]+),\s*(?P<term>.+?)\s*[–-]\s*(?P<year>(19|20)\d{2})\s*$",
    IGNORECASE; the groups are numbered 1 (city) to 4 (year). *)
Definition STUDY_ABROAD_LOC_LINE : pattern :=
  let not_comma := ncls (chars ",") in
  PI (cat [RE_bol; RE_grp 1 (plus not_comma); L ","; star ws;
           RE_grp 2 (plus not_comma); L ","; star ws;
           RE_grp 3 (plus_lazy RE_any); star ws; cls (chars "–-"); star ws;
           RE_grp 4 (cat [RE_grp 5 (alt [L "19"; L "20"]); rep 2 2 dg]);
           star ws; RE_eol]).

(** r"(Spring|Fall|Winter|Summer)\s+(Trimester|Semester|Term)\s+(\d{4})", IGNORECASE *)
Definition TRIMESTER_RE : pattern :=
  PI (cat [RE_grp 1 (alt (List.map L ["Spring"; "Fall"; "Winter"; "Summer"]%string));
           plus ws;
           RE_grp 2 (alt (List.map L ["Trimester"; "Semester"; "Term"]%string));
           plus ws; RE_grp 3 (rep 4 4 dg)]).

(** r"^\d{4}$" *)
Definition YEAR_ONLY_RE : pattern := P (cat [RE_bol; rep 4 4 dg; RE_eol]).

Definition junk_patterns : list pystr := List.map py
  ["references available upon request"; "available upon request"; "contact";
   "phone"; "email"]%string.

(** [5 < len(s) < 500] *)
Definition meaningful (s : pystr) : bool :=
  Nat.ltb 5 (List.length s) && Nat.ltb (List.length s) 500.

(* ===================================================================== *)
(** ** confidence_calculator.py *)
(* ===================================================================== *)

(** Decimal digits of a natural number ([str(n)]). *)
Definition digit_chr (d : nat) : char := (48 + N.of_nat d)%N.
Fixpoint nat_digits (fuel n : nat) (acc : pystr) : pystr :=
  match fuel with
  | O => acc
  | S fuel' =>
    let acc := digit_chr (n mod 10) :: acc in
    if Nat.ltb n 10 then acc else nat_digits fuel' (n / 10) acc
  end.
Definition str_of_nat (n : nat) : pystr := nat_digits (S n) n [].
(** [str(b)] for a boolean. *)
Definition str_of_bool (b : bool) : pystr := if b then py "True" else py "False".

(** [round(x * 100)] on the exact value of a finite [x], ties to even. *)
Definition hundredths (m : positive) (e : Z) : Z :=
  let num := (Z.pos m * 100)%Z in
  if (0 <=? e)%Z then (num * 2 ^ e)%Z
  else
    let d := (2 ^ (- e))%Z in
    let q := (num / d)%Z in
    let r := (num mod d)%Z in
    if (d <? 2 * r)%Z then (q + 1)%Z
    else if (2 * r =? d)%Z && Z.odd q then (q + 1)%Z
    else q.

(** [f"{x:.2f}"] *)
Definition format_2f (x : float) : pystr :=
  match Prim2SF x with
  | S754_zero s => (if s then py "-" else []) ++ py "0.00"
  | S754_infinity s => (if s then py "-" else []) ++ py "inf"
  | S754_nan => py "nan"
  | S754_finite s m e =>
    let n := Z.to_nat (hundredths m e) in
    (if s then py "-" else []) ++ str_of_nat (n / 100) ++ py "."
      ++ [digit_chr ((n / 10) mod 10); digit_chr (n mod 10)]
  end.

Module ConfidenceCalculator.

(** r"^[A-Z0-9._%+-]+@[A-Z0-9.-]+\.[A-Z]{2,}$", IGNORECASE *)
Definition email_pattern : pattern :=
  PI (cat [RE_bol; plus (cls ([AZ; d09] ++ chars "._%+-")); L "@";
           plus (cls ([AZ; d09] ++ chars ".-")); L "."; rep_min 2 (cls [AZ]); RE_eol]).

Definition email (email_value : option pystr) (evidence_count : nat) : float * pystr :=
  match email_value with
  | Some ((_ :: _) as v) =>
    if negb (is_some (re_match email_pattern v)) then (0.4%float, py "invalid_email_format")
    else if Nat.eqb evidence_count 1 then (1.0%float, py "regex_exact_single")
    else if Nat.leb evidence_count 3
    then (0.85%float, py "regex_exact_multiple_occurrences")
    else (0.6%float, py "too_many_email_candidates")
  | _ => (0.0%float, py "no_email_found")
  end.

Definition phone (phone_value : option pystr) (evidence_count : nat) : float * pystr :=
  match phone_value with
  | Some ((_ :: _) as v) =>
    (* digits_only = re.sub(r"\D", "", phone_value) *)
    let digits_only := List.filter is_digit v in
    if Nat.ltb (List.length digits_only) 7 then (0.3%float, py "too_few_digits")
    else if Nat.eqb evidence_count 1 then (1.0%float, py "regex_exact_single")
    else if Nat.leb evidence_count 2 then (0.85%float, py "regex_exact_multiple")
    else (0.6%float, py "ambiguous_multiple_phones")
  | _ => (0.0%float, py "no_phone_found")
  end.

(** [max(0.0, min(1.0, confidence))] *)
Definition clamp01 (c : float) : float :=
  let m := if PrimFloat.ltb c 1.0 then c else 1.0%float in
  if PrimFloat.ltb 0.0 m then m else 0.0%float.

Definition full_name (name_value : option pystr) (near_email is_top_of_resume
    passes_blacklist has_middle_initial : bool) : float * pystr :=
  match name_value with
  | Some ((_ :: _) as v) =>
    let confidence := 0.5%float in
    if Nat.ltb 60 (List.length v) then (0.2%float, py "name_too_long")
    else if existsb is_digit v then (0.3%float, py "name_contains_digits")
    else
      let confidence :=
        if negb passes_blacklist then PrimFloat.sub confidence 0.2 else confidence in
      let confidence := if near_email then PrimFloat.add confidence 0.25 else confidence in
      let confidence :=
        if is_top_of_resume then PrimFloat.add confidence 0.25 else confidence in
      let confidence :=
        if has_middle_initial then PrimFloat.add confidence 0.05 else confidence in
      if negb (contains v SP) then (0.2%float, py "no_space_in_name")
      else
        let confidence := clamp01 confidence in
        let method :=
          if near_email && is_top_of_resume then py "heuristic_multivariate"
          else py "heuristic_window" in
        (confidence, method)
  | _ => (0.0%float, py "no_name_found")
  end.

Definition location (location_value : option pystr) (extraction_method : pystr)
    (has_comma is_valid_format : bool) : float * pystr :=
  match location_value with
  | Some (_ :: _) =>
    let confidence :=
      if str_eqb extraction_method (py "regex_pattern")
      then (if is_valid_format then 0.95 else 0.7)%float
      else if str_eqb extraction_method (py "heuristic") then 0.75%float
      else if str_eqb extraction_method (py "after_title") then 0.65%float
      else 0.6%float in
    let confidence := if negb has_comma then PrimFloat.sub confidence 0.1 else confidence in
    (clamp01 confidence, extraction_method)
  | _ => (0.0%float, py "no_location_found")
  end.

Inductive ParseQuality : Type := high | medium | low.

(** [field_confidences.get(field, 0.0)] *)
Definition get_conf (field_confidences : gmap string float) (field : string) : float :=
  default 0.0%float (field_confidences !! field).

Definition core_fields : list string := ["full_name"; "email"; "phone"]%string.

(** Python's [sum]: the integer 0, then the items added from the left. *)
Definition py_sum (xs : list float) : float := fold_left PrimFloat.add xs 0%float.

Definition calculate_overall_parse_quality (field_confidences : gmap string float)
  : ParseQuality :=
  let core_confidences := List.map (get_conf field_confidences) core_fields in
  let avg_core :=
    if nonempty core_confidences
    then PrimFloat.div (py_sum core_confidences)
                       (float_of_nat (List.length core_confidences))
    else 0.0%float in
  if PrimFloat.leb 0.85 avg_core then high
  else if PrimFloat.leb 0.65 avg_core then medium
  else low.

End ConfidenceCalculator.

Section Pipeline.
(** The four keyword tests of [education_parser] and the whitelist scan of
    [text_normalization] iterate over Python sets, whose order the program
    does not fix.  The pipeline is written over these five functions; the
    program's own are [keyword_scan] and [merge3_scan] at some iteration
    order of the respective set. *)
Variables has_degree_keyword is_high_school is_institution_keyword is_study_abroad
  : pystr -> bool.
Variable merge3_prefix : pystr -> option pystr.

Definition classify_entry_as_education (entry_lines : list pystr)
    (current_section : option section_type) : bool :=
  let combined_text := lower (join SP entry_lines) in
  if has_degree_keyword combined_text then true
  else if is_high_school combined_text then true
  else if is_study_abroad combined_text then true
  else if match current_section with Some SecEducation => true | _ => false end
          && is_institution_keyword combined_text then true
  else if match current_section with Some SecEducation => true | _ => false end then true
  else false.

(** The degree and field of study taken from the text after the colon of
    the first line. *)
Definition degree_from_part (degree_part : pystr) (education : EducationEntry)
  : EducationEntry :=
  match extract_degree_from_text degree_part with
  | Some ((_ :: _) as degree) =>
    match re_search (FIELD_IN_RE "") degree_part with
    | Some field_match =>
      let field := strip (grp field_match 1) in
      if nonempty field && Nat.ltb 2 (List.length field)
      then set_field_of_study (Some field) (set_degree (Some (strip degree)) education)
      else set_degree (Some (strip degree)) education
    | None =>
      let education := set_degree (Some (strip degree)) education in
      match extract_field_of_study_from_degree_line degree_part with
      | Some field =>
        if nonempty field then set_field_of_study (Some field) education else education
      | None => education
      end
    end
  | _ => set_degree (Some degree_part) education
  end.

(** The fallback that searches the whole entry for a degree. *)
Definition degree_from_entry (first_text combined_text : pystr)
    (degree_part : option pystr) (education : EducationEntry) : EducationEntry :=
  let education :=
    match extract_degree_from_text combined_text with
    | Some ((_ :: _) as degree) =>
      match re_search (FIELD_IN_RE "●•-*") combined_text with
      | Some field_match =>
        let field := strip (grp field_match 1) in
        if nonempty field && Nat.ltb 2 (List.length field)
        then set_field_of_study (Some field) (set_degree (Some (strip degree)) education)
        else set_degree (Some (strip degree)) education
      | None => set_degree (Some (strip degree)) education
      end
    | _ => education
    end in
  if negb (truthy (field_of_study education)) then
    match extract_field_of_study_from_degree_line
            (match degree_part with None => first_text | Some d => d end) with
    | Some field =>
      if nonempty field then set_field_of_study (Some field) education else education
    | None => education
    end
  else education.

(** [for line in lines_text]: the field of study after "<degree> in". *)
Definition field_from_lines (degree : pystr) (lines_text : list pystr) : option pystr :=
  first_some (fun line =>
      if contains line (py " in ") && contains (lower line) (lower degree) then
        match re_search (DEGREE_IN_RE degree) line with
        | Some field_match =>
          let field := strip (grp field_match 1) in
          if Nat.ltb 2 (List.length field) then Some field else None
        | None => None
        end
      else None) lines_text.

Definition parse_institution (institution_part : pystr) (education : EducationEntry)
  : EducationEntry :=
  if is_study_abroad institution_part then
    match _extract_location_from_study_abroad institution_part with
    | Some ((_ :: _) as loc) =>
      let loc_idx := find institution_part loc in
      let inst_name :=
        strip (rstrip_chars (py ",") (strip (prefix_upto institution_part loc_idx))) in
      set_edu_location (Some loc)
        (set_institution (Some (_expand_study_abroad_abbreviation inst_name)) education)
    | _ =>
      set_institution (Some (_expand_study_abroad_abbreviation institution_part)) education
    end
  else
    match _extract_location_from_line institution_part with
    | Some ((_ :: _) as loc) =>
      let loc_idx := find institution_part loc in
      let inst_name := rstrip_chars (py ",") (strip (prefix_upto institution_part loc_idx)) in
      set_edu_location (Some loc) (set_institution (Some inst_name) education)
    | _ => set_institution (Some institution_part) education
    end.

(** A non-bullet line that is not a study-abroad line: location, dates,
    term, or a plain detail. *)
Definition parse_plain_line (t : pystr) (education : EducationEntry) : EducationEntry :=
  let loc := _extract_location_from_line t in
  let '(education, has_location) :=
    if truthy loc && negb (truthy (edu_location education))
    then (set_edu_location loc education, true) else (education, false) in
  let '(education, has_dates) :=
    match re_search DATE_RANGE_RE t with
    | Some dates_match =>
      let matched := strip (group0 dates_match) in
      let parts := re_split RANGE_SPLIT_RE matched in
      match parts with
      | p0 :: p1 :: _ =>
        let education :=
          if negb (truthy (edu_start_date education))
          then set_edu_start_date (Some (strip p0)) education else education in
        (set_edu_end_date (Some (strip p1)) education, true)
      | _ => (education, true)
      end
    | None => (education, false)
    end in
  let '(education, has_dates) :=
    if negb has_dates && negb (truthy (edu_end_date education)) then
      match re_search TRIMESTER_RE t with
      | Some trimester_match =>
        let year := grp trimester_match 3 in
        let term := grp trimester_match 1 in
        (add_detail (term ++ SP ++ grp trimester_match 2 ++ SP ++ year)
                    (set_edu_end_date (Some year) education), true)
      | None => (education, has_dates)
      end
    else (education, has_dates) in
  if has_location || has_dates then
    let remaining_text := t in
    let remaining_text :=
      if has_location then
        match edu_location education with
        | Some ((_ :: _) as l) =>
          match find remaining_text l with
          | Some loc_start =>
            firstn loc_start remaining_text
            ++ skipn (loc_start + List.length l) remaining_text
          | None => remaining_text
          end
        | _ => remaining_text
        end
      else remaining_text in
    let remaining_text :=
      if has_dates then re_sub DATE_RANGE_RE (tpl_const []) remaining_text
      else remaining_text in
    let remaining_text := strip remaining_text in
    if nonempty remaining_text && meaningful remaining_text
    then add_detail remaining_text education else education
  else if meaningful t then add_detail t education
  else education.

(** The body of [for text in lines_to_process]. *)
Definition parse_detail_line (education : EducationEntry) (text : pystr) : EducationEntry :=
  let t := strip text in
  if negb (nonempty t) then education
  else if is_some (re_match EDU_BULLET_RE t) then
    let detail_text := strip (re_sub EDU_BULLET_RE (tpl_const []) t) in
    if nonempty detail_text && meaningful detail_text
    then add_detail detail_text education else education
  else
    match re_match STUDY_ABROAD_LOC_LINE t with
    | Some study_abroad_match =>
      if negb (truthy (edu_location education)) then
        let city := strip (grp study_abroad_match 1) in
        let country := strip (grp study_abroad_match 2) in
        let term := strip (grp study_abroad_match 3) in
        let year := strip (grp study_abroad_match 4) in
        add_detail term
          (set_edu_end_date (Some year)
             (set_edu_start_date (Some year)
                (set_edu_location (Some (city ++ py ", " ++ country)) education)))
      else parse_plain_line t education
    | None => parse_plain_line t education
    end.

(** The validation loop over [education.details]. *)
Definition clean_detail (acc : list pystr * list pystr) (detail : pystr)
  : list pystr * list pystr :=
  let '(cleaned_details, warnings) := acc in
  let is_junk := existsb (fun pattern => contains (lower detail) pattern) junk_patterns in
  let warnings :=
    if is_junk
    then warnings ++ [py "Removed junk detail from education entry: " ++ detail]
    else warnings in
  let year_only := is_some (re_match YEAR_ONLY_RE (strip detail)) in
  if negb is_junk && nonempty (strip detail) && negb year_only
  then (cleaned_details ++ [detail], warnings)
  else if year_only
  then (cleaned_details,
        warnings ++ [py "Removed orphaned year from education details: " ++ detail])
  else (cleaned_details, warnings).

Definition parse_education_entry (entry_lines : EntryBlock)
    (current_section : option section_type) : EducationEntry * list pystr :=
  let education := empty_education in
  match List.map (fun l : SourceLine => normalize_pdf_wordbreaks (strip (snd l)))
                 entry_lines with
  | [] => (education, [])
  | (first_text :: remaining_lines) as lines_text =>
    let combined_text := join SP lines_text in
    let is_first_line_bullet := is_some (re_match EDU_BULLET_RE first_text) in
    let '(institution_part, degree_part) :=
      if negb is_first_line_bullet && contains first_text (py ":") then
        match split_once first_text (py ":") with
        | p0 :: p1 :: _ => (Some (strip p0), Some (strip p1))
        | _ => (Some first_text, None)
        end
      else if is_first_line_bullet then (None, None)
      else (Some first_text, None) in
    let education :=
      match degree_part with
      | Some ((_ :: _) as dp) => degree_from_part dp education
      | _ => education
      end in
    let education :=
      if negb (truthy (degree education))
      then degree_from_entry first_text combined_text degree_part education
      else education in
    let education :=
      match degree education with
      | Some ((_ :: _) as d) =>
        if negb (truthy (field_of_study education)) then
          match field_from_lines d lines_text with
          | Some field => set_field_of_study (Some field) education
          | None => education
          end
        else education
      | _ => education
      end in
    let education :=
      match institution_part with
      | Some ((_ :: _) as ip) => parse_institution ip education
      | _ => education
      end in
    let lines_to_process :=
      if is_first_line_bullet then first_text :: remaining_lines else remaining_lines in
    let education := fold_left parse_detail_line lines_to_process education in
    let '(cleaned_details, warnings) := fold_left clean_detail (details education) ([], []) in
    (set_details cleaned_details education, warnings)
  end.

(* =================================================================== *)
(** ** schemas.py: the response *)
(* =================================================================== *)

(** [Literal["docx", "pdf", "ocr", "user"]] *)
Inductive Source : Type := docx | pdf | ocr | user.

Record EvidenceItem : Type := MkEvidence {
  ev_source : Source;
  ev_locator : pystr;
  ev_text : pystr;
  ev_confidence : float
}.

Record FieldConfidence : Type := MkFieldConfidence {
  field_name : pystr;
  confidence : float;
  extraction_method : pystr;
  reasons : list pystr;
  required : bool
}.

Record CandidateProfile : Type := MkCandidate {
  cp_full_name : option pystr;
  cp_email : option pystr;
  cp_phone : option pystr;
  cp_location : option pystr;
  cp_links : list pystr;
  cp_skills : list pystr;
  cp_experiences : list Experience;
  cp_education : list EducationEntry
}.

Record ParseResponse : Type := MkResponse {
  candidate_profile : CandidateProfile;
  evidence_map : gmap string (list EvidenceItem);
  confidence_scores : gmap string FieldConfidence;
  parse_quality : ConfidenceCalculator.ParseQuality;
  warnings : list pystr
}.

(* =================================================================== *)
(** ** line_parser.py: [parse_lines_to_response] *)
(* =================================================================== *)

(** [add_ev]: [evidence_map.setdefault(key, []).append(EvidenceItem(...))] *)
Definition add_ev (source : Source) (evidence_map : gmap string (list EvidenceItem))
    (key : string) (locator text : pystr) : gmap string (list EvidenceItem) :=
  <[key := default [] (evidence_map !! key)
           ++ [MkEvidence source locator (strip text) 1.0%float]]> evidence_map.

(** [add_ev] for every line of a block. *)
Definition add_ev_block (source : Source) (key : string)
    (evidence_map : gmap string (list EvidenceItem)) (block : EntryBlock)
  : gmap string (list EvidenceItem) :=
  fold_left (fun em l => add_ev source em key (fst l) (snd l)) block evidence_map.

(** *** 1) Phone and email *)

Definition PHONE_SEP : re := opt (cls (CSpace :: chars "-.")).      (* [-.\s]? *)
(** [(?:^|\s|\()((?:\+?\d{1,3}[-.\s]?)?\(?\s*\d{3}\s*\)?[-.\s]?\d{3}[-.\s]?\d{4})] *)
Definition PHONE_RE : pattern :=
  PI (cat [alt [RE_bol; ws; L "("];
           RE_grp 1 (cat [opt (cat [opt (L "+"); rep 1 3 dg; PHONE_SEP]);
                          opt (L "("); star ws; rep 3 3 dg; star ws; opt (L ")");
                          PHONE_SEP; rep 3 3 dg; PHONE_SEP; rep 4 4 dg])]).
(** r"(\(?\s*\d{3}\s*\)?\s*[-.]?\s*\d{3}\s*[-.]?\s*\d{4})" *)
Definition PHONE_ORIG_RE : pattern :=
  P (RE_grp 1 (cat [opt (L "("); star ws; rep 3 3 dg; star ws; opt (L ")"); star ws;
                    opt (cls (chars "-.")); star ws; rep 3 3 dg; star ws;
                    opt (cls (chars "-.")); star ws; rep 4 4 dg])).
(** r"\(\d{3}\)\s*\d{3}[-.]?\d{4}" *)
Definition PHONE_PARENS_RE : pattern :=
  P (cat [L "("; rep 3 3 dg; L ")"; star ws; rep 3 3 dg; opt (cls (chars "-."));
          rep 4 4 dg]).
(** r"\d{3}[-.]?\d{3}[-.]?\d{4}" *)
Definition PHONE_STD_RE : pattern :=
  P (cat [rep 3 3 dg; opt (cls (chars "-.")); rep 3 3 dg; opt (cls (chars "-."));
          rep 4 4 dg]).

(** The value given to [candidate.phone] on the line where [PHONE_RE]
    matched with match object [m]. *)
Definition phone_from_line (text : pystr) (m : mobj) : option pystr :=
  let phone_digits := re_findall (P (plus dg)) (grp m 1) in
  if Nat.leb 3 (List.length phone_digits) then
    match re_search PHONE_ORIG_RE text with
    | Some m_orig =>
      let phone := replace (replace (grp m_orig 1) SP []) [9%N] [] in
      if contains text (py "(") && contains text (py ")") then
        match re_search PHONE_PARENS_RE text with
        | Some m_formatted => Some (group0 m_formatted)
        | None => Some phone
        end
      else
        match re_search PHONE_STD_RE text with
        | Some m_std => Some (group0 m_std)
        | None => Some phone
        end
    | None =>
      match phone_digits with
      | d0 :: d1 :: d2 :: _ :: _ => Some (py "(" ++ d0 ++ py ")" ++ d1 ++ py "-" ++ d2)
      | _ => None
      end
    end
  else None.

(** The first loop: the index and line where a phone is found, and the
    phone. *)
Fixpoint find_phone (idx : nat) (lines : list SourceLine)
  : option (nat * SourceLine * option pystr) :=
  match lines with
  | [] => None
  | (locator, text) :: rest =>
    let t := _normalize_for_search text in
    match re_search PHONE_RE t with
    | Some m => Some (idx, (locator, text), phone_from_line text m)
    | None => find_phone (S idx) rest
    end
  end.

(** [extract_email_flexible(raw_nospace) or extract_email_flexible(raw)] *)
Definition email_of_line (text : pystr) : option pystr :=
  let raw := _despace_if_needed text in
  let raw_nospace := re_sub WS_RUN (tpl_const []) raw in
  match text_normalization.extract_email_flexible raw_nospace with
  | Some ((_ :: _) as e) => Some e
  | _ => text_normalization.extract_email_flexible raw
  end.

Fixpoint find_email (idx : nat) (lines : list SourceLine)
  : option (nat * SourceLine * pystr) :=
  match lines with
  | [] => None
  | (locator, text) :: rest =>
    match email_of_line text with
    | Some ((_ :: _) as email) => Some (idx, (locator, text), email)
    | _ => find_email (S idx) rest
    end
  end.

(** *** 2) Name *)

(** r"[A-Za-z][A-Za-z .'-]{1,58}" and r"[A-Za-z][A-Za-z.'-]*" *)
Definition NAME_RE : pattern :=
  P (cat [cls [AZ; az]; rep 1 58 (cls ([AZ; az] ++ chars " .'-"))]).
Definition NAME_TOKEN_RE : pattern :=
  P (cat [cls [AZ; az]; star (cls ([AZ; az] ++ chars ".'-"))]).

Definition looks_like_name (s : pystr) : bool :=
  let raw := strip s in
  let t := _normalize_for_search raw in
  if negb (nonempty t) || Nat.ltb 60 (List.length t) then false
  else if _is_header_line t then false
  else if negb (is_some (re_fullmatch NAME_RE t)) then false
  else if Nat.ltb (List.length (split_ws t)) 2 then false
  else true.

(** A name and the line given as its evidence. *)
Definition name_of_line (l : SourceLine) : option (pystr * SourceLine) :=
  if looks_like_name (snd l)
  then Some (_normalize_name (_normalize_for_search (snd l)), l)
  else None.

(** [try_name_from_window]: the lines [center_idx - 1] down to
    [max(0, center_idx - 3)], closest first. *)
Definition try_name_from_window (lines : list SourceLine) (center_idx : option nat)
  : option (pystr * SourceLine) :=
  match center_idx with
  | None => None
  | Some c =>
    let start := c - 3 in
    first_some name_of_line (rev (firstn (c - start) (skipn start lines)))
  end.

Definition try_name_from_glued_top_line (lines : list SourceLine) (email : option pystr)
  : option (pystr * SourceLine) :=
  match lines with
  | [] => None
  | (locator, raw) :: _ =>
    let t := _normalize_for_search raw in
    let prefix :=
      match email with
      | Some ((_ :: _) as e) =>
        if contains t e then strip (hd [] (split_once t e)) else t
      | _ => t
      end in
    let tokens :=
      List.filter (fun tok => is_some (re_fullmatch NAME_TOKEN_RE tok)) (split_ws prefix) in
    if Nat.leb 2 (List.length tokens) then
      let name_guess := join SP (firstn 2 tokens) in
      if negb (_is_header_line name_guess)
      then Some (_normalize_name name_guess, (locator, raw))
      else None
    else None
  end.

Definition find_name (lines : list SourceLine) (email_idx : option nat)
    (email : option pystr) : option (pystr * SourceLine) :=
  match try_name_from_window lines email_idx with
  | Some r => Some r
  | None =>
    match first_some name_of_line (firstn 10 lines) with
    | Some r => Some r
    | None => try_name_from_glued_top_line lines email
    end
  end.

(** *** 3) Location *)

(** [maybe_set_location] on a line while no location is set: the location
    and the text recorded as its evidence. *)
Definition location_of_line (l : SourceLine) : option (pystr * SourceLine) :=
  let '(locator, text) := l in
  let t := _normalize_for_search text in
  if Nat.ltb 200 (List.length t) then None
  else if _is_header_line t then None
  else
    let location_text := _extract_location_from_line t in
    let matched_text :=
      if truthy location_text then location_text
      else match re_match LOCATION_RE t with
           | Some m => Some (group0 m)
           | None => None
           end in
    match matched_text with
    | Some matched_text =>
      let formatted_evidence := _format_location matched_text in
      Some (_format_location matched_text, (locator, formatted_evidence))
    | None => None
    end.

Definition maybe_set_location (source : Source)
    (st : option pystr * gmap string (list EvidenceItem)) (l : SourceLine)
  : option pystr * gmap string (list EvidenceItem) :=
  let '(location, evidence_map) := st in
  if truthy location then st
  else
    match location_of_line l with
    | Some (loc, (locator, formatted_evidence)) =>
      (Some loc, add_ev source evidence_map "location" locator formatted_evidence)
    | None => st
    end.

(** *** 4) Links *)

Definition URL_TAIL : re := plus (ncls (CSpace :: chars ")>]")).      (* [^\s)>\]]+ *)
Definition OPT_SCHEME : re :=                                         (* (?:https?://)? *)
  opt (cat [L "http"; opt (L "s"); L "://"]).
Definition OPT_WWW : re := opt (L "www.").                            (* (?:www\.)? *)
(** r"\bhttps?://[^\s)>\]]+\b", IGNORECASE *)
Definition URL_RE : pattern :=
  PI (cat [RE_wordb; L "http"; opt (L "s"); L "://"; URL_TAIL; RE_wordb]).
(** r"\b(?:https?://)?(?:www\.)?linkedin\.com/[^\s)>\]]+\b", IGNORECASE *)
Definition LINKEDIN_RE : pattern :=
  PI (cat [RE_wordb; OPT_SCHEME; OPT_WWW; L "linkedin.com/"; URL_TAIL; RE_wordb]).
(** r"\b(?:https?://)?(?:www\.)?github\.com/[A-Za-z0-9_.-]+\b", IGNORECASE *)
Definition GITHUB_RE : pattern :=
  PI (cat [RE_wordb; OPT_SCHEME; OPT_WWW; L "github.com/";
           plus (cls ([AZ; az; d09] ++ chars "_.-")); RE_wordb]).

(** [for m in rx.finditer(t)] *)
Definition add_links (source : Source) (l : SourceLine)
    (st : list pystr * gmap string (list EvidenceItem)) (rx : pattern)
  : list pystr * gmap string (list EvidenceItem) :=
  let t := _normalize_for_search (snd l) in
  fold_left (fun (st : list pystr * gmap string (list EvidenceItem)) m =>
               let '(links, evidence_map) := st in
               let url := group0 m in
               if negb (str_in url links)
               then (links ++ [url], add_ev source evidence_map "links" (fst l) (snd l))
               else st)
            (re_finditer rx t) st.

Definition extract_links (source : Source) (lines : list SourceLine)
    (evidence_map : gmap string (list EvidenceItem))
  : list pystr * gmap string (list EvidenceItem) :=
  fold_left (fun st l => fold_left (add_links source l) [LINKEDIN_RE; GITHUB_RE; URL_RE] st)
            lines ([], evidence_map).

(** *** 5) Skills *)

Definition SKILL_PREFIX : re :=          (* (technical\s+|core\s+|additional\s+)? *)
  opt (RE_grp 1 (alt [cat [L "technical"; plus ws]; cat [L "core"; plus ws];
                      cat [L "additional"; plus ws]])).
(** r"^\s*(technical\s+|core\s+|additional\s+)?(skills|competencies|proficiencies|expertise|strengths)\s*:?",
    IGNORECASE *)
Definition SKILLS_HEADER_RE : pattern :=
  PI (cat [RE_bol; star ws; SKILL_PREFIX;
           RE_grp 2 (alt (List.map L ["skills"; "competencies"; "proficiencies";
                                      "expertise"; "strengths"]%string));
           star ws; opt (L ":")]).
(** r"^\s*(technical\s+|core\s+|additional\s+)?(skills|competencies|proficiencies)\s*:?\s*",
    IGNORECASE *)
Definition SKILLS_LEAD_RE : pattern :=
  PI (cat [RE_bol; star ws; SKILL_PREFIX;
           RE_grp 2 (alt (List.map L ["skills"; "competencies"; "proficiencies"]%string));
           star ws; opt (L ":"); star ws]).
Definition SKILL_SPLIT_RE : pattern := P (cls (chars ",;•")).          (* [,;•] *)
Definition SKILL_BULLET_CHARS : re := plus (cls (CSpace :: chars "•-*>")).
(** r"^[\s•\-*>]+[A-Za-z]" and r"^[\s•\-*>]+" *)
Definition SKILL_BULLET_RE : pattern := P (cat [RE_bol; SKILL_BULLET_CHARS; cls [AZ; az]]).
Definition SKILL_BULLET_PREFIX : pattern := P (cat [RE_bol; SKILL_BULLET_CHARS]).
Definition SKILL_CHARS : list cset_item := [AZ; az; d09; CSpace] ++ chars "+#-./()".
(** r"^[A-Z][A-Za-z0-9\s\+#\-\.\/\(\)]*$" *)
Definition SKILL_WORD_RE : pattern :=
  P (cat [RE_bol; cls [AZ]; star (cls SKILL_CHARS); RE_eol]).
(** r"^[A-Za-z]+\s*:" *)
Definition SUBHEADING_RE : pattern :=
  P (cat [RE_bol; plus (cls [AZ; az]); star ws; L ":"]).
(** [^[A-Za-z][A-Za-z0-9\s\+#\-\.\/\(\),]*:\s*(.* )]; the source first
    matches the same pattern without the final group. *)
Definition SUBHEADING_LIST_RE : pattern :=
  P (cat [RE_bol; cls [AZ; az]; star (cls (SKILL_CHARS ++ chars ",")); L ":"; star ws;
          RE_grp 1 (star RE_any)]).
(** r"^[A-Z][A-Za-z\s]*$" *)
Definition PLAIN_HEADER_RE : pattern :=
  P (cat [RE_bol; cls [AZ]; star (cls [AZ; az; CSpace]); RE_eol]).

Definition _is_skills_header (text : pystr) : bool :=
  is_some (re_match SKILLS_HEADER_RE text).

Definition _extract_inline_skills (text : pystr) : list pystr :=
  let cleaned := strip (re_sub SKILLS_LEAD_RE (tpl_const []) text) in
  if negb (nonempty cleaned) then []
  else
    List.filter (fun skill => nonempty skill && Nat.leb 2 (List.length skill))
                (List.map strip (re_split SKILL_SPLIT_RE cleaned)).

Definition _is_skill_bullet (text : pystr) : bool :=
  let t := strip text in
  if is_some (re_match SKILL_BULLET_RE t) then true
  else if is_some (re_match SKILL_WORD_RE t) then
    let words := split_ws t in
    if Nat.ltb 3 (List.length words) then false
    else if is_some (re_match SUBHEADING_RE t) then false
    else true
  else false.

(** The variables of the skills loop; [skills] doubles as [seen_skills]
    (every skill appended is added to the set, and nothing else is). *)
Record skills_state : Type := SkillsState {
  sk_skills : list pystr;
  sk_active : bool;
  sk_evidence : gmap string (list EvidenceItem)
}.

(** Append the skills not seen yet. *)
Definition add_skills (new : list pystr) (skills : list pystr) : list pystr :=
  fold_left (fun skills skill => if str_in skill skills then skills else skills ++ [skill])
            new skills.

Definition skills_step (source : Source) (st : skills_state) (l : SourceLine)
  : skills_state :=
  let '(locator, text) := l in
  let raw := strip text in
  if _is_skills_header text then
    let inline_skills := _extract_inline_skills text in
    if nonempty inline_skills
    then SkillsState (add_skills inline_skills (sk_skills st)) true
                     (add_ev source (sk_evidence st) "skills" locator text)
    else SkillsState (sk_skills st) true (sk_evidence st)
  else if sk_active st then
    if negb (nonempty raw) then st
    else if is_some (re_match PLAIN_HEADER_RE raw)
            && Nat.leb (List.length (split_ws raw)) 3 && _is_header_line text
    then SkillsState (sk_skills st) false (sk_evidence st)
    else if _is_skill_bullet text then
      let skill := strip (re_sub SKILL_BULLET_PREFIX (tpl_const []) raw) in
      if nonempty skill && Nat.leb 2 (List.length skill) && negb (str_in skill (sk_skills st))
      then SkillsState (sk_skills st ++ [skill]) true
                       (add_ev source (sk_evidence st) "skills" locator text)
      else st
    else
      match re_match SUBHEADING_LIST_RE raw with
      | Some m =>
        let remainder := strip (grp m 1) in
        let parts := List.map strip (re_split SKILL_SPLIT_RE remainder) in
        let new := List.filter (fun skill => nonempty skill
                                             && Nat.leb 2 (List.length skill)) parts in
        SkillsState (add_skills new (sk_skills st)) true
                    (if nonempty remainder
                     then add_ev source (sk_evidence st) "skills" locator text
                     else sk_evidence st)
      | None => st
      end
  else st.

(** *** 7) Sections, experience and education entries *)

(** [section_headers_found.get(which)]: the index of the last line whose
    section type is [which]. *)
Fixpoint section_index (which : section_type) (idx : nat) (lines : list SourceLine)
    (found : option nat) : option nat :=
  match lines with
  | [] => found
  | (locator, text) :: rest =>
    section_index which (S idx) rest
      (match detect_section_type text, which with
       | Some SecEducation, SecEducation => Some idx
       | Some SecExperience, SecExperience => Some idx
       | _, _ => found
       end)
  end.

(** 7b) the entries parsed from the experience section, with their
    evidence. *)
Definition experience_step (source : Source)
    (st : list Experience * gmap string (list EvidenceItem)) (entry_lines : EntryBlock)
  : list Experience * gmap string (list EvidenceItem) :=
  let '(experiences, evidence_map) := st in
  let exp_dict := _parse_experience_entry merge3_prefix entry_lines in
  if truthy (company exp_dict) || truthy (job_title exp_dict)
  then (experiences ++ [exp_dict], add_ev_block source "experiences" evidence_map entry_lines)
  else st.

Definition parse_experiences (source : Source) (lines : list SourceLine)
    (exp_section_idx : option nat) (evidence_map : gmap string (list EvidenceItem))
  : list Experience * gmap string (list EvidenceItem) :=
  match exp_section_idx with
  | Some idx =>
    fold_left (experience_step source) (_group_experience_entries lines idx)
              ([], evidence_map)
  | None => ([], evidence_map)
  end.

(** The chain of tests that sets [is_new_entry_start] in
    [_group_education_entries]. *)
Definition education_entry_start (t : pystr) (current : EntryBlock) : bool :=
  if is_institution_keyword t then true
  else if is_high_school t then true
  else if is_study_abroad t then true
  else if has_degree_keyword t && negb (nonempty current) then true
  else if negb (is_bullet t) && is_some (_extract_location_from_line t)
          && Nat.ltb (List.length t) 150
  then
    if negb (nonempty current) then true
    else
      let prev_text := join SP (List.map snd current) in
      if negb (truthy (_extract_location_from_line prev_text)) then false else true
  else false.

Fixpoint group_education_loop (section_start_idx idx : nat) (rest : list SourceLine)
    (st : group_state) : group_state :=
  match rest with
  | [] => st
  | (locator, text) :: rest' =>
    let t := strip text in
    if negb (nonempty t) then group_education_loop section_start_idx (S idx) rest' st
    else if hits_major_section false section_start_idx idx text t then
      (* break *)
      if nonempty (current_entry st)
      then GroupState (entries st ++ [current_entry st]) [] None
      else st
    else
      let is_new_entry_start := education_entry_start t (current_entry st) in
      group_education_loop section_start_idx (S idx) rest'
        (if is_new_entry_start && nonempty (current_entry st)
         then GroupState (entries st ++ [current_entry st]) [(locator, text)] None
         else GroupState (entries st) (current_entry st ++ [(locator, text)]) None)
  end.

Definition _group_education_entries (lines_to_group : list SourceLine)
    (section_start_idx : nat) : list EntryBlock :=
  finish_groups
    (group_education_loop section_start_idx (S section_start_idx)
                          (skipn (S section_start_idx) lines_to_group)
                          (GroupState [] [] None)).

(** The variables of the education stage. *)
Record edu_state : Type := EduState {
  educations : list EducationEntry;
  edu_evidence : gmap string (list EvidenceItem);
  edu_warnings : list pystr
}.

(** 7c) one group of the explicit education section. *)
Definition education_step (source : Source) (st : edu_state) (entry_lines : EntryBlock)
  : edu_state :=
  let entry_text_lines := List.map (fun l : SourceLine => strip (snd l)) entry_lines in
  let should_be_education :=
    classify_entry_as_education entry_text_lines (Some SecEducation) in
  if should_be_education then
    let '(education_entry, edu_warns) :=
      parse_education_entry entry_lines (Some SecEducation) in
    if truthy (institution education_entry) || truthy (degree education_entry)
    then EduState (educations st ++ [education_entry])
                  (add_ev_block source "education" (edu_evidence st) entry_lines)
                  (edu_warnings st ++ edu_warns)
    else st
  else st.

Definition degree_terms_line : list pystr := List.map py
  ["bachelor of"; "bachelor's"; "master of"; "master's"; "associate of"; "associate's";
   "doctorate"; "doctoral"; "phd"; "ph.d."; "b.s."; "b.a."; "m.s."; "m.a."; "m.b.a.";
   "graduate degree"; "postgraduate"]%string.
Definition institution_terms_line : list pystr := List.map py
  ["university"; "college"; "institute"; "academy"; "high school"; "secondary school";
   "prep school"; "polytechnic"; "school"]%string.
Definition study_abroad_terms_line : list pystr := List.map py
  ["study abroad"; "dis study"; "isa study"; "semester abroad"; "year abroad"]%string.

Definition looks_like_education_line (line : pystr) : bool :=
  let line_lower := lower line in
  if contains_any line_lower degree_terms_line then true
  else if contains_any line_lower institution_terms_line then true
  else if contains_any line_lower study_abroad_terms_line then true
  else false.

(** The scan of the fallback: the lines kept, and [in_education_block]. *)
Definition fallback_scan_step (st : list SourceLine * bool) (l : SourceLine)
  : list SourceLine * bool :=
  let '(fallback_block_lines, in_education_block) := st in
  let t := strip (snd l) in
  if negb (nonempty t) then (fallback_block_lines, false)
  else if _is_header_line (snd l) then (fallback_block_lines, false)
  else if looks_like_education_line t && negb (is_bullet t)
  then (fallback_block_lines ++ [l], true)
  else if in_education_block then (fallback_block_lines ++ [l], in_education_block)
  else st.

Definition opt_eqb (a b : option pystr) : bool :=
  match a, b with
  | Some x, Some y => str_eqb x y
  | None, None => true
  | _, _ => false
  end.

(** Parse a group of the fallback and keep the entry unless it repeats one. *)
Definition fallback_flush (source : Source) (current_group : EntryBlock) (st : edu_state)
  : edu_state :=
  let '(entry, _) := parse_education_entry current_group (Some SecEducation) in
  if truthy (institution entry) || truthy (degree entry) then
    let is_duplicate :=
      existsb (fun existing => opt_eqb (institution existing) (institution entry)
                               && opt_eqb (degree existing) (degree entry))
              (educations st) in
    if negb is_duplicate
    then EduState (educations st ++ [entry])
                  (add_ev_block source "education" (edu_evidence st) current_group)
                  (edu_warnings st)
    else st
  else st.

Definition fallback_group_step (source : Source) (st : EntryBlock * edu_state)
    (l : SourceLine) : EntryBlock * edu_state :=
  let '(current_group, es) := st in
  let t := strip (snd l) in
  let is_new_entry_marker := looks_like_education_line t && negb (is_bullet t) in
  if is_new_entry_marker && nonempty current_group
  then ([l], fallback_flush source current_group es)
  else (current_group ++ [l], es).

Definition education_fallback (source : Source) (lines : list SourceLine)
    (exp_section_idx : option nat) (st : edu_state) : edu_state :=
  let scanned :=
    match exp_section_idx with Some i => firstn i lines | None => lines end in
  let '(fallback_block_lines, _) := fold_left fallback_scan_step scanned ([], false) in
  if nonempty fallback_block_lines then
    let '(current_group, st) :=
      fold_left (fallback_group_step source) fallback_block_lines ([], st) in
    if nonempty current_group then fallback_flush source current_group st else st
  else st.

(** The education stage: explicit section, guardrail warning, fallback. *)
Definition parse_educations (source : Source) (lines : list SourceLine)
    (edu_section_idx exp_section_idx : option nat)
    (evidence_map : gmap string (list EvidenceItem)) (warnings : list pystr) : edu_state :=
  let st := EduState [] evidence_map warnings in
  let st :=
    match edu_section_idx with
    | Some idx => fold_left (education_step source) (_group_education_entries lines idx) st
    | None => st
    end in
  let st :=
    if is_some edu_section_idx && negb (nonempty (educations st))
    then EduState (educations st) (edu_evidence st)
                  (edu_warnings st
                     ++ [py "EDUCATION header found but no education entries parsed"])
    else st in
  if negb (nonempty (educations st)) && negb (is_some edu_section_idx)
  then education_fallback source lines exp_section_idx st
  else st.

(** *** Reclassification *)

Definition degree_terms_entry : list pystr := List.map py
  ["bachelor"; "master"; "associate"; "phd"; "ph.d"; "doctorate";
   "b.s."; "b.a."; "m.s."; "m.a."; "m.b.a."; "b.sc"; "m.sc";
   "undergraduate"; "graduate"; "diploma"]%string.
Definition institution_terms_entry : list pystr := List.map py
  ["university"; "college"; "institute"; "academy"; "high school"; "school";
   "polytechnic"]%string.
Definition study_abroad_terms_entry : list pystr := List.map py
  ["study abroad"; "dis study"; "isa study"; "semester abroad"; "exchange program"]%string.

(** The text searched by [looks_like_education_entry]:
    [f"{company} {title} {location}"], each part lowercased. *)
Definition entry_signal_text (exp : Experience) : pystr :=
  lower (or_empty (company exp)) ++ SP ++ lower (or_empty (job_title exp)) ++ SP
    ++ lower (or_empty (location exp)).

Definition looks_like_education_entry (exp : Experience) : bool :=
  let text := entry_signal_text exp in
  let has_degree := contains_any text degree_terms_entry in
  let has_institution := contains_any text institution_terms_entry in
  let has_study_abroad := contains_any text study_abroad_terms_entry in
  has_degree || has_institution || has_study_abroad.

(** [exp.get("job_title", "")] is [None] when the entry has no title (the
    key is always present), and [title.lower()] then raises. *)
Definition convert_experience_to_education (exp : Experience) : exc EducationEntry :=
  let company := company exp in
  match job_title exp with
  | None => Raise AttributeError
  | Some title =>
    let title_lower := lower title in
    let '(degree, field_of_study) :=
      if contains_any title_lower (List.map py ["bachelor"; "b.s."; "b.a."; "b.sc"]%string)
      then (Some title, None)
      else if contains_any title_lower
                (List.map py ["master"; "m.s."; "m.a."; "m.b.a."; "m.sc"]%string)
      then (Some title, None)
      else if contains_any title_lower (List.map py ["associate"; "a.a."; "a.s."]%string)
      then (Some title, None)
      else if contains_any title_lower (List.map py ["ph.d"; "phd"; "doctorate"]%string)
      then (Some title, None)
      else if contains title_lower (py "major")
      then (None, Some (strip (replace (replace title (py "Major") []) (py "major") [])))
      else (None, None) in
    OK (MkEducation company degree field_of_study (location exp) (start_date exp)
                    (end_date exp) None (achievements exp))
  end.

Fixpoint split_experience_and_education (experiences : list Experience)
  : exc (list Experience * list EducationEntry) :=
  match experiences with
  | [] => OK ([], [])
  | exp :: rest =>
    if looks_like_education_entry exp then
      do edu_entry <- convert_experience_to_education exp;
      do r <- split_experience_and_education rest;
      OK (fst r, edu_entry :: snd r)
    else
      do r <- split_experience_and_education rest;
      OK (exp :: fst r, snd r)
  end.

(** The gate in front of the reclassification pass. *)
Definition reclassify (educations : list EducationEntry) (experiences : list Experience)
  : exc (list Experience * list EducationEntry) :=
  if negb (nonempty educations) then split_experience_and_education experiences
  else OK (experiences, []).

(** *** Merge and deduplication *)

Definition edu_key (edu : EducationEntry) : pystr * pystr :=
  (or_empty (institution edu), or_empty (degree edu)).
Definition key_eqb (a b : pystr * pystr) : bool :=
  str_eqb (fst a) (fst b) && str_eqb (snd a) (snd b).
Definition edu_score (edu : EducationEntry) : nat :=
  (if truthy (field_of_study edu) then 1 else 0)
  + (if truthy (edu_start_date edu) then 1 else 0)
  + (if truthy (edu_end_date edu) then 1 else 0)
  + List.length (details edu).

(** [unique_education[idx] = edu] for the entry stored under [key]. *)
Fixpoint replace_key (key : pystr * pystr) (edu : EducationEntry)
    (unique_education : list EducationEntry) : list EducationEntry :=
  match unique_education with
  | [] => []
  | existing :: rest =>
    if key_eqb (edu_key existing) key then edu :: rest
    else existing :: replace_key key edu rest
  end.

(** The body of [for edu in all_education_entries]; the dictionary
    [seen_education] maps the key of each member of [unique_education] to
    that member. *)
Definition dedup_step (unique_education : list EducationEntry) (edu : EducationEntry)
  : list EducationEntry :=
  let key := edu_key edu in
  match List.find (fun existing => key_eqb (edu_key existing) key) unique_education with
  | None =>
    if truthy (institution edu) || truthy (degree edu)
    then unique_education ++ [edu] else unique_education
  | Some existing =>
    if Nat.ltb (edu_score existing) (edu_score edu)
    then replace_key key edu unique_education
    else unique_education
  end.

Definition merge_education (educations reclassified_educations : list EducationEntry)
  : list EducationEntry :=
  fold_left dedup_step (educations ++ reclassified_educations) [].

(** *** 8) Confidence scoring *)

Definition not_found (name : string) (reason : string) (required : bool) : FieldConfidence :=
  MkFieldConfidence (py name) 0.0%float (py "not_found") [py reason] required.

Definition email_confidence (email : option pystr)
    (evidence_map : gmap string (list EvidenceItem)) : FieldConfidence :=
  if truthy email then
    let email_evidence_count := List.length (default [] (evidence_map !! "email")) in
    let '(conf, method) := ConfidenceCalculator.email email email_evidence_count in
    MkFieldConfidence (py "email") conf method [py "Found via regex extraction"] true
  else not_found "email" "No email found in resume" true.

Definition phone_confidence (phone : option pystr)
    (evidence_map : gmap string (list EvidenceItem)) : FieldConfidence :=
  if truthy phone then
    let phone_evidence_count := List.length (default [] (evidence_map !! "phone")) in
    let '(conf, method) := ConfidenceCalculator.phone phone phone_evidence_count in
    MkFieldConfidence (py "phone") conf method [py "Found via regex extraction"] true
  else not_found "phone" "No phone number found in resume" true.

Definition full_name_confidence (full_name : option pystr) (email_idx : option nat)
    (evidence_map : gmap string (list EvidenceItem)) : FieldConfidence :=
  if truthy full_name then
    let near_email := is_some email_idx in
    let is_top :=
      existsb (fun ev => startswith (ev_locator ev) (py "docx:paragraph:0")
                         || startswith (ev_locator ev) (py "pdf:page:1:line:"))
              (default [] (evidence_map !! "full_name")) in
    let name := or_empty full_name in
    let '(conf, method) :=
      ConfidenceCalculator.full_name full_name near_email is_top true
        (contains name SP && Nat.leb 3 (List.length (split_ws name))) in
    MkFieldConfidence (py "full_name") conf method
      [py "Extracted from resume header area";
       py "Near email: " ++ str_of_bool near_email;
       py "At top: " ++ str_of_bool is_top] true
  else not_found "full_name" "No candidate name found" true.

Definition location_confidence (location : option pystr) : FieldConfidence :=
  if truthy location then
    let has_comma := contains (or_empty location) (py ",") in
    let '(conf, method) :=
      ConfidenceCalculator.location location (py "regex_pattern") has_comma has_comma in
    MkFieldConfidence (py "location") conf method [py "Extracted from geographic pattern"]
                      false
  else not_found "location" "No location found" false.

Definition links_confidence (links : list pystr) : FieldConfidence :=
  if nonempty links then
    MkFieldConfidence (py "links") 0.95%float (py "regex_url_extraction")
      [py "Found " ++ str_of_nat (List.length links) ++ py " URL(s) via regex"] false
  else not_found "links" "No URLs found" false.

Definition skills_confidence (skills : list pystr) : FieldConfidence :=
  if nonempty skills then
    MkFieldConfidence (py "skills") 0.85%float (py "section_extraction")
      [py "Found " ++ str_of_nat (List.length skills) ++ py " skills"] false
  else not_found "skills" "No skills found" false.

Definition experiences_confidence (experiences : list Experience) : FieldConfidence :=
  if nonempty experiences then
    MkFieldConfidence (py "experiences") 0.85%float (py "multi_line_experience_parsing")
      [py "Found " ++ str_of_nat (List.length experiences) ++ py " experience entries"]
      false
  else not_found "experiences" "No experience section found" false.

Definition build_confidence_scores (candidate : CandidateProfile)
    (email_idx : option nat) (evidence_map : gmap string (list EvidenceItem))
  : gmap string FieldConfidence :=
  <["experiences" := experiences_confidence (cp_experiences candidate)]>
  (<["skills" := skills_confidence (cp_skills candidate)]>
  (<["links" := links_confidence (cp_links candidate)]>
  (<["location" := location_confidence (cp_location candidate)]>
  (<["full_name" := full_name_confidence (cp_full_name candidate) email_idx evidence_map]>
  (<["phone" := phone_confidence (cp_phone candidate) evidence_map]>
  (<["email" := email_confidence (cp_email candidate) evidence_map]> ∅)))))).

(** The two warnings on low-confidence fields. *)
Definition low_confidence_warning (conf : float) (value : option pystr)
    (missing : string) (low : string) : list pystr :=
  if PrimFloat.ltb conf 0.8 then
    if negb (truthy value) then [py missing] else [py low ++ format_2f conf]
  else [].

(** [confidence_scores.get(key, FieldConfidence(..., confidence=0.0, ...)).confidence] *)
Definition score_of (confidence_scores : gmap string FieldConfidence) (key : string)
  : float :=
  match confidence_scores !! key with Some fc => confidence fc | None => 0.0%float end.

(** [for key in [...]: evidence_map.setdefault(key, [])] *)
Definition evidence_keys : list string :=
  ["full_name"; "email"; "phone"; "location"; "links"; "skills"; "experiences";
   "education"]%string.
Definition setdefault_empty (evidence_map : gmap string (list EvidenceItem))
    (key : string) : gmap string (list EvidenceItem) :=
  match evidence_map !! key with
  | Some _ => evidence_map
  | None => <[key := []]> evidence_map
  end.

(** The state of [parse_lines_to_response] when the education section has
    been parsed, before the reclassification pass: the local variables of the
    function at that point. *)
Record parsed : Type := Parsed {
  p_full_name : option pystr;
  p_email : option pystr;
  p_email_idx : option nat;
  p_phone : option pystr;
  p_location : option pystr;
  p_links : list pystr;
  p_skills : list pystr;
  p_edu_section_idx : option nat;
  p_experiences : list Experience;
  p_educations : list EducationEntry;
  p_evidence : gmap string (list EvidenceItem);
  p_warnings : list pystr
}.

(** Steps 1 to 7c of [parse_lines_to_response]. *)
Definition parse_sections (lines : list SourceLine) (source : Source) : parsed :=
  let evidence_map : gmap string (list EvidenceItem) := ∅ in
  let warnings : list pystr := [] in
  (* 1) phone, then email *)
  let found_phone := find_phone 0 lines in
  let '(phone, evidence_map) :=
    match found_phone with
    | Some (_, (locator, text), phone) =>
      (phone, add_ev source evidence_map "phone" locator text)
    | None => (None, evidence_map)
    end in
  let found_email := find_email 0 lines in
  let '(email, email_idx, evidence_map) :=
    match found_email with
    | Some (idx, (locator, text), email) =>
      (Some email, Some idx, add_ev source evidence_map "email" locator text)
    | None => (None, None, evidence_map)
    end in
  (* 2) name *)
  let '(full_name, evidence_map) :=
    match find_name lines email_idx email with
    | Some (name, (locator, text)) =>
      (Some name, add_ev source evidence_map "full_name" locator text)
    | None => (None, evidence_map)
    end in
  (* 3) location *)
  let '(location, evidence_map) :=
    fold_left (maybe_set_location source) (firstn 15 lines) (None, evidence_map) in
  (* 4) links, 5) skills *)
  let '(links, evidence_map) := extract_links source lines evidence_map in
  let sk := fold_left (skills_step source) lines (SkillsState [] false evidence_map) in
  let skills := sk_skills sk in
  let evidence_map := sk_evidence sk in
  (* 7) sections *)
  let edu_section_idx := section_index SecEducation 0 lines None in
  let exp_section_idx := section_index SecExperience 0 lines None in
  let '(experiences, evidence_map) :=
    parse_experiences source lines exp_section_idx evidence_map in
  let es := parse_educations source lines edu_section_idx exp_section_idx
                             evidence_map warnings in
  Parsed full_name email email_idx phone location links skills edu_section_idx
         experiences (educations es) (edu_evidence es) (edu_warnings es).

(** The rest of the function: reclassification, merge, confidence scores,
    parse quality, warnings and the stable evidence keys. *)
Definition finish_response (st : parsed) : exc ParseResponse :=
  do r <- reclassify (p_educations st) (p_experiences st);
  let '(experiences, reclassified_educations) := r in
  let unique_education := merge_education (p_educations st) reclassified_educations in
  let candidate :=
    MkCandidate (p_full_name st) (p_email st) (p_phone st) (p_location st) (p_links st)
                (p_skills st) experiences unique_education in
  let warnings :=
    if negb (nonempty unique_education)
    then p_warnings st ++ [py "No education entries detected in resume"]
    else p_warnings st in
  (* 8) confidence, 9) parse quality *)
  let confidence_scores :=
    build_confidence_scores candidate (p_email_idx st) (p_evidence st) in
  let parse_quality :=
    ConfidenceCalculator.calculate_overall_parse_quality
      (confidence <$> confidence_scores) in
  let warnings :=
    warnings
    ++ low_confidence_warning (score_of confidence_scores "email") (p_email st)
         "Could not extract email. User clarification needed."
         "Email extraction has low confidence: "
    ++ low_confidence_warning (score_of confidence_scores "full_name") (p_full_name st)
         "Could not extract candidate name. User clarification needed."
         "Name extraction has low confidence: " in
  let evidence_map := fold_left setdefault_empty evidence_keys (p_evidence st) in
  OK (MkResponse candidate evidence_map confidence_scores parse_quality warnings).

Definition parse_lines_to_response (lines : list SourceLine) (source : Source)
  : exc ParseResponse :=
  finish_response (parse_sections lines source).

End Pipeline.


(* ===================================================================== *)
(** ** The program at the iteration order of the set literals *)
(* ===================================================================== *)

(** The functions of the pipeline with the set scans taken in the order in
    which the source writes the elements of each set. *)
Module AgentParser.
Definition has_degree_keyword : pystr -> bool := keyword_scan DEGREE_KEYWORDS.
Definition is_high_school : pystr -> bool := keyword_scan HIGH_SCHOOL_KEYWORDS.
Definition is_institution_keyword : pystr -> bool := keyword_scan INSTITUTION_KEYWORDS.
Definition is_study_abroad : pystr -> bool := keyword_scan STUDY_ABROAD_KEYWORDS.
Definition merge3_prefix : pystr -> option pystr :=
  text_normalization.merge3_scan text_normalization.MERGE_3_PREFIX_WHITELIST.

Definition _group_education_entries : list SourceLine -> nat -> list EntryBlock :=
  _group_education_entries has_degree_keyword is_high_school is_institution_keyword
                           is_study_abroad.
Definition parse_education_entry
  : EntryBlock -> option section_type -> EducationEntry * list pystr :=
  parse_education_entry is_study_abroad.
Definition _parse_experience_entry : EntryBlock -> Experience :=
  _parse_experience_entry merge3_prefix.
Definition parse_experiences := parse_experiences merge3_prefix.
Definition parse_educations :=
  parse_educations has_degree_keyword is_high_school is_institution_keyword
                   is_study_abroad.
Definition parse_sections : list SourceLine -> Source -> parsed :=
  parse_sections has_degree_keyword is_high_school is_institution_keyword
                 is_study_abroad merge3_prefix.
Definition parse_lines_to_response : list SourceLine -> Source -> exc ParseResponse :=
  parse_lines_to_response has_degree_keyword is_high_school is_institution_keyword
                          is_study_abroad merge3_prefix.
End AgentParser.

(* ===================================================================== *)
(** ** Specification-side definitions and example inputs *)
(* ===================================================================== *)

(** The tiers of the parse quality as the specification words them, on the
    mean of the three core confidences (the sum taken as Python's [sum]
    takes it, from 0 and from the left). *)
Definition spec_parse_quality (full_name email phone : float)
  : ConfidenceCalculator.ParseQuality :=
  let mean :=
    PrimFloat.div (PrimFloat.add (PrimFloat.add (PrimFloat.add 0 full_name) email) phone)
                  3 in
  if PrimFloat.leb 0.85 mean then ConfidenceCalculator.high
  else if PrimFloat.leb 0.65 mean then ConfidenceCalculator.medium
  else ConfidenceCalculator.low.

(** The keys of [confidence_scores]. *)
Definition confidence_keys : gset string :=
  {[ "email"; "phone"; "full_name"; "location"; "links"; "skills"; "experiences" ]}%string.

(** Lines of a DOCX document: paragraph [i] has the locator
    [docx:paragraph:i]. *)
Definition docx_lines (texts : list string) : list SourceLine :=
  List.map (fun p => (py "docx:paragraph:" ++ str_of_nat (fst p), py (snd p)))
           (combine (List.seq 0 (List.length texts)) texts).

(** An education entry that has an institution or a degree. *)
Definition identified (edu : EducationEntry) : bool :=
  truthy (institution edu) || truthy (degree edu).


(** An evidence map all of whose items satisfy [Q] under their key. *)
Definition evidence_all (Q : string -> EvidenceItem -> Prop)
    (m : gmap string (list EvidenceItem)) : Prop :=
  forall key ev, In ev (default [] (m !! key)) -> Q key ev.


(** What the evidence of a scalar field is, for the lines [lines]: under
    [full_name], [email] and [phone] the locator and the stripped text of a
    line; under [location] the locator of one of the first 15 lines and the
    stripped text that [location_of_line] formats from it. *)
Definition scalar_evidence (lines : list SourceLine) (key : string) (ev : EvidenceItem)
  : Prop :=
  (In key ["full_name"; "email"; "phone"]%string ->
   exists line, In line lines /\ ev_locator ev = fst line /\ ev_text ev = strip (snd line))
  /\ (key = "location"%string ->
      exists line loc formatted,
        In line (firstn 15 lines)
        /\ location_of_line line = Some (loc, (fst line, formatted))
        /\ ev_locator ev = fst line /\ ev_text ev = strip formatted).


(** The inputs of the examples. *)
Definition gonzaga_block : list string :=
  ["GONZAGA UNIVERSITY"; "Spokane, Washington"; "2012 – 2016";
   "Bachelor of Science in Communication Studies";
   "● Applied Communications Major: Social Media/Marketing"]%string.
Definition gonzaga_entry : EducationEntry :=
  MkEducation (Some (py "GONZAGA UNIVERSITY")) (Some (py "Bachelor")) None
              (Some (py "Spokane, Washington")) (Some (py "2012")) (Some (py "2016")) None
              [py "Bachelorof Sciencein Communication Studies";
               py "Applied Communications Major: Social Media/Marketing"].
Definition boston_lines : list SourceLine :=
  docx_lines ["EXPERIENCE"; "Boston University: Research Assistant: Boston";
              "● Ran the sleep lab"; "EDUCATION"; "Harvard University"]%string.
Definition boston_lines_no_entry : list SourceLine :=
  docx_lines ["EXPERIENCE"; "Boston University: Research Assistant: Boston";
              "● Ran the sleep lab"; "EDUCATION"]%string.
Definition raising : strategy := fun _ => Raise StrategyError.

(** One step of a proof that a fueled computation does not run out: a nested
    call is discharged by [rec_ok], a test by cases, the rest of a loop by
    the induction hypothesis on its list. *)
Ltac fuel_step rec_ok :=
  first
    [ discriminate
    | match goal with IHl : forall m : memo_t, _ <> OutOfFuel |- _ => apply IHl end
    | match goal with
      | |- match ?x with _ => _ end <> _ =>
        lazymatch type of x with
        | fueled _ =>
          let H := fresh in
          assert (H : x <> OutOfFuel) by rec_ok;
          destruct x as [[[?|] ?]|]; [ | | congruence]
        | _ => destruct x
        end
      end ].

(* ===================================================================== *)
(** * Properties *)
(* ===================================================================== *)

(** ** Termination of the word segmenters *)

Lemma In_range (x lo hi : nat) : In x (range lo hi) -> lo <= x /\ x < hi.
Proof. unfold range. rewrite in_seq. lia. Qed.

(** [segment_recursive] answers within [fuel] nested calls as soon as
    [fuel + depth] reaches 102: beyond depth 100 it returns without a call. *)
Lemma segment_recursive_fuel (fuel : nat) :
  forall (word : pystr) (idx depth : nat) (memo : memo_t),
    1 <= fuel -> 102 <= fuel + depth ->
    segment_recursive fuel word idx depth memo <> OutOfFuel.
Proof.
  induction fuel as [|fuel IH]; intros word idx depth memo Hf Hd; [lia|].
  cbn [segment_recursive].
  destruct (Nat.ltb 100 depth) eqn:Hdepth; [discriminate|].
  apply Nat.ltb_ge in Hdepth.
  destruct (memo !! idx); [discriminate|].
  destruct (Nat.leb (List.length word) idx); [discriminate|].
  assert (IH' : forall i m, segment_recursive fuel word i (S depth) m <> OutOfFuel)
    by (intros; apply IH; lia).
  generalize (range (idx + 2) (Nat.min (idx + 12) (List.length word + 1))).
  intros ends; revert memo.
  induction ends as [|e ends IHe]; intros memo;
    repeat fuel_step ltac:(apply IH').
Qed.

(** The same for [can_segment_conservative], whose cap is 50. *)
Lemma can_segment_conservative_fuel (fuel : nat) :
  forall (word : pystr) (idx depth : nat) (memo : memo_t),
    1 <= fuel -> 52 <= fuel + depth ->
    can_segment_conservative fuel word idx depth memo <> OutOfFuel.
Proof.
  induction fuel as [|fuel IH]; intros word idx depth memo Hf Hd; [lia|].
  cbn [can_segment_conservative].
  destruct (Nat.ltb 50 depth) eqn:Hdepth; [discriminate|].
  apply Nat.ltb_ge in Hdepth.
  destruct (memo !! idx); [discriminate|].
  destruct (Nat.eqb idx 0); [discriminate|].
  assert (IH' : forall i m, can_segment_conservative fuel word i (S depth) m <> OutOfFuel)
    by (intros; apply IH; lia).
  generalize (range (idx - 12) idx).
  intros starts; revert memo.
  induction starts as [|s starts IHs]; intros memo;
    repeat fuel_step ltac:(apply IH').
Qed.

Lemma In_lengths_desc (n idx : nat) : In n (lengths_desc idx) -> 2 <= n /\ n <= idx.
Proof.
  unfold lengths_desc. rewrite <- in_rev. intros H%In_range. lia.
Qed.

(** [can_segment] has no depth argument: every call it makes is at a smaller
    index, so [idx + 1] nested calls are enough. *)
Lemma can_segment_fuel (fuel : nat) :
  forall (word : pystr) (idx : nat) (memo : memo_t),
    idx < fuel -> can_segment fuel word idx memo <> OutOfFuel.
Proof.
  induction fuel as [|fuel IH]; intros word idx memo Hf; [lia|].
  cbn [can_segment].
  destruct (memo !! idx); [discriminate|].
  destruct (Nat.eqb idx 0); [discriminate|].
  assert (IH' : forall n m, 2 <= n <= idx ->
                            can_segment fuel word (idx - n) m <> OutOfFuel)
    by (intros; apply IH; lia).
  revert memo.
  pose proof (fun n => In_lengths_desc n idx) as Hknown.
  pose proof (fun n => In_lengths_desc n idx) as Hvalid.
  revert Hknown Hvalid.
  generalize (lengths_desc idx) at 1 4.
  generalize (lengths_desc idx).
  intros valid known Hknown Hvalid.
  induction known as [|n known IHk]; intros memo.
  - clear Hknown. revert memo.
    induction valid as [|n valid IHv]; intros memo; [discriminate|].
    assert (Hn : 2 <= n <= idx) by (apply Hvalid; now left).
    assert (IHv' := fun m => IHv (fun k Hk => Hvalid k (or_intror Hk)) m).
    clear IHv.
    repeat fuel_step ltac:(apply IH'; exact Hn).
  - assert (Hn : 2 <= n <= idx) by (apply Hknown; now left).
    assert (IHk' := fun m => IHk (fun k Hk => Hknown k (or_intror Hk)) m).
    clear IHk.
    repeat fuel_step ltac:(apply IH'; exact Hn).
Qed.

(** Every iteration of the greedy loop advances the index. *)
Lemma greedy_loop_fuel (fuel : nat) :
  forall (word : pystr) (i : nat) (result : list pystr),
    List.length word - i <= fuel -> greedy_loop fuel word i result <> OutOfFuel.
Proof.
  induction fuel as [|fuel IH]; intros word i result Hf.
  - cbn [greedy_loop]. destruct (Nat.ltb i (List.length word)) eqn:Hi; [|discriminate].
    apply Nat.ltb_lt in Hi. lia.
  - cbn [greedy_loop]. destruct (Nat.ltb i (List.length word)) eqn:Hi; [|discriminate].
    apply Nat.ltb_lt in Hi.
    destruct (List.find _ _) as [j|] eqn:Hfind.
    + apply find_some in Hfind as [Hin _].
      rewrite <- in_rev in Hin. apply In_range in Hin.
      apply IH. lia.
    + apply IH. lia.
Qed.

Lemma _segment_long_word_fuel_done (word : pystr) :
  _segment_long_word_fuel 102 word <> OutOfFuel.
Proof.
  unfold _segment_long_word_fuel.
  destruct (Nat.leb (List.length word) 3); [discriminate|].
  pose proof (segment_recursive_fuel 102 word 0 0 ∅ ltac:(lia) ltac:(lia)) as H.
  destruct (segment_recursive 102 word 0 0 ∅) as [[[[|? ?]|] ?]|];
    first [discriminate | congruence].
Qed.

Lemma _greedy_segment_fuel_done (fuel : nat) (word : pystr) :
  List.length word <= fuel -> _greedy_segment_fuel fuel word <> OutOfFuel.
Proof.
  intros Hf. unfold _greedy_segment_fuel.
  pose proof (greedy_loop_fuel fuel word 0 [] ltac:(lia)) as H.
  destruct (greedy_loop fuel word 0 []); first [discriminate | congruence].
Qed.

Lemma _segment_lowercase_word_fuel_done (word : pystr) :
  _segment_lowercase_word_fuel (52 + List.length word) word <> OutOfFuel.
Proof.
  unfold _segment_lowercase_word_fuel.
  destruct (negb (nonempty word) || Nat.leb (List.length word) 2); [discriminate|].
  destruct (contains word SP); [discriminate|].
  destruct (Nat.leb (List.length word) 10).
  { destruct (str_in word COMMON_WORDS); [discriminate|].
    destruct (two_part_split word); discriminate. }
  destruct (Nat.leb (List.length word) 15).
  { pose proof (can_segment_conservative_fuel (52 + List.length word) word
                  (List.length word) 0 ∅ ltac:(lia) ltac:(lia)) as H.
    destruct (can_segment_conservative _ word _ 0 ∅) as [[[segmentation|] ?]|];
      [destruct (Nat.leb 2 (List.length segmentation)); discriminate
      | discriminate | congruence]. }
  pose proof (can_segment_fuel (52 + List.length word) word (List.length word) ∅
                ltac:(lia)) as H.
  destruct (can_segment _ word _ ∅) as [[[[|? ?]|] ?]|];
    first [ discriminate | congruence
          | apply _greedy_segment_fuel_done; lia ].
Qed.

Lemma run_fueled_done {A} (d : A) (r : fueled A) : r <> OutOfFuel -> r = Done (run_fueled d r).
Proof. destruct r; [reflexivity|congruence]. Qed.


(** ** The achievement repair *)

Section RepairProperties.
Variables full_pipeline conservative_fix aggressive_segment direct_segmentation : strategy.

(** A strategy that raises leaves [results] as it was. *)
Lemma try_strategy_all_raise (text : pystr) (strategies : list (string * strategy))
    (results : list (string * (pystr * float))) :
  (forall entry, In entry strategies -> exists e, snd entry text = Raise e) ->
  fold_left (try_strategy text) strategies results = results.
Proof.
  revert results.
  induction strategies as [|entry strategies IH]; intros results Hall; [reflexivity|].
  cbn [fold_left]. destruct (Hall entry (or_introl eq_refl)) as [e He].
  unfold try_strategy at 2. rewrite He.
  apply IH. intros entry' Hin. apply Hall. now right.
Qed.

End RepairProperties.



(** ** Parse quality and the shape of the response *)


Lemma build_confidence_scores_dom candidate email_idx evidence_map :
  dom (build_confidence_scores candidate email_idx evidence_map) = confidence_keys.
Proof.
  unfold build_confidence_scores, confidence_keys.
  rewrite !dom_insert_L, dom_empty_L. set_solver.
Qed.

Lemma setdefault_empty_keeps (m : gmap string (list EvidenceItem)) (key k : string) :
  is_Some (m !! k) -> is_Some (setdefault_empty m key !! k).
Proof.
  intros H. unfold setdefault_empty. destruct (m !! key) eqn:E; [exact H|].
  destruct (decide (key = k)) as [->|Hne].
  - rewrite lookup_insert_eq. eauto.
  - rewrite lookup_insert_ne by exact Hne. exact H.
Qed.

Lemma setdefault_empty_sets (m : gmap string (list EvidenceItem)) (key : string) :
  is_Some (setdefault_empty m key !! key).
Proof.
  unfold setdefault_empty. destruct (m !! key) eqn:E; [rewrite E; eauto|].
  rewrite lookup_insert_eq. eauto.
Qed.

Lemma stable_keys (m : gmap string (list EvidenceItem)) (k : string) :
  In k evidence_keys -> is_Some (fold_left setdefault_empty evidence_keys m !! k).
Proof.
  assert (Hkeep : forall keys m', is_Some (m' !! k) ->
                                  is_Some (fold_left setdefault_empty keys m' !! k)).
  { induction keys as [|key keys IH]; intros m' H; [exact H|].
    cbn [fold_left]. apply IH. now apply setdefault_empty_keeps. }
  generalize evidence_keys. intros keys; revert m.
  induction keys as [|key keys IH]; intros m Hin; [destruct Hin|].
  cbn [fold_left]. destruct Hin as [->|Hin].
  - apply Hkeep, setdefault_empty_sets.
  - now apply IH.
Qed.

(** C10.  The confidence scores of a response have exactly the seven keys
    email, phone, full_name, location, links, skills and experiences, so
    never the key education; the evidence map has the key education. *)
Theorem confidence_scores_keys
    (has_degree_keyword is_high_school is_institution_keyword is_study_abroad
       : pystr -> bool)
    (merge3_prefix : pystr -> option pystr)
    (lines : list SourceLine) (source : Source) (r : ParseResponse) :
  parse_lines_to_response has_degree_keyword is_high_school is_institution_keyword
                          is_study_abroad merge3_prefix lines source = OK r ->
  dom (confidence_scores r) = confidence_keys
  /\ confidence_scores r !! "education"%string = None
  /\ is_Some (evidence_map r !! "education"%string).
Proof.
  unfold parse_lines_to_response, finish_response.
  destruct (reclassify _ _) as [[experiences reclassified]|e]; cbn [bind];
    [|discriminate].
  intros [= <-]. cbn [confidence_scores evidence_map].
  split; [apply build_confidence_scores_dom|]. split.
  - unfold build_confidence_scores.
    rewrite !lookup_insert_ne by discriminate. apply lookup_empty.
  - apply stable_keys. cbn. tauto.
Qed.

(** ** Independence from the iteration order of the sets *)

Lemma chr_eqb_eq (a b : char) : chr_eqb a b = true -> a = b.
Proof. apply N.eqb_eq. Qed.

Lemma str_eqb_eq (a b : pystr) : str_eqb a b = true -> a = b.
Proof.
  revert b. induction a as [|x a IH]; intros [|y b]; cbn; try discriminate; [reflexivity|].
  intros [Hx Hab]%andb_prop. f_equal; [now apply chr_eqb_eq | now apply IH].
Qed.

Lemma str_eqb_refl (a : pystr) : str_eqb a a = true.
Proof.
  induction a as [|x a IH]; [reflexivity|]. cbn. unfold chr_eqb.
  now rewrite N.eqb_refl, IH.
Qed.

Lemma existsb_Permutation {A} (f : A -> bool) (l l' : list A) :
  Permutation l l' -> existsb f l = existsb f l'.
Proof.
  intros Hperm. apply Bool.eq_iff_eq_true. rewrite !existsb_exists.
  split; intros [x [Hin Hx]]; exists x; split; try assumption.
  - now apply (Permutation_in _ Hperm).
  - now apply (Permutation_in _ (Permutation_sym Hperm)).
Qed.

(** [any(keyword in text for keyword in SET)] does not depend on the order in
    which the set is iterated. *)
Lemma keyword_scan_Permutation (keywords keywords' : list pystr) :
  Permutation keywords keywords' -> keyword_scan keywords' = keyword_scan keywords.
Proof.
  intros Hperm. extensionality text. unfold keyword_scan.
  symmetry. now apply existsb_Permutation.
Qed.

Lemma find_unique_Permutation {A} (p : A -> bool) (l l' : list A) :
  (forall x y, In x l -> In y l -> p x = true -> p y = true -> x = y) ->
  Permutation l l' -> List.find p l' = List.find p l.
Proof.
  intros Huniq Hperm.
  destruct (List.find p l) as [a|] eqn:E, (List.find p l') as [b|] eqn:E'.
  - apply find_some in E as [Ha Hpa], E' as [Hb Hpb].
    apply (Permutation_in _ (Permutation_sym Hperm)) in Hb.
    f_equal. now apply Huniq.
  - apply find_some in E as [Ha Hpa].
    apply (Permutation_in _ Hperm) in Ha.
    now rewrite (find_none _ _ E' _ Ha) in Hpa.
  - apply find_some in E' as [Hb Hpb].
    apply (Permutation_in _ (Permutation_sym Hperm)) in Hb.
    now rewrite (find_none _ _ E _ Hb) in Hpb.
  - reflexivity.
Qed.

Lemma is_prefix_firstn (p s : pystr) (n : nat) :
  is_prefix p s = true -> n <= List.length p -> firstn n s = firstn n p.
Proof.
  revert s n. induction p as [|x p IH]; intros s n Hp Hn.
  - cbn in Hn. replace n with 0 by lia. reflexivity.
  - destruct s as [|y s]; [discriminate|]. cbn in Hp.
    apply andb_prop in Hp as [Hxy Hp]. apply chr_eqb_eq in Hxy as ->.
    destruct n as [|n]; [reflexivity|]. cbn. f_equal. apply IH; [assumption|cbn in Hn; lia].
Qed.

(** The words of [MERGE_3_PREFIX_WHITELIST] differ in their first three
    letters, so at most one of them starts a given string and the scan finds
    the same word in every iteration order. *)
Lemma merge3_scan_Permutation (order : list pystr) :
  Permutation text_normalization.MERGE_3_PREFIX_WHITELIST order ->
  text_normalization.merge3_scan order
  = text_normalization.merge3_scan text_normalization.MERGE_3_PREFIX_WHITELIST.
Proof.
  intros Hperm. extensionality merged. unfold text_normalization.merge3_scan.
  apply find_unique_Permutation; [|assumption].
  intros x y Hx Hy Hpx Hpy. unfold startswith in Hpx, Hpy.
  assert (Hlen : forall w, In w text_normalization.MERGE_3_PREFIX_WHITELIST ->
                           3 <= List.length w).
  { intros w Hw. unfold text_normalization.MERGE_3_PREFIX_WHITELIST in Hw.
    cbn [List.map In] in Hw.
    repeat (destruct Hw as [<-|Hw]; [vm_compute; lia|]). destruct Hw. }
  pose proof (is_prefix_firstn x merged 3 Hpx (Hlen x Hx)) as Ex.
  pose proof (is_prefix_firstn y merged 3 Hpy (Hlen y Hy)) as Ey.
  rewrite Ex in Ey. clear - Hx Hy Ey.
  unfold text_normalization.MERGE_3_PREFIX_WHITELIST in Hx, Hy.
  cbn [List.map In] in Hx, Hy.
  repeat (destruct Hx as [<-|Hx];
          [repeat (destruct Hy as [<-|Hy];
                   [first [reflexivity | (vm_compute in Ey; discriminate)]|]);
           destruct Hy|]).
  destruct Hx.
Qed.

(** C8.  The response does not depend on the order in which Python iterates
    over the keyword sets and the merge whitelist: with the five set scans
    taken in any other order of the same elements, the pipeline returns the
    response it returns with the order of the source, for every line
    sequence and source tag. *)
Theorem parse_lines_to_response_deterministic
    (degree_keywords high_school_keywords institution_keywords study_abroad_keywords
       merge_3_prefix_whitelist : list pystr)
    (lines : list SourceLine) (source : Source) :
  Permutation DEGREE_KEYWORDS degree_keywords ->
  Permutation HIGH_SCHOOL_KEYWORDS high_school_keywords ->
  Permutation INSTITUTION_KEYWORDS institution_keywords ->
  Permutation STUDY_ABROAD_KEYWORDS study_abroad_keywords ->
  Permutation text_normalization.MERGE_3_PREFIX_WHITELIST merge_3_prefix_whitelist ->
  parse_lines_to_response
    (keyword_scan degree_keywords) (keyword_scan high_school_keywords)
    (keyword_scan institution_keywords) (keyword_scan study_abroad_keywords)
    (text_normalization.merge3_scan merge_3_prefix_whitelist) lines source
  = AgentParser.parse_lines_to_response lines source.
Proof.
  intros Hd Hh Hi Hs Hm.
  rewrite (keyword_scan_Permutation _ _ Hd), (keyword_scan_Permutation _ _ Hh),
    (keyword_scan_Permutation _ _ Hi), (keyword_scan_Permutation _ _ Hs),
    (merge3_scan_Permutation _ Hm).
  reflexivity.
Qed.

(** ** Evidence *)

Lemma fold_left_invariant {A B} (P : A -> Prop) (f : A -> B -> A) (l : list B) (a : A) :
  P a -> (forall a b, P a -> In b l -> P (f a b)) -> P (fold_left f l a).
Proof.
  revert a. induction l as [|b l IH]; intros a Ha Hstep; [exact Ha|].
  cbn [fold_left]. apply IH.
  - apply Hstep; [exact Ha|now left].
  - intros a' b' Ha' Hb'. apply Hstep; [exact Ha'|now right].
Qed.

Section EvidenceInvariant.
Variable Q : string -> EvidenceItem -> Prop.

Lemma evidence_all_empty : evidence_all Q ∅.
Proof. intros key ev. rewrite lookup_empty. intros []. Qed.

Lemma evidence_all_add_ev source m key locator text :
  evidence_all Q m ->
  Q key (MkEvidence source locator (strip text) 1.0%float) ->
  evidence_all Q (add_ev source m key locator text).
Proof.
  intros Hm Hnew key' ev. unfold add_ev.
  destruct (decide (key = key')) as [<-|Hne].
  - rewrite lookup_insert_eq. unfold default at 1. cbn [from_option id]. rewrite in_app_iff.
    intros [Hin|[<-|[]]]; [now apply Hm|exact Hnew].
  - rewrite lookup_insert_ne by exact Hne. apply Hm.
Qed.

Lemma evidence_all_add_ev_block source key m block :
  evidence_all Q m ->
  (forall l, In l block -> Q key (MkEvidence source (fst l) (strip (snd l)) 1.0%float)) ->
  evidence_all Q (add_ev_block source key m block).
Proof.
  intros Hm Hblock. unfold add_ev_block.
  apply fold_left_invariant; [exact Hm|].
  intros m' l Hm' Hl. apply evidence_all_add_ev; [exact Hm'|now apply Hblock].
Qed.

Lemma evidence_all_setdefault m key :
  evidence_all Q m -> evidence_all Q (setdefault_empty m key).
Proof.
  intros Hm. unfold setdefault_empty. destruct (m !! key) eqn:E; [exact Hm|].
  intros key' ev. destruct (decide (key = key')) as [<-|Hne].
  - rewrite lookup_insert_eq. intros [].
  - rewrite lookup_insert_ne by exact Hne. apply Hm.
Qed.
End EvidenceInvariant.

Lemma scalar_evidence_other lines key ev :
  existsb (String.eqb key) ["full_name"; "email"; "phone"; "location"]%string = false ->
  scalar_evidence lines key ev.
Proof.
  intros Hkey. split.
  - intros Hin. exfalso. cbn in Hin.
    decompose [or] Hin; subst; discriminate || contradiction.
  - intros ->. discriminate.
Qed.

Lemma scalar_evidence_line lines key source locator text :
  In key ["full_name"; "email"; "phone"]%string -> In (locator, text) lines ->
  scalar_evidence lines key (MkEvidence source locator (strip text) 1.0%float).
Proof.
  intros Hkey Hin. split.
  - intros _. exists (locator, text). auto.
  - intros ->. exfalso. cbn in Hkey. decompose [or] Hkey; discriminate || contradiction.
Qed.

Lemma find_phone_In lines : forall idx i l phone,
  find_phone idx lines = Some (i, l, phone) -> In l lines.
Proof.
  induction lines as [|[locator text] lines IH]; intros idx i l phone; cbn [find_phone];
    [discriminate|].
  destruct (re_search PHONE_RE _).
  - intros [= _ <- _]. now left.
  - intros H. right. eapply IH, H.
Qed.

Lemma find_email_In lines : forall idx i l email,
  find_email idx lines = Some (i, l, email) -> In l lines.
Proof.
  induction lines as [|[locator text] lines IH]; intros idx i l email; cbn [find_email];
    [discriminate|].
  destruct (email_of_line text) as [[|c e]|].
  - intros H. right. eapply IH, H.
  - intros [= _ <- _]. now left.
  - intros H. right. eapply IH, H.
Qed.

Lemma first_some_name_of_line_In ls name l :
  first_some name_of_line ls = Some (name, l) -> In l ls.
Proof.
  induction ls as [|x ls IH]; cbn [first_some]; [discriminate|].
  unfold name_of_line at 1. destruct (looks_like_name (snd x)).
  - intros [= _ <-]. now left.
  - intros H. right. now apply IH.
Qed.

Lemma In_firstn {A} (x : A) n l : In x (firstn n l) -> In x l.
Proof. rewrite <- (firstn_skipn n l) at 2. rewrite in_app_iff. tauto. Qed.

Lemma In_skipn {A} (x : A) n l : In x (skipn n l) -> In x l.
Proof. rewrite <- (firstn_skipn n l) at 2. rewrite in_app_iff. tauto. Qed.

Lemma find_name_In lines email_idx email name l :
  find_name lines email_idx email = Some (name, l) -> In l lines.
Proof.
  unfold find_name.
  destruct (try_name_from_window lines email_idx) as [r|] eqn:Hwin.
  - intros [= ->]. unfold try_name_from_window in Hwin.
    destruct email_idx as [c|]; [|discriminate].
    apply first_some_name_of_line_In in Hwin.
    rewrite <- in_rev in Hwin. now apply In_firstn, In_skipn in Hwin.
  - destruct (first_some name_of_line (firstn 10 lines)) as [r|] eqn:Htop.
    + intros [= ->]. apply first_some_name_of_line_In in Htop. now apply In_firstn in Htop.
    + unfold try_name_from_glued_top_line.
      destruct lines as [|[locator raw] lines]; [discriminate|].
      destruct (Nat.leb 2 _); [|discriminate].
      destruct (negb _); [|discriminate].
      intros [= _ <-]. now left.
Qed.

Lemma location_of_line_locator l loc e :
  location_of_line l = Some (loc, e) -> fst e = fst l.
Proof.
  unfold location_of_line. destruct l as [locator text].
  destruct (Nat.ltb 200 _); [discriminate|].
  destruct (_is_header_line _); [discriminate|].
  destruct (if truthy _ then _ else _); [|discriminate].
  intros [= _ <-]. reflexivity.
Qed.


(** *** Stripping keeps a substring *)

Lemma is_prefix_app (x b : pystr) : is_prefix x (x ++ b) = true.
Proof.
  induction x as [|c x IH]; [reflexivity|]. cbn. unfold chr_eqb.
  now rewrite N.eqb_refl, IH.
Qed.

Lemma contains_infix (a x b : pystr) : contains (a ++ x ++ b) x = true.
Proof.
  unfold contains, find. generalize 0.
  induction a as [|c a IH]; intros i.
  - cbn [app]. pose proof (is_prefix_app x b) as Hp.
    destruct (x ++ b); cbn [find_from]; now rewrite Hp.
  - cbn [app find_from]. destruct (is_prefix x (c :: a ++ x ++ b)); [reflexivity|].
    apply IH.
Qed.

Lemma lstrip_by_suffix (p : char -> bool) (s : pystr) :
  exists a, s = a ++ lstrip_by p s.
Proof.
  induction s as [|c s [a IH]]; [now exists []|].
  cbn. destruct (p c).
  - exists (c :: a). cbn. now f_equal.
  - now exists [].
Qed.

Lemma strip_by_infix (p : char -> bool) (s : pystr) :
  exists a b, s = a ++ strip_by p s ++ b.
Proof.
  unfold strip_by, rstrip_by.
  destruct (lstrip_by_suffix p s) as [a Ha].
  destruct (lstrip_by_suffix p (rev (lstrip_by p s))) as [b Hb].
  exists a, (rev b). rewrite <- rev_app_distr, <- Hb, rev_involutive. exact Ha.
Qed.

(** [s.strip()] is a substring of [s]. *)
Lemma contains_strip (s : pystr) : contains s (strip s) = true.
Proof.
  destruct (strip_by_infix is_space s) as [a [b H]].
  rewrite H at 1. apply contains_infix.
Qed.

Section PipelineProperties.
Variables has_degree_keyword is_high_school is_institution_keyword is_study_abroad
  : pystr -> bool.
Variable merge3_prefix : pystr -> option pystr.
Variable lines : list SourceLine.
Variable source : Source.

Local Abbreviation traced := (evidence_all (scalar_evidence lines)).

Lemma maybe_set_location_evidence ls st :
  (forall l, In l ls -> In l (firstn 15 lines)) ->
  traced (snd st) -> traced (snd (fold_left (maybe_set_location source) ls st)).
Proof.
  intros Hls Hst.
  apply (fold_left_invariant (fun st => traced (snd st))); [exact Hst|].
  intros [loc m] l Hm Hl. unfold maybe_set_location.
  destruct (truthy loc); [exact Hm|].
  destruct (location_of_line l) as [[loc' [locator formatted]]|] eqn:E; [|exact Hm].
  cbn [snd] in *. apply evidence_all_add_ev; [exact Hm|]. split.
  - intros Hin. cbn in Hin. decompose [or] Hin; discriminate || contradiction.
  - intros _. pose proof (location_of_line_locator _ _ _ E) as Hloc. cbn [fst] in Hloc.
    subst locator. exists l, loc', formatted. auto.
Qed.

Lemma extract_links_evidence m :
  traced m -> traced (snd (extract_links source lines m)).
Proof.
  intros Hm. unfold extract_links.
  apply (fold_left_invariant (fun st => traced (snd st))); [exact Hm|].
  intros st l Hst _.
  apply (fold_left_invariant (fun st => traced (snd st))); [exact Hst|].
  intros st' rx Hst' _. unfold add_links.
  apply (fold_left_invariant (fun st => traced (snd st))); [exact Hst'|].
  intros [links m'] mo Hm' _. destruct (negb _); [|exact Hm'].
  cbn [snd] in *. apply evidence_all_add_ev; [exact Hm'|apply scalar_evidence_other; reflexivity].
Qed.

Lemma skills_evidence ls st :
  traced (sk_evidence st) ->
  traced (sk_evidence (fold_left (skills_step source) ls st)).
Proof.
  intros Hst.
  apply (fold_left_invariant (fun st => traced (sk_evidence st))); [exact Hst|].
  clear. intros st [locator text] Hst _. unfold skills_step.
  repeat match goal with
         | |- traced (sk_evidence (if ?c then _ else _)) => destruct c
         | |- traced (sk_evidence (match ?x with _ => _ end)) => destruct x
         | |- traced (if ?c then _ else _) => destruct c
         | _ => progress cbn [sk_evidence]
         | _ => exact Hst
         | _ => apply evidence_all_add_ev; [exact Hst|apply scalar_evidence_other; reflexivity]
         end.
Qed.

Lemma parse_experiences_evidence idx m :
  traced m -> traced (snd (parse_experiences merge3_prefix source lines idx m)).
Proof.
  intros Hm. unfold parse_experiences. destruct idx as [idx|]; [|exact Hm].
  apply (fold_left_invariant (fun st => traced (snd st))); [exact Hm|].
  intros [exps m'] block Hm' _. unfold experience_step.
  destruct (_ || _); [|exact Hm']. cbn [snd] in *.
  apply evidence_all_add_ev_block; [exact Hm'|]. intros; apply scalar_evidence_other; reflexivity.
Qed.

Lemma fallback_flush_evidence group st :
  traced (edu_evidence st) ->
  traced (edu_evidence (fallback_flush is_study_abroad source group st)).
Proof.
  intros Hst. unfold fallback_flush.
  destruct (parse_education_entry _ _ _) as [entry w].
  destruct (_ || _); [|exact Hst]. destruct (negb _); [|exact Hst].
  cbn [edu_evidence]. apply evidence_all_add_ev_block; [exact Hst|]. intros; apply scalar_evidence_other; reflexivity.
Qed.

Lemma parse_educations_evidence edu_idx exp_idx m warnings :
  traced m ->
  traced (edu_evidence
            (parse_educations has_degree_keyword is_high_school is_institution_keyword
               is_study_abroad source lines edu_idx exp_idx m warnings)).
Proof.
  intros Hm. unfold parse_educations.
  set (st1 := match edu_idx with Some _ => _ | None => _ end).
  assert (H1 : traced (edu_evidence st1)).
  { subst st1. destruct edu_idx as [idx|]; [|exact Hm].
    apply (fold_left_invariant (fun st => traced (edu_evidence st))); [exact Hm|].
    intros st block Hst _. unfold education_step.
    destruct (classify_entry_as_education _ _ _ _ _ _); [|exact Hst].
    destruct (parse_education_entry _ _ _) as [entry w].
    destruct (_ || _); [|exact Hst].
    cbn [edu_evidence]. apply evidence_all_add_ev_block; [exact Hst|]. intros; apply scalar_evidence_other; reflexivity. }
  clearbody st1.
  set (st2 := if is_some edu_idx && _ then _ else _).
  assert (H2 : traced (edu_evidence st2)).
  { subst st2. destruct (_ && _); [exact H1|exact H1]. }
  clearbody st2.
  destruct (_ && _); [|exact H2].
  unfold education_fallback.
  destruct (fold_left fallback_scan_step _ _) as [block flag].
  destruct (nonempty block); [|exact H2].
  destruct (fold_left (fallback_group_step _ _) _ _) as [group st3] eqn:E.
  assert (H3 : traced (edu_evidence st3)).
  { change st3 with (snd (group, st3)). rewrite <- E.
    apply (fold_left_invariant (fun st => traced (edu_evidence (snd st)))); [exact H2|].
    intros [g st] l Hst _. unfold fallback_group_step.
    destruct (_ && _); cbn [snd] in *; [|exact Hst].
    now apply fallback_flush_evidence. }
  destruct (nonempty group); [|exact H3].
  now apply fallback_flush_evidence.
Qed.

Lemma parse_sections_evidence :
  traced (p_evidence
            (parse_sections has_degree_keyword is_high_school is_institution_keyword
               is_study_abroad merge3_prefix lines source)).
Proof.
  unfold parse_sections.
  pose proof (evidence_all_empty (scalar_evidence lines)) as H0.
  (* phone *)
  match goal with
  | |- traced (p_evidence (match ?X with _ => _ end)) =>
    assert (H1 : traced (snd X)); [|destruct X as [phone m1]; cbn [snd] in H1]
  end.
  { destruct (find_phone 0 lines) as [[[i [locator text]] phone]|] eqn:E; [|exact H0].
    cbn [snd]. apply evidence_all_add_ev; [exact H0|].
    apply scalar_evidence_line; [cbn; tauto|]. eapply find_phone_In, E. }
  (* email *)
  match goal with
  | |- traced (p_evidence (match ?X with _ => _ end)) =>
    assert (H2 : traced (snd X)); [|destruct X as [[email email_idx] m2]; cbn [snd] in H2]
  end.
  { destruct (find_email 0 lines) as [[[i [locator text]] email]|] eqn:E; [|exact H1].
    cbn [snd]. apply evidence_all_add_ev; [exact H1|].
    apply scalar_evidence_line; [cbn; tauto|]. eapply find_email_In, E. }
  (* name *)
  match goal with
  | |- traced (p_evidence (match ?X with _ => _ end)) =>
    assert (H3 : traced (snd X)); [|destruct X as [full_name m3]; cbn [snd] in H3]
  end.
  { destruct (find_name lines email_idx email) as [[name [locator text]]|] eqn:E;
      [|exact H2].
    cbn [snd]. apply evidence_all_add_ev; [exact H2|].
    apply scalar_evidence_line; [cbn; tauto|]. eapply find_name_In, E. }
  (* location *)
  match goal with
  | |- traced (p_evidence (match ?X with _ => _ end)) =>
    assert (H4 : traced (snd X)); [|destruct X as [location m4]; cbn [snd] in H4]
  end.
  { apply maybe_set_location_evidence; [auto|exact H3]. }
  (* links *)
  match goal with
  | |- traced (p_evidence (match ?X with _ => _ end)) =>
    assert (H5 : traced (snd X)); [|destruct X as [links m5]; cbn [snd] in H5]
  end.
  { apply extract_links_evidence, H4. }
  (* skills, experiences *)
  match goal with
  | |- traced (p_evidence (match ?X with _ => _ end)) =>
    assert (H6 : traced (snd X)); [|destruct X as [experiences m6]; cbn [snd] in H6]
  end.
  { apply parse_experiences_evidence, skills_evidence, H5. }
  (* education *)
  cbn [p_evidence]. apply parse_educations_evidence, H6.
Qed.

Local Abbreviation parse :=
  (parse_lines_to_response has_degree_keyword is_high_school is_institution_keyword
     is_study_abroad merge3_prefix lines source).
Local Abbreviation staged :=
  (parse_sections has_degree_keyword is_high_school is_institution_keyword
     is_study_abroad merge3_prefix lines source).


(** *** Reclassification and merge *)

Lemma split_experience_and_education_filter (experiences : list Experience) :
  forall true_experiences reclassified_education,
    split_experience_and_education experiences
    = OK (true_experiences, reclassified_education) ->
    true_experiences
    = List.filter (fun exp => negb (looks_like_education_entry exp)) experiences.
Proof.
  induction experiences as [|exp experiences IH]; intros t e; cbn [split_experience_and_education].
  - intros [= <- <-]. reflexivity.
  - cbn [List.filter]. destruct (looks_like_education_entry exp); cbn [negb].
    + destruct (convert_experience_to_education exp); cbn [bind]; [|discriminate].
      destruct (split_experience_and_education experiences) as [[t' e']|]; cbn [bind];
        [|discriminate].
      intros [= <- <-]. now apply (IH _ e').
    + destruct (split_experience_and_education experiences) as [[t' e']|]; cbn [bind];
        [|discriminate].
      intros [= <- <-]. f_equal. now apply (IH _ e').
Qed.

Lemma identified_key (edu edu' : EducationEntry) :
  key_eqb (edu_key edu) (edu_key edu') = true -> identified edu = true ->
  identified edu' = true.
Proof.
  unfold key_eqb, edu_key, identified. cbn [fst snd].
  intros [Hi Hd]%andb_prop. apply str_eqb_eq in Hi, Hd.
  destruct (institution edu) as [[|? ?]|], (institution edu') as [[|? ?]|];
    cbn in Hi; try discriminate; cbn; try reflexivity;
    destruct (degree edu) as [[|? ?]|], (degree edu') as [[|? ?]|];
    cbn in Hd; try discriminate; cbn; try reflexivity; auto.
Qed.

Lemma replace_key_identified key edu unique :
  Forall (fun e => identified e = true) unique -> identified edu = true ->
  Forall (fun e => identified e = true) (replace_key key edu unique).
Proof.
  intros Hall Hedu. induction Hall as [|existing rest Hex Hrest IH]; [constructor|].
  cbn [replace_key]. destruct (key_eqb _ _); constructor; assumption.
Qed.

Lemma merge_education_identified educations reclassified :
  Forall (fun e => identified e = true) (merge_education educations reclassified).
Proof.
  unfold merge_education.
  apply (fold_left_invariant (fun u => Forall (fun e => identified e = true) u));
    [constructor|].
  intros unique edu Hall _. unfold dedup_step.
  destruct (List.find _ unique) as [existing|] eqn:E.
  - destruct (Nat.ltb _ _); [|exact Hall].
    apply find_some in E as [Hin Hkey].
    apply replace_key_identified; [exact Hall|].
    rewrite List.Forall_forall in Hall.
    apply (identified_key existing); [exact Hkey|]. apply Hall, Hin.
  - destruct (truthy (institution edu) || truthy (degree edu)) eqn:Hid; [|exact Hall].
    apply Forall_app. split; [exact Hall|]. constructor; [exact Hid|constructor].
Qed.

(** C1, as the code has it.  Every education entry of a response has an
    institution or a degree.  The experiences are filtered only when the
    education stage parsed no entry: then no experience of the response
    shows one of the degree, institution or study-abroad terms of the
    reclassification pass in its company, title and location. *)
Theorem education_identified_experiences_filtered (r : ParseResponse) :
  parse_lines_to_response has_degree_keyword is_high_school is_institution_keyword
    is_study_abroad merge3_prefix lines source = OK r ->
  Forall (fun edu => truthy (institution edu) || truthy (degree edu) = true)
         (cp_education (candidate_profile r))
  /\ (p_educations
        (parse_sections has_degree_keyword is_high_school is_institution_keyword
           is_study_abroad merge3_prefix lines source) = [] ->
      Forall (fun exp => looks_like_education_entry exp = false)
             (cp_experiences (candidate_profile r))).
Proof.
  unfold parse_lines_to_response, finish_response.
  destruct (reclassify _ _) as [[experiences reclassified]|e] eqn:E; cbn [bind];
    [|discriminate].
  intros [= <-]. cbn [candidate_profile cp_education cp_experiences]. split.
  - apply merge_education_identified.
  - intros Hnone. unfold reclassify in E. rewrite Hnone in E. cbn in E.
    apply split_experience_and_education_filter in E. subst experiences.
    apply List.Forall_forall. intros exp [_ Hexp]%filter_In.
    now apply negb_true_iff in Hexp.
Qed.

End PipelineProperties.

(** *** The examples *)

(** C1, the claim as worded fails: an education section that parses to an
    entry keeps the reclassification pass from running, and the experience at
    Boston University stays in the experiences of the response. *)
Lemma experience_at_university_stays :
  exists r,
    AgentParser.parse_lines_to_response boston_lines docx = OK r
    /\ List.map (fun exp => (company exp, looks_like_education_entry exp,
                             AgentParser.is_institution_keyword (entry_signal_text exp)))
                (cp_experiences (candidate_profile r))
       = [(Some (py "Boston University"), true, true)].
Proof. eexists. split; vm_compute; reflexivity. Qed.

Lemma education_identified_experiences_filtered_witness :
  exists r,
    AgentParser.parse_lines_to_response boston_lines_no_entry docx = OK r
    /\ Forall (fun edu => truthy (institution edu) || truthy (degree edu) = true)
              (cp_education (candidate_profile r))
    /\ Forall (fun exp => looks_like_education_entry exp = false)
              (cp_experiences (candidate_profile r)).
Proof.
  eexists. split; [vm_compute; reflexivity|].
  split.
  - refine (proj1 (education_identified_experiences_filtered
                     AgentParser.has_degree_keyword AgentParser.is_high_school
                     AgentParser.is_institution_keyword AgentParser.is_study_abroad
                     AgentParser.merge3_prefix boston_lines_no_entry docx _ _)).
    vm_compute; reflexivity.
  - refine (proj2 (education_identified_experiences_filtered
                     AgentParser.has_degree_keyword AgentParser.is_high_school
                     AgentParser.is_institution_keyword AgentParser.is_study_abroad
                     AgentParser.merge3_prefix boston_lines_no_entry docx _ _) _);
      vm_compute; reflexivity.
Defined.





(** C3, the code against the claim.  The education grouper starts a block at
    a bullet line that names an institution, and both groupers open their
    first block with a bullet line when it is the first line of the
    section. *)
Theorem block_starts_with_bullet :
  AgentParser._group_education_entries
    (docx_lines ["EDUCATION"; "Gonzaga University"; "● Member of University choir"]%string) 0
  = [[(py "docx:paragraph:1", py "Gonzaga University")];
     [(py "docx:paragraph:2", py "● Member of University choir")]]
  /\ is_bullet (py "● Member of University choir") = true
  /\ _group_experience_entries (docx_lines ["EXPERIENCE"; "- built things"]%string) 0
     = [[(py "docx:paragraph:1", py "- built things")]]
  /\ AgentParser._group_education_entries
       (docx_lines ["EDUCATION"; "- built things"]%string) 0
     = [[(py "docx:paragraph:1", py "- built things")]]
  /\ is_bullet (py "- built things") = true.
Proof. repeat split; vm_compute; reflexivity. Qed.

(** C5, the code against the claim.  The Gonzaga block under an education
    header yields one entry, with the dates 2012 and 2016 and the bullet kept
    with its colon, but its degree is [Bachelor], it has no field of study,
    and the degree line is stored in the details with its words glued: the
    word-break repair removes the blank between two lowercase letters. *)
Theorem gonzaga_entry_parsed :
  AgentParser.parse_education_entry (docx_lines gonzaga_block) (Some SecEducation)
  = (gonzaga_entry, [])
  /\ (exists r,
        AgentParser.parse_lines_to_response
          (docx_lines ("EDUCATION"%string :: gonzaga_block)) docx = OK r
        /\ cp_education (candidate_profile r) = [gonzaga_entry])
  /\ normalize_pdf_wordbreaks (py "Bachelor of Science in Communication Studies")
     = py "Bachelorof Sciencein Communication Studies"
  /\ degree gonzaga_entry <> Some (py "Bachelor of Science")
  /\ field_of_study gonzaga_entry <> Some (py "Communication Studies").
Proof.
  split; [vm_compute; reflexivity|].
  split; [eexists; split; vm_compute; reflexivity|].
  split; [vm_compute; reflexivity|]. split; discriminate.
Qed.

Lemma confidence_scores_keys_witness :
  exists r,
    AgentParser.parse_lines_to_response
      (docx_lines ("EDUCATION"%string :: gonzaga_block)) docx = OK r
    /\ dom (confidence_scores r) = confidence_keys
    /\ confidence_scores r !! "education"%string = None
    /\ is_Some (evidence_map r !! "education"%string).
Proof.
  eexists. split; [vm_compute; reflexivity|].
  refine (confidence_scores_keys AgentParser.has_degree_keyword
            AgentParser.is_high_school AgentParser.is_institution_keyword
            AgentParser.is_study_abroad AgentParser.merge3_prefix
            (docx_lines ("EDUCATION"%string :: gonzaga_block)) docx _ _).
  vm_compute; reflexivity.
Defined.

Lemma parse_lines_to_response_deterministic_witness :
  parse_lines_to_response
    (keyword_scan (rev DEGREE_KEYWORDS)) (keyword_scan (rev HIGH_SCHOOL_KEYWORDS))
    (keyword_scan (rev INSTITUTION_KEYWORDS)) (keyword_scan (rev STUDY_ABROAD_KEYWORDS))
    (text_normalization.merge3_scan (rev text_normalization.MERGE_3_PREFIX_WHITELIST))
    boston_lines docx
  = AgentParser.parse_lines_to_response boston_lines docx.
Proof.
  apply parse_lines_to_response_deterministic; apply Permutation_rev.
Defined.
